(** * Training / validation orchestration of CNNFCN_PatternSeries

    A shallow embedding of [running.py], [main.py] and [models/PSEncoder.py].

    Number model.  Python scalars ([float]) are IEEE binary64 values and
    are embedded as Rocq's primitive floats, operation for operation:
    [+], [*], [/], [<] are the kernel's binary64 operations.  Values that
    live in torch tensors are binary32 in the program; where a definition
    only moves, compares or sums them they are embedded as primitive
    floats as well, and where the program needs [exp] (softmax, Weibull
    CDF) the embedding is over the real numbers, in the module [openmax].
    The network of [PSEncoder] is written over the arithmetic of its
    tensors and read at the real numbers and at binary32. *)

From Stdlib Require Import ZArith String Ascii List Bool Arith Lia.
From Stdlib Require Import Floats Uint63 DecimalString Sorted.
From Stdlib Require Import Reals Lra.
From Stdlib Require DecimalNat.
Import ListNotations.

Set Warnings "-inexact-float".
Local Open Scope string_scope.
Local Open Scope list_scope.

(** ** Python values, exceptions, results *)

Inductive exn : Type :=
| ZeroDivisionError
| TypeError (msg : string)
| KeyError (key : string)
| IndexError
| NotImplementedError (msg : string)
| RuntimeError (msg : string).

Inductive result (A : Type) : Type :=
| Ok (a : A)
| Raise (e : exn).
Arguments Ok {A} a.
Arguments Raise {A} e.

Definition bind {A B : Type} (m : result A) (k : A -> result B) : result B :=
  match m with
  | Ok a => k a
  | Raise e => Raise e
  end.

Declare Scope py_scope.
Delimit Scope py_scope with py.
Notation "x <- m ;; k" := (bind m (fun x => k))
  (at level 100, m at next level, right associativity) : py_scope.
Notation "' p <- m ;; k" := (bind m (fun p => k))
  (at level 100, p pattern, m at next level, right associativity) : py_scope.
Local Open Scope py_scope.

(** The scalars that end up in a metrics dictionary. *)
Inductive pyval : Type :=
| PyNone
| PyInt (z : Z)
| PyFloat (f : float).

(** [float(n)] for a Python int; exact below 2^53, rounded to nearest
    above, as CPython does. *)
Definition float_of_Z (z : Z) : float :=
  match z with
  | Z0 => 0%float
  | Zpos _ => PrimFloat.of_uint63 (Uint63.of_Z z)
  | Zneg _ => PrimFloat.opp (PrimFloat.of_uint63 (Uint63.of_Z (Z.opp z)))
  end.

Definition float_of_nat (n : nat) : float := float_of_Z (Z.of_nat n).

(** [x / n] on a Python float and a Python int: raises on a zero divisor. *)
Definition py_truediv (x : float) (n : nat) : result float :=
  match n with
  | O => Raise ZeroDivisionError
  | S _ => Ok (PrimFloat.div x (float_of_nat n))
  end.

(** [t / n] on a zero-dimensional tensor: IEEE division, never raises. *)
Definition tensor_div (x : float) (n : nat) : float :=
  PrimFloat.div x (float_of_nat n).

(** [torch.sum] of a one-dimensional tensor, as a left-to-right sum in
    binary64.  The tensor's own rounding (binary32) and the library's
    order of addition are not modelled: the properties below are about
    which sums are divided by which counts, whatever a sum rounds to. *)
Definition torch_sum (t : list float) : float :=
  fold_left PrimFloat.add t 0%float.

(** Python's built-in [sum] over floats. *)
Definition py_sum (l : list float) : float :=
  fold_left PrimFloat.add l 0%float.

(** ** OrderedDict of metrics *)

Definition OrderedDict : Type := list (string * pyval).

Fixpoint dict_get (d : OrderedDict) (k : string) : option pyval :=
  match d with
  | [] => None
  | (k', v) :: d' => if String.eqb k' k then Some v else dict_get d' k
  end.

(** [d[k] = v]: an existing key keeps its position, a new key is appended. *)
Fixpoint dict_set (d : OrderedDict) (k : string) (v : pyval) : OrderedDict :=
  match d with
  | [] => [(k, v)]
  | (k', v') :: d' =>
      if String.eqb k' k then (k, v) :: d' else (k', v') :: dict_set d' k v
  end.

(** [d[k]] *)
Definition getitem (d : OrderedDict) (k : string) : result pyval :=
  match dict_get d k with
  | Some v => Ok v
  | None => Raise (KeyError k)
  end.

Definition py_epoch (epoch_num : option Z) : pyval :=
  match epoch_num with
  | Some e => PyInt e
  | None => PyNone
  end.

(** ** running.py: the runners *)

(** What one batch contributes to the loops below: [loss] is the tensor
    returned by [self.loss_module], one entry per active element
    (unsupervised) or per sample (supervised); [IDs] the sample IDs.  The
    model, the loss module and the optimizer are external; the console
    line printed every [print_interval] batches is left out. *)
Record Batch : Type := mkBatch {
  loss : list float;
  IDs : list Z
}.

(** Loop-carried variables of [train_epoch] / [evaluate]. *)
Record Accum : Type := mkAccum {
  epoch_loss : float;
  total_count : nat;
  batch_means : list float   (* mean_loss of each batch, in order *)
}.

Definition accum0 : Accum := mkAccum 0%float 0 [].

(** One iteration of the training loops (lines 286-312 and 407-438):
    [mean_loss] is a tensor division. *)
Definition train_step (acc : Accum) (batch : Batch) : Accum :=
  let batch_loss := torch_sum (loss batch) in
  let mean_loss := tensor_div batch_loss (length (loss batch)) in
  mkAccum (PrimFloat.add (epoch_loss acc) batch_loss)
          (total_count acc + length (loss batch))
          (batch_means acc ++ [mean_loss]).

(** One iteration of the evaluation loops (lines 346-365 and 500-520):
    [batch_loss] is a Python float, so [mean_loss] is a Python division. *)
Definition eval_step (acc : Accum) (batch : Batch) : result Accum :=
  let batch_loss := torch_sum (loss batch) in
  mean_loss <- py_truediv batch_loss (length (loss batch)) ;;
  Ok (mkAccum (PrimFloat.add (epoch_loss acc) batch_loss)
              (total_count acc + length (loss batch))
              (batch_means acc ++ [mean_loss])).

Fixpoint eval_loop (acc : Accum) (batches : list Batch) : result Accum :=
  match batches with
  | [] => Ok acc
  | b :: rest => acc' <- eval_step acc b ;; eval_loop acc' rest
  end.

(** The [per_batch] record.  Of its keys, ['metrics'] and ['IDs'] are
    kept here; the tensors under ['targets'], ['predictions'],
    ['target_masks'] and ['recon'] are carried along by the program and
    read by none of the functions below. *)
Record PerBatch : Type := mkPerBatch {
  pb_metrics : list (list (list float));
  pb_IDs : list (list Z)
}.

Module UnsupervisedRunner.

Definition train_epoch (epoch_metrics : OrderedDict) (epoch_num : option Z)
    (dataloader : list Batch) : result OrderedDict :=
  let acc := fold_left train_step dataloader accum0 in
  epoch_loss <- py_truediv (epoch_loss acc) (total_count acc) ;;
  let epoch_metrics := dict_set epoch_metrics "epoch" (py_epoch epoch_num) in
  let epoch_metrics := dict_set epoch_metrics "loss" (PyFloat epoch_loss) in
  Ok epoch_metrics.

(** [per_batch['metrics'].append([loss])], [per_batch['IDs'].append(IDs)] *)
Definition collect (dataloader : list Batch) : PerBatch :=
  mkPerBatch (map (fun b => [loss b]) dataloader) (map IDs dataloader).

(** [evaluate(epoch_num, keep_all=True)], the form every caller uses. *)
Definition evaluate (epoch_metrics : OrderedDict) (epoch_num : option Z)
    (dataloader : list Batch) : result (OrderedDict * PerBatch) :=
  acc <- eval_loop accum0 dataloader ;;
  epoch_loss <- py_truediv (epoch_loss acc) (total_count acc) ;;
  let epoch_metrics := dict_set epoch_metrics "epoch" (py_epoch epoch_num) in
  let epoch_metrics := dict_set epoch_metrics "loss" (PyFloat epoch_loss) in
  Ok (epoch_metrics, collect dataloader).

End UnsupervisedRunner.

(** What [analyzer.analyze_classification] hands back (utils/analysis.py is
    external): the fields the runner reads. *)
Record MetricsDict : Type := mkMetricsDict {
  total_accuracy : pyval;
  prec_avg : pyval;
  rec_avg : pyval;
  f1_avg : pyval;
  precision : list pyval;
  recall : list pyval;
  f1 : list pyval
}.

Definition str_of_nat (n : nat) : string :=
  NilEmpty.string_of_uint (Nat.to_uint n).

(** [for i in range(len(mval)): epoch_metrics[m + '-cls-' + str(i+1)] = mval[i]] *)
Fixpoint set_per_class (d : OrderedDict) (m : string) (i : nat)
    (mval : list pyval) : OrderedDict :=
  match mval with
  | [] => d
  | v :: rest =>
      set_per_class (dict_set d (m ++ "-cls-" ++ str_of_nat (i + 1))%string v)
                    m (S i) rest
  end.

(** Lines 455-464 and 538-547. *)
Definition set_classification_metrics (d : OrderedDict) (md : MetricsDict)
    : OrderedDict :=
  let d := dict_set d "accuracy" (total_accuracy md) in
  let d := dict_set d "precision" (prec_avg md) in
  let d := dict_set d "recall" (rec_avg md) in
  let d := dict_set d "f1" (f1_avg md) in
  let d := set_per_class d "precision" 0 (precision md) in
  let d := set_per_class d "recall" 0 (recall md) in
  set_per_class d "f1" 0 (f1 md).

(** ** Tensor scalars

    The open-set code only sums, averages and compares tensor entries; it
    is written once over the operations it uses and read at two number
    types: binary floats (executable) and the reals (for [exp]). *)
Record Scalar (T : Type) : Type := mkScalar {
  sc_sum : list T -> T;        (* torch.sum of a 1-d tensor *)
  sc_div : T -> nat -> T;      (* tensor / int *)
  sc_beats : T -> T -> bool    (* [sc_beats x best]: x replaces the running maximum *)
}.
Arguments sc_sum {T} _ _.
Arguments sc_div {T} _ _ _.
Arguments sc_beats {T} _ _ _.

(** [torch.max] keeps the first maximal entry and lets a NaN win. *)
Definition float_beats (x best : float) : bool :=
  (negb (PrimFloat.is_nan best) && (PrimFloat.is_nan x || PrimFloat.ltb best x))%bool.

Definition float_scalar : Scalar float :=
  mkScalar float torch_sum tensor_div float_beats.

Definition real_sum (l : list R) : R := fold_left Rplus l 0%R.

Definition real_scalar : Scalar R :=
  mkScalar R real_sum (fun x n => (x / INR n)%R)
           (fun x best => if Rlt_dec best x then true else false).

(** [softmax] along the class dimension, over the reals. *)
Definition softmax (v : list R) : list R :=
  map (fun x => (exp x / real_sum (map exp v))%R) v.

(** Lines 447-448 and 530-531 of running.py,
    [probs = torch.nn.functional.softmax(predictions)]: the softmax the
    runner applies to what the model returned, row by row. *)
Definition downstream_probs (predictions : list (list R)) : list (list R) :=
  map softmax predictions.

(** What the model returns for one sample of a batch: its row of
    [logits], its slice of every tensor of [latent] (channels x length),
    and the sample's label. *)
Record Sample (T : Type) : Type := mkSample {
  logits : list T;
  latent : list (list (list T));
  target : Z
}.
Arguments mkSample {T} _ _ _.
Arguments logits {T} _.
Arguments latent {T} _.
Arguments target {T} _.

Fixpoint mapM {A B : Type} (f : A -> result B) (l : list A) : result (list B) :=
  match l with
  | [] => Ok []
  | a :: rest => b <- f a ;; bs <- mapM f rest ;; Ok (b :: bs)
  end.

Module openmax.

(** Modelled from the spec: utils/openmax.py is not among the sources.
    The data of the Weibull tail model (spec section 3): per class the
    mean activation vector and, per channel, a fitted (shape, scale,
    location) triple; an under-populated class is flagged invalid and
    carries the fitting error that is reported for it (section 7). *)
Record WeibullParams (T : Type) : Type := mkWeibullParams {
  w_shape : T;
  w_scale : T;
  w_loc : T
}.
Arguments mkWeibullParams {T} _ _ _.
Arguments w_shape {T} _.
Arguments w_scale {T} _.
Arguments w_loc {T} _.

(** Modelled from the spec: the fitting error of the missing
    [weibull_tailfitting], reported per class. *)
Inductive FittingError : Type :=
| TailTooShort (label n_samples tail_size : nat).

(** Modelled from the spec: a class's entry in the Weibull model of the
    missing utils/openmax.py, fitted or flagged invalid. *)
Inductive ClassEntry (T : Type) : Type :=
| Fitted (mean_vec : list T) (weibull : list (WeibullParams T))
| Invalid (mean_vec : list T) (err : FittingError).
Arguments Fitted {T} _ _.
Arguments Invalid {T} _ _.

(** Modelled from the spec: the Weibull model of the missing
    utils/openmax.py, keyed by class label. *)
Definition WeibullModel (T : Type) : Type := list (nat * ClassEntry T).

(** Modelled from the spec: [weibull_model[label]] on that model. *)
Fixpoint lookup {T : Type} (m : WeibullModel T) (label : nat)
    : option (ClassEntry T) :=
  match m with
  | [] => None
  | (l, e) :: rest => if Nat.eqb l label then Some e else lookup rest label
  end.

Section Fitting.

Variable T : Type.
(** The per-channel distance (a blend of cosine and Euclidean distance
    with a tunable weight), the order on distances, the maximum
    likelihood fit and the tail size are the function's tunables. *)
Variable channel_distance : T -> T -> T.
Variable leb : T -> T -> bool.
Variable mle_fit : list T -> WeibullParams T.
Variable tail_size : nat.

(** Modelled from the spec: [compute_channel_distances(mav, samples)] of
    the missing utils/openmax.py, "for each sample, for each activation
    channel, a scalar distance to the corresponding MAV channel". *)
Definition compute_channel_distances (mav : list T) (samples : list (list T))
    : list (list T) :=
  map (fun s => map (fun p => channel_distance (fst p) (snd p)) (combine mav s))
      samples.

(** Modelled from the spec: "sorts distances descending" of the missing
    [weibull_tailfitting], as an insertion sort. *)
Fixpoint insert_desc (x : T) (l : list T) : list T :=
  match l with
  | [] => [x]
  | y :: rest => if leb y x then x :: l else y :: insert_desc x rest
  end.

(** Modelled from the spec: the descending sort of the missing
    [weibull_tailfitting]. *)
Definition sort_desc (l : list T) : list T := fold_right insert_desc [] l.

(** Modelled from the spec: the distances of channel [c], one per sample,
    as the missing [weibull_tailfitting] reads them "per channel". *)
Definition channel (c : nat) (dists : list (list T)) : list T :=
  concat (map (fun d => match nth_error d c with Some x => [x] | None => [] end)
              dists).

(** Modelled from the spec: one class of [weibull_tailfitting], "per
    channel, sorts distances descending, takes the first tailSize values,
    fits a 3-parameter Weibull"; "fails (reports a fitting error, does not
    crash the caller) if a class has fewer than tailSize
    correctly-classified samples". *)
Definition fit_class (mav : list T) (dists : list (list T)) (label : nat)
    : ClassEntry T :=
  if Nat.ltb (length dists) tail_size
  then Invalid mav (TailTooShort label (length dists) tail_size)
  else Fitted mav
         (map (fun c => mle_fit (firstn tail_size (sort_desc (channel c dists))))
              (seq 0 (length mav))).

(** Modelled from the spec: [weibull_tailfitting(MAVs, distanceSets,
    classLabels, tailSize)] of the missing utils/openmax.py. *)
Definition weibull_tailfitting (MAVs : list (list T))
    (distanceSets : list (list (list T))) (classLabels : list nat)
    : WeibullModel T :=
  map (fun p => let '(mav, dists, label) := p in (label, fit_class mav dists label))
      (combine (combine MAVs distanceSets) classLabels).

End Fitting.

Section Scores.

(** The number of top logits that are revised and the per-channel
    distance are tunables (spec section 9). *)
Variable alpha : nat.
Variable channel_distance : R -> R -> R.

(** Modelled from the spec: the CDF of the 3-parameter Weibull
    distribution, which the missing [get_scores] evaluates. *)
Definition weibull_cdf (p : WeibullParams R) (d : R) : R :=
  if Rle_dec d (w_loc p) then 0%R
  else (1 - exp (- Rpower ((d - w_loc p) / w_scale p) (w_shape p)))%R.

(** Modelled from the spec: the ranking of the logits in the missing
    [get_scores].  [outranks logits j c]: logit [j] comes before logit [c],
    largest first, ties by index. *)
Definition outranks (logits : list R) (j c : nat) : bool :=
  let lj := nth j logits 0%R in
  let lc := nth c logits 0%R in
  if Rlt_dec lc lj then true
  else if Rlt_dec lj lc then false
  else Nat.ltb j c.

(** Modelled from the spec: the rank of logit [c] in the missing
    [get_scores], 0 for the largest. *)
Definition rank (logits : list R) (c : nat) : nat :=
  length (filter (fun j => outranks logits j c) (seq 0 (length logits))).

(** Modelled from the spec: the rank weight of a logit in the missing
    [get_scores], positive for the top [alpha], zero below. *)
Definition rank_weight (logits : list R) (c : nat) : R :=
  if Nat.ltb (rank logits c) alpha
  then (INR (alpha - rank logits c) / INR alpha)%R
  else 0%R.

(** Modelled from the spec: the per-channel revision weights of class
    [c] for one activation vector in the missing [get_scores]; an invalid
    or absent class contributes none (section 7). *)
Definition channel_weights (weibullModel : WeibullModel R) (av : list R)
    (c : nat) : list R :=
  match lookup weibullModel c with
  | Some (Fitted mav params) =>
      map (fun q => weibull_cdf (snd q)
                      (channel_distance (fst (fst q)) (snd (fst q))))
          (combine (combine mav av) params)
  | _ => []
  end.

(** Modelled from the spec: the revision of one logit in the missing
    [get_scores], downward, channel by channel; the second component is
    the mass that leaks to the unknown class. *)
Definition revise (logit rw : R) (ws : list R) : R * R :=
  fold_left (fun acc w => ((fst acc * (1 - w * rw))%R,
                           (snd acc + fst acc * (w * rw))%R))
            ws (logit, 0%R).

(** Modelled from the spec: the missing [get_scores] on one activation
    vector: the softmax over the revised logits and the unknown
    pseudo-logit, and the softmax over the original logits. *)
Definition score_one (weibullModel : WeibullModel R) (numClasses : nat)
    (av : list R) : list R * list R :=
  let logits := firstn numClasses av in
  let revised :=
    map (fun c => revise (nth c logits 0%R) (rank_weight logits c)
                         (channel_weights weibullModel av c))
        (seq 0 (length logits)) in
  let unknown := real_sum (map snd revised) in
  (softmax (map fst revised ++ [unknown]), softmax logits).

(** Modelled from the spec: [get_scores(weibullModel, activationVectors,
    numClasses, classIndexMap, openSetClassIndexMap)] of the missing
    utils/openmax.py.  The two index maps the runner passes are the
    identity on [range(num_classes)] with 'unknown' at [num_classes];
    classes are read by their index and the unknown class comes last. *)
Definition get_scores (weibullModel : WeibullModel R)
    (activationVectors : list (list R)) (numClasses : nat)
    : list (list R) * list (list R) :=
  let scored := map (score_one weibullModel numClasses) activationVectors in
  (map fst scored, map snd scored).

End Scores.

End openmax.

Module SupervisedRunner.

(** Only ['IDs'] is appended to ([per_batch['metrics']] stays empty). *)
Definition collect (dataloader : list Batch) : PerBatch :=
  mkPerBatch [] (map IDs dataloader).

(** [metrics_dict] is the analyzer's answer for the epoch's predictions;
    the returned [per_batch] holds predictions and targets only. *)
Definition train_epoch (epoch_metrics : OrderedDict) (epoch_num : option Z)
    (dataloader : list Batch) (metrics_dict : MetricsDict)
    : result (OrderedDict * PerBatch) :=
  let acc := fold_left train_step dataloader accum0 in
  epoch_loss <- py_truediv (epoch_loss acc) (total_count acc) ;;
  let epoch_metrics := dict_set epoch_metrics "epoch" (py_epoch epoch_num) in
  let epoch_metrics := dict_set epoch_metrics "loss" (PyFloat epoch_loss) in
  Ok (set_classification_metrics epoch_metrics metrics_dict, mkPerBatch [] []).

(** [evaluate(epoch_num, keep_all=True)]; [auc] is [Some (AUROC, AUPRC)],
    sklearn's answers, exactly when [self.model.num_classes == 2]. *)
Definition evaluate (epoch_metrics : OrderedDict) (epoch_num : option Z)
    (dataloader : list Batch) (metrics_dict : MetricsDict)
    (auc : option (pyval * pyval)) : result (OrderedDict * PerBatch) :=
  acc <- eval_loop accum0 dataloader ;;
  epoch_loss <- py_truediv (epoch_loss acc) (total_count acc) ;;
  let epoch_metrics := dict_set epoch_metrics "epoch" (py_epoch epoch_num) in
  let epoch_metrics := dict_set epoch_metrics "loss" (PyFloat epoch_loss) in
  let epoch_metrics := set_classification_metrics epoch_metrics metrics_dict in
  let epoch_metrics :=
    match auc with
    | Some (auroc, auprc) =>
        dict_set (dict_set epoch_metrics "AUROC" auroc) "AUPRC" auprc
    | None => epoch_metrics
    end in
  Ok (epoch_metrics, collect dataloader).

(** *** The open-set methods of [SupervisedRunner] *)

Fixpoint insert_unique (x : nat) (l : list nat) : list nat :=
  match l with
  | [] => [x]
  | y :: rest =>
      if Nat.ltb x y then x :: l
      else if Nat.eqb x y then l
      else y :: insert_unique x rest
  end.

(** [torch.unique]: the distinct values, ascending. *)
Definition torch_unique (l : list nat) : list nat :=
  fold_right insert_unique [] l.

Section OpenSet.

Variable T : Type.
Variable S : Scalar T.
Variable channel_distance : T -> T -> T.
Variable leb : T -> T -> bool.
Variable mle_fit : list T -> openmax.WeibullParams T.
Variable tail_size : nat.

(** [torch.squeeze(nn.AdaptiveAvgPool1d(1)(layer))] for one sample of a
    batch of [B]: the mean over the length of every channel.  [squeeze]
    drops every dimension of size one, so with a single sample or a single
    channel the result is not a (batch, channels) matrix and the
    [torch.cat(squeezed_latent, 1)] that follows raises. *)
Definition squeeze_pool (B : nat) (layer : list (list T)) : result (list T) :=
  if (Nat.eqb B 1 || Nat.eqb (length layer) 1)%bool
  then Raise (RuntimeError "Tensors must have same number of dimensions")
  else Ok (map (fun row => sc_div S (sc_sum S row) (length row)) layer).

(** The row of [feature = torch.cat(squeezed_latent, 1)] of one sample. *)
Definition activation_feature (B : nat) (s : Sample T) : result (list T) :=
  pooled <- mapM (squeeze_pool B) (latent s) ;;
  Ok (logits s ++ concat pooled).

Fixpoint argmax_from (row : list T) (i : nat) (best : T) (best_i : nat) : nat :=
  match row with
  | [] => best_i
  | x :: rest =>
      if sc_beats S x best then argmax_from rest (i + 1) x i
      else argmax_from rest (i + 1) best best_i
  end.

(** [torch.max(row)[1]] *)
Definition argmax (row : list T) : result nat :=
  match row with
  | [] => Raise (RuntimeError "max(): Expected reduction dim 1 to have non-zero size")
  | x :: rest => Ok (argmax_from rest 1 x 0)
  end.

(** Lines 583-586 for one row: [predicted_category] is the argmax of the
    whole row of [feature]; the row is kept when it equals the target. *)
Definition tagged_row (B : nat) (s : Sample T) : result (nat * Z * list T) :=
  feature <- activation_feature B s ;;
  predicted_category <- argmax feature ;;
  Ok (predicted_category, target s, feature).

Definition is_correct (r : nat * Z * list T) : bool :=
  Z.eqb (Z.of_nat (fst (fst r))) (snd (fst r)).

(** Lines 566-588 for one batch: [(tags, feat)], row by row. *)
Definition correct_rows (batch : list (Sample T)) : result (list (nat * list T)) :=
  rows <- mapM (tagged_row (length batch)) batch ;;
  Ok (map (fun r => (fst (fst r), snd r)) (filter is_correct rows)).

(** Lines 590-591: [torch.cat] refuses an empty list of tensors (with a
    [RuntimeError] or, depending on the version of torch, a [ValueError];
    nothing below depends on which). *)
Definition cat_batches {A : Type} (per_batch : list (list A)) : result (list A) :=
  match per_batch with
  | [] => Raise (RuntimeError "torch.cat(): expected a non-empty list of Tensors")
  | _ => Ok (concat per_batch)
  end.

(** [correct_features[category_index == group]] *)
Definition rows_of (group : nat) (tagged : list (nat * list T)) : list (list T) :=
  map snd (filter (fun p => Nat.eqb (fst p) group) tagged).

(** Lines 592-596: [grouped_dict], in insertion order. *)
Definition group_by_category (tagged : list (nat * list T))
    : list (nat * list (list T)) :=
  map (fun group => (group, rows_of group tagged)) (torch_unique (map fst tagged)).

(** [torch.mean(rows, dim=0)] *)
Definition torch_mean0 (rows : list (list T)) : list T :=
  match rows with
  | [] => []
  | r0 :: _ =>
      map (fun j => sc_div S (sc_sum S (openmax.channel T j rows)) (length rows))
          (seq 0 (length r0))
  end.

(** Lines 562-596, stage [1]. *)
Definition grouped_features (dataloader : list (list (Sample T)))
    : result (list (nat * list (list T))) :=
  per_batch <- mapM correct_rows dataloader ;;
  tagged <- cat_batches per_batch ;;
  Ok (group_by_category tagged).

(** Lines 598-604, stage [2]: the MAV of every key of [grouped_dict]. *)
Definition mean_activation_vectors (grouped_dict : list (nat * list (list T)))
    : list (nat * list T) :=
  map (fun kv => (fst kv, torch_mean0 (snd kv))) grouped_dict.

Definition make_weibull_from_trainsets (dataloader : list (list (Sample T)))
    : result (openmax.WeibullModel T) :=
  grouped_dict <- grouped_features dataloader ;;
  let MAV := map (fun kv => torch_mean0 (snd kv)) grouped_dict in
  let dists :=
    map (fun kv => openmax.compute_channel_distances T channel_distance
                     (torch_mean0 (snd kv)) (snd kv)) grouped_dict in
  let categories := map fst grouped_dict in
  Ok (openmax.weibull_tailfitting T leb mle_fit tail_size MAV dists categories).

End OpenSet.

(** Lines 613-651 over the reals.  [labels.append(targets)] collects
    [targets.squeeze()], which has no dimension left for a batch of one
    sample, and [torch.cat] refuses such a tensor. *)
Definition openmax (alpha : nat) (channel_distance : R -> R -> R)
    (weibull_model : openmax.WeibullModel R)
    (dataloader : list (list (Sample R)))
    : result (list (list R) * list (list R) * list Z) :=
  per_batch <- mapM (fun batch =>
                       mapM (activation_feature R real_scalar (length batch)) batch)
                    dataloader ;;
  input_scores <- cat_batches per_batch ;;
  labels <- (if existsb (fun batch => Nat.eqb (length batch) 1) dataloader
             then Raise (RuntimeError
                    "zero-dimensional tensor cannot be concatenated")
             else Ok (concat (map (map target) dataloader))) ;;
  let num_classes := length (nodup Z.eq_dec labels) - 1 in
  let '(openmax_probs, softmax_probs) :=
    openmax.get_scores alpha channel_distance weibull_model input_scores
                       num_classes in
  Ok (openmax_probs, softmax_probs, labels).

End SupervisedRunner.

(** ** Effects: log lines, TensorBoard scalars, files written *)

(** A formatted message, kept as its pieces: the decimal rendering of a
    float is the interpreter's business. *)
Inductive piece : Type :=
| Lit (s : string)
| Str (v : pyval)     (* '{}'.format(v) *)
| F8 (v : pyval).     (* '{:8f}'.format(v), v a number *)

Definition message : Type := list piece.

(** A checkpoint as [utils.save_model] writes it: the epoch and, when an
    optimizer is passed, the learning rate of each of its parameter groups. *)
Inductive event : Type :=
| LogInfo (msg : message)
| AddScalar (tag : string) (v : pyval) (step : option Z)
| SaveModel (path : string) (epoch : option Z) (optimizer : option (list float))
| SaveNpz (path : string) (per_batch : PerBatch)
| DatasetUpdate.

(** Computations that leave a trace and may raise. *)
Definition traced (A : Type) : Type := (list event * result A)%type.

Definition ret {A : Type} (a : A) : traced A := ([], Ok a).

Definition tell (evs : list event) : traced unit := (evs, Ok tt).

Definition lift {A : Type} (r : result A) : traced A := ([], r).

Definition tbind {A B : Type} (m : traced A) (k : A -> traced B) : traced B :=
  match m with
  | (t, Ok a) => let (t', r) := k a in (t ++ t', r)
  | (t, Raise e) => (t, Raise e)
  end.

Notation "x <~ m ;; k" := (tbind m (fun x => k))
  (at level 100, m at next level, right associativity) : py_scope.
Notation "' p <~ m ;; k" := (tbind m (fun p => k))
  (at level 100, p pattern, m at next level, right associativity) : py_scope.
Notation "m ;;; k" := (tbind m (fun _ => k))
  (at level 100, right associativity) : py_scope.

Definition trace_of {A : Type} (m : traced A) : list event := fst m.
Definition outcome {A : Type} (m : traced A) : result A := snd m.

(** ** Python comparisons and formatting on metric values *)

Definition type_name (v : pyval) : string :=
  match v with
  | PyNone => "NoneType"
  | PyInt _ => "int"
  | PyFloat _ => "float"
  end.

Definition cmp_error (op : string) (a b : pyval) : exn :=
  TypeError ("'" ++ op ++ "' not supported between instances of '"
             ++ type_name a ++ "' and '" ++ type_name b ++ "'")%string.

(** The order on numbers; [None] is not ordered against anything.  An int
    meets a float through [float_of_Z] (exact for magnitudes up to 2^53). *)
Definition num_lt (a b : pyval) : option bool :=
  match a, b with
  | PyNone, _ | _, PyNone => None
  | PyInt x, PyInt y => Some (Z.ltb x y)
  | PyInt x, PyFloat y => Some (PrimFloat.ltb (float_of_Z x) y)
  | PyFloat x, PyInt y => Some (PrimFloat.ltb x (float_of_Z y))
  | PyFloat x, PyFloat y => Some (PrimFloat.ltb x y)
  end.

(** [a < b] *)
Definition py_lt (a b : pyval) : result bool :=
  match num_lt a b with
  | Some r => Ok r
  | None => Raise (cmp_error "<" a b)
  end.

(** [a > b] *)
Definition py_gt (a b : pyval) : result bool :=
  match num_lt b a with
  | Some r => Ok r
  | None => Raise (cmp_error ">" a b)
  end.

(** [a == b] (never raises). *)
Definition py_eq (a b : pyval) : bool :=
  match a, b with
  | PyNone, PyNone => true
  | PyInt x, PyInt y => Z.eqb x y
  | PyInt x, PyFloat y => PrimFloat.eqb (float_of_Z x) y
  | PyFloat x, PyInt y => PrimFloat.eqb x (float_of_Z y)
  | PyFloat x, PyFloat y => PrimFloat.eqb x y
  | _, _ => false
  end.

(** ['{:8f}'.format(v)] *)
Definition format_8f (v : pyval) : result piece :=
  match v with
  | PyNone =>
      Raise (TypeError "unsupported format string passed to NoneType.__format__")
  | _ => Ok (F8 v)
  end.

Definition ends_with_slash (s : string) : bool :=
  match String.get (String.length s - 1) s with
  | Some c => Ascii.eqb c "/"%char
  | None => false
  end.

(** [os.path.join(a, b)] for a relative [b]. *)
Definition path_join (a b : string) : string :=
  if (String.eqb a "" || ends_with_slash a)%bool then (a ++ b)%string
  else (a ++ "/" ++ b)%string.

(** ** running.py: module level *)

(** The recognized options this development reads. *)
Record Config : Type := mkConfig {
  cfg_task : string;
  cfg_key_metric : string;
  cfg_save_dir : string;
  cfg_pred_dir : string;
  cfg_lr : float;
  cfg_lr_step : list Z;
  cfg_lr_factor : list float;
  cfg_epochs : Z;
  cfg_save_all : bool;
  cfg_harden : bool
}.

(** [NEG_METRICS = {'loss'}]: metrics for which "better" is less. *)
Definition NEG_METRICS : list string := ["loss"].

Definition in_NEG_METRICS (m : string) : bool :=
  existsb (String.eqb m) NEG_METRICS.

Inductive dataset_class : Type := ClassiregressionDataset.
Inductive collate_function : Type := collate_superv.
Inductive runner_class : Type := SupervisedRunner_cls | UnsupervisedRunner_cls.

Definition pipeline_factory (config : Config)
    : result (dataset_class * collate_function * runner_class) :=
  let task := cfg_task config in
  if (String.eqb task "classification" || String.eqb task "regression")%bool
  then Ok (ClassiregressionDataset, collate_superv, SupervisedRunner_cls)
  else Raise (NotImplementedError ("Task '" ++ task ++ "' not implemented")%string).

Definition check_progress (epoch : Z) : bool :=
  existsb (Z.eqb epoch) [100; 140; 160; 220; 280; 340]%Z.

(** [tensorboard_writer.add_scalar(tag, v, epoch)] for the writer [main]
    builds (main.py line 237, torch's [SummaryWriter]).  The writer is
    external: it turns the value into an array before it records it, and
    that conversion raises [NotImplementedError] for [None]; a number is
    recorded. *)
Definition add_scalar (tag : string) (v : pyval) (step : option Z) : traced unit :=
  match v with
  | PyNone =>
      lift (Raise (NotImplementedError
              "Got <class 'NoneType'>, but numpy array or torch tensor are expected."))
  | _ => tell [AddScalar tag v step]
  end.

(** Lines 198-200: one TensorBoard scalar and one formatted field per
    metric, in dictionary order. *)
Fixpoint summary_loop (items : OrderedDict) (epoch : option Z)
    (print_str : message) : traced message :=
  match items with
  | [] => ret print_str
  | (k, v) :: rest =>
      add_scalar (k ++ "/val")%string v epoch ;;;
      p <~ lift (format_8f v) ;;
      summary_loop rest epoch (print_str ++ [Lit (k ++ ": ")%string; p; Lit " | "])
  end.

(** [validate].  [val_evaluator] is the bound method
    [val_evaluator.evaluate(epoch, keep_all=True)]; the wall-clock lines
    (runtime and running averages) are left out. *)
Definition validate (val_evaluator : option Z -> result (OrderedDict * PerBatch))
    (config : Config) (best_metrics : OrderedDict) (best_value : pyval)
    (epoch : option Z)
    : traced (OrderedDict * OrderedDict * pyval * PerBatch) :=
  tell [LogInfo [Lit "Evaluating on validation set ..."]] ;;;
  '(aggr_metrics, per_batch) <~ lift (val_evaluator epoch) ;;
  print_str <~ summary_loop aggr_metrics epoch
                 [Lit "Epoch "; Str (py_epoch epoch); Lit " Validation Summary: "] ;;
  tell [LogInfo print_str] ;;;
  condition <~ lift (if in_NEG_METRICS (cfg_key_metric config)
                     then v <- getitem aggr_metrics (cfg_key_metric config) ;;
                          py_lt v best_value
                     else v <- getitem aggr_metrics (cfg_key_metric config) ;;
                          py_gt v best_value) ;;
  '(best_metrics, best_value) <~
     (if condition : bool
      then
        best_value <~ lift (getitem aggr_metrics (cfg_key_metric config)) ;;
        tell [SaveModel (path_join (cfg_save_dir config) "model_best.pth") epoch None] ;;;
        let best_metrics := aggr_metrics in   (* aggr_metrics.copy() *)
        tell [SaveNpz (path_join (cfg_pred_dir config) "best_predictions") per_batch] ;;;
        ret (best_metrics, best_value)
      else ret (best_metrics, best_value)) ;;
  ret (aggr_metrics, best_metrics, best_value, per_batch).

(** ** main.py: the training orchestrator *)

Definition str_of_Z (z : Z) : string :=
  NilEmpty.string_of_int (Z.to_int z).

(** [l[i]] for a non-negative index. *)
Definition index {A : Type} (l : list A) (i : nat) : result A :=
  match nth_error l i with
  | Some a => Ok a
  | None => Raise IndexError
  end.

(** [range(a, b)] *)
Definition py_range (a b : Z) : list Z :=
  map (fun i => (a + Z.of_nat i)%Z) (seq 0 (Z.to_nat (b - a))).

(** An entry of [optimizer.param_groups]. *)
Record ParamGroup : Type := mkParamGroup {
  pg_lr : float;
  pg_weight_decay : float
}.

(** The variables the epoch loop of [main] carries. *)
Record LoopState : Type := mkLoopState {
  lr : float;                       (* current learning step *)
  lr_step : nat;                    (* current step index of `lr_step` *)
  param_groups : list ParamGroup;   (* optimizer.param_groups *)
  best_metrics : OrderedDict;
  best_value : pyval
}.

Definition checkpoint_path (config : Config) (mark : string) : string :=
  path_join (cfg_save_dir config) ("model_" ++ mark ++ ".pth")%string.

(** [utils.save_model(path, epoch, model, optimizer)] *)
Definition save_model (path : string) (epoch : Z) (optimizer : list ParamGroup)
    : traced unit :=
  tell [SaveModel path (Some epoch) (Some (map pg_lr optimizer))].

(** [for param_group in optimizer.param_groups: param_group['lr'] = lr] *)
Definition set_lr (lr : float) (groups : list ParamGroup) : list ParamGroup :=
  map (fun g => mkParamGroup lr (pg_weight_decay g)) groups.

(** Lines 362-370, "Learning rate scheduling".  The call
    [logger.info('Learning rate updated to: ', lr)] has an argument and no
    placeholder: the logging module reports the formatting error on stderr
    and emits no record, so it leaves no event. *)
Definition lr_scheduling (config : Config) (epoch : Z) (st : LoopState)
    : traced LoopState :=
  milestone <~ lift (index (cfg_lr_step config) (lr_step st)) ;;
  if Z.eqb epoch milestone then
    save_model (checkpoint_path config (str_of_Z epoch)) epoch (param_groups st) ;;;
    factor <~ lift (index (cfg_lr_factor config) (lr_step st)) ;;
    let lr' := PrimFloat.mul (lr st) factor in
    let lr_step' :=
      if (Z.of_nat (lr_step st) <? Z.of_nat (length (cfg_lr_step config)) - 1)%Z
      then lr_step st + 1 else lr_step st in
    ret (mkLoopState lr' lr_step' (set_lr lr' (param_groups st))
                     (best_metrics st) (best_value st))
  else ret st.

(** Lines 312-375, the body of the epoch loop.  [train_part epoch] stands
    for lines 313-335 (the training pass and its summary) and
    [val_part epoch best_metrics best_value] for lines 337-340 (the call of
    [validate]); neither writes [lr], [lr_step] or the optimizer's
    learning rates. *)
Definition epoch_body (config : Config) (train_part : Z -> traced unit)
    (val_part : Z -> OrderedDict -> pyval -> traced (OrderedDict * pyval))
    (epoch : Z) (st : LoopState) : traced LoopState :=
  let mark := if cfg_save_all config then str_of_Z epoch else "last" in
  train_part epoch ;;;
  '(best_metrics', best_value') <~ val_part epoch (best_metrics st) (best_value st) ;;
  let st := mkLoopState (lr st) (lr_step st) (param_groups st)
                        best_metrics' best_value' in
  save_model (checkpoint_path config mark) epoch (param_groups st) ;;;
  st <~ lr_scheduling config epoch st ;;
  (if (cfg_harden config && check_progress epoch)%bool
   then tell [DatasetUpdate; DatasetUpdate] else ret tt) ;;;
  ret st.

Fixpoint main_loop (config : Config) (train_part : Z -> traced unit)
    (val_part : Z -> OrderedDict -> pyval -> traced (OrderedDict * pyval))
    (epochs : list Z) (st : LoopState) : traced LoopState :=
  match epochs with
  | [] => ret st
  | epoch :: rest =>
      st' <~ epoch_body config train_part val_part epoch st ;;
      main_loop config train_part val_part rest st'
  end.

(** [main], from the call of [pipeline_factory] (line 213) on, for a run
    that trains ([test_only] unset).  Everything that touches a batch is
    reached through the runner class the factory returns: [val_evaluator]
    and [train_part] are built from it. *)
Definition main (config : Config) (start_epoch : Z) (optimizer : list ParamGroup)
    (val_evaluator : runner_class -> option Z -> result (OrderedDict * PerBatch))
    (train_part : runner_class -> Z -> traced unit) : traced pyval :=
  '(dataset_class, collate_fn, runner_class) <~ lift (pipeline_factory config) ;;
  let best0 :=
    if in_NEG_METRICS (cfg_key_metric config)
    then PyFloat 1e16 else PyFloat (-1e16) in
  '(aggr_metrics_val, best_metrics1, best_value1, _) <~
     validate (val_evaluator runner_class) config [] best0 (Some 0%Z) ;;
  st <~ main_loop config (train_part runner_class)
          (fun epoch bm bv =>
             '(_, bm', bv', _) <~
                validate (val_evaluator runner_class) config bm bv (Some epoch) ;;
             ret (bm', bv'))
          (py_range (start_epoch + 1) (cfg_epochs config + 1))
          (mkLoopState (cfg_lr config) 0 optimizer best_metrics1 best_value1) ;;
  ret (best_value st).

(** ** models/PSEncoder.py

    The network is written once over the arithmetic of its tensors and
    read at two: the real numbers (exact arithmetic) and binary32, the
    dtype of the tensors of the program. *)

(** What the layers ask of the numbers. *)
Record Arithmetic (T : Type) : Type := mkArithmetic {
  a_zero : T;
  a_two : T;                (* 1 / (1 - 0.5), the scale of Dropout(0.5) *)
  a_add : T -> T -> T;
  a_mul : T -> T -> T;
  a_div : T -> T -> T;
  a_max : T -> T -> T;      (* as ReLU and MaxPool1d take the maximum *)
  a_exp : T -> T
}.
Arguments a_zero {T} _.
Arguments a_two {T} _.
Arguments a_add {T} _ _ _.
Arguments a_mul {T} _ _ _.
Arguments a_div {T} _ _ _.
Arguments a_max {T} _ _ _.
Arguments a_exp {T} _ _.

(** A sum, added up from the left. *)
Definition a_sum {T : Type} (A : Arithmetic T) (l : list T) : T :=
  fold_left (a_add A) l (a_zero A).

Definition real_arithmetic : Arithmetic R :=
  mkArithmetic R 0%R 2%R Rplus Rmult Rdiv Rmax exp.

(** binary32: IEEE 754 single precision, 24 bits of precision and
    exponents below 128, with the operations of the standard rounded to
    nearest even.  A sum or a product beyond the largest finite value is
    an infinity, and [0 * inf] and [inf - inf] are NaN. *)
Definition binary32 : Type := spec_float.

Definition is_nan32 (x : binary32) : bool :=
  match x with
  | S754_nan => true
  | _ => false
  end.

(** The maximum as torch's [relu] and [max_pool1d] take it: a NaN
    operand is the result. *)
Definition max32 (a b : binary32) : binary32 :=
  if is_nan32 a then a
  else if is_nan32 b then b
  else if SFltb a b then b else a.

(** 0, 1, 2 and 2^127 (the largest finite binary32 number is just below
    2^128). *)
Definition zero32 : binary32 := S754_zero false.
Definition one32 : binary32 := S754_finite false 8388608 (-23).
Definition two32 : binary32 := S754_finite false 8388608 (-22).
Definition huge32 : binary32 := S754_finite false 8388608 104.

(** [exp32] is the library's exponential on binary32, which is external. *)
Definition binary32_arithmetic (exp32 : binary32 -> binary32)
    : Arithmetic binary32 :=
  mkArithmetic binary32 zero32 two32
               (SFadd 24 128) (SFmul 24 128) (SFdiv 24 128) max32 exp32.

Module PSEncoder.

Section Net.

Variable T : Type.
Variable A : Arithmetic T.

(** [nn.Conv1d]: weight (out_channels x in_channels x kernel_size), bias. *)
Record Conv1d : Type := mkConv1d {
  conv_weight : list (list (list T));
  conv_bias : list T
}.

(** [nn.Linear]: weight (out_features x in_features), bias. *)
Record Linear : Type := mkLinear {
  lin_weight : list (list T);
  lin_bias : list T
}.

(** The parameters of a [PatternSeriesEncoder] and its train/eval flag. *)
Record PatternSeriesEncoder : Type := mkEncoder {
  conv1 : Conv1d;
  conv2 : Conv1d;
  fc1 : Linear;
  fc2 : Linear;
  training : bool
}.

Definition has_shape2 (rows cols : nat) (w : list (list T)) : bool :=
  (Nat.eqb (length w) rows && forallb (fun r => Nat.eqb (length r) cols) w)%bool.

Definition has_shape3 (a b c : nat) (w : list (list (list T))) : bool :=
  (Nat.eqb (length w) a && forallb (has_shape2 b c) w)%bool.

(** The shapes [__init__(input_size, num_classes)] allocates. *)
Definition constructed (net : PatternSeriesEncoder) (input_size num_classes : nat)
    : bool :=
  (has_shape3 64 1 3 (conv_weight (conv1 net))
   && Nat.eqb (length (conv_bias (conv1 net))) 64
   && has_shape3 128 64 3 (conv_weight (conv2 net))
   && Nat.eqb (length (conv_bias (conv2 net))) 128
   && has_shape2 256 (128 * (input_size / 4)) (lin_weight (fc1 net))
   && Nat.eqb (length (lin_bias (fc1 net))) 256
   && has_shape2 num_classes 256 (lin_weight (fc2 net))
   && Nat.eqb (length (lin_bias (fc2 net))) num_classes)%bool.

Definition dot (a b : list T) : T :=
  a_sum A (map (fun p => a_mul A (fst p) (snd p)) (combine a b)).

(** [nn.ReLU] *)
Definition relu (x : T) : T := a_max A (a_zero A) x.

(** One output channel of a convolution over the padded input [xpad]:
    at position [t] the kernels meet the window that starts at [t]. *)
Definition conv_channel (kernels : list (list T)) (b : T)
    (xpad : list (list T)) (L : nat) : list T :=
  map (fun t => a_add A b
                  (a_sum A (map (fun p => dot (fst p) (skipn t (snd p)))
                                (combine kernels xpad))))
      (seq 0 L).

(** [nn.Conv1d(kernel_size=3, padding=1)] on one sample (channels x
    length), of a length of at least 1. *)
Definition conv1d (c : Conv1d) (x : list (list T)) : list (list T) :=
  let xpad := map (fun ch => a_zero A :: ch ++ [a_zero A]) x in
  let L := match x with [] => O | ch :: _ => length ch end in
  map (fun p => conv_channel (fst p) (snd p) xpad L)
      (combine (conv_weight c) (conv_bias c)).

(** The maxima of the windows of two entries; an entry left over at the
    end is dropped. *)
Fixpoint pool_windows (x : list T) : list T :=
  match x with
  | a :: b :: rest => a_max A a b :: pool_windows rest
  | _ => []
  end.

(** [nn.MaxPool1d(kernel_size=2)] on one channel: a channel with no full
    window is refused. *)
Definition maxpool1d (x : list T) : result (list T) :=
  if Nat.ltb (length x) 2
  then Raise (RuntimeError "max_pool1d() Invalid computed output size: 0")
  else Ok (pool_windows x).

(** [self.cnn] *)
Definition cnn (net : PatternSeriesEncoder) (x : list (list T))
    : result (list (list T)) :=
  x <- mapM maxpool1d (map (map relu) (conv1d (conv1 net) x)) ;;
  mapM maxpool1d (map (map relu) (conv1d (conv2 net) x)).

Definition linear (l : Linear) (x : list T) : result (list T) :=
  if forallb (fun row => Nat.eqb (length row) (length x)) (lin_weight l)
  then Ok (map (fun p => a_add A (dot (fst p) x) (snd p))
               (combine (lin_weight l) (lin_bias l)))
  else Raise (RuntimeError "mat1 and mat2 shapes cannot be multiplied").

(** [nn.Dropout(0.5)]: in training mode entry [i] is kept and scaled by
    1/(1-0.5) when [mask i] holds and zeroed otherwise; the identity in
    evaluation mode. *)
Definition dropout (training : bool) (mask : nat -> bool) (x : list T) : list T :=
  if training
  then map (fun p => if mask (fst p) then a_mul A (snd p) (a_two A) else a_zero A)
           (combine (seq 0 (length x)) x)
  else x.

(** [nn.Softmax(dim=1)] on one row. *)
Definition softmax_layer (v : list T) : list T :=
  map (fun x => a_div A (a_exp A x) (a_sum A (map (a_exp A) v))) v.

(** [self.fcn] on one row. *)
Definition fcn (net : PatternSeriesEncoder) (mask : nat -> bool) (x : list T)
    : result (list T) :=
  h <- linear (fc1 net) x ;;
  let h := dropout (training net) mask (map relu h) in
  o <- linear (fc2 net) h ;;
  Ok (softmax_layer o).

(** [forward] on one sample: [x.view(B, 1, -1)] makes it one channel,
    [x.view(B, -1)] flattens the channels of the CNN output. *)
Definition forward_sample (net : PatternSeriesEncoder) (mask : nat -> bool)
    (x : list T) : result (list T) :=
  features <- cnn net [x] ;;
  fcn net mask (concat features).

(** [forward(x)]: [x] row by row, [masks i] the dropout draw of row [i].
    [x.view(x.size(0), 1, -1)] cannot tell the last dimension of a
    tensor without elements. *)
Definition forward (net : PatternSeriesEncoder) (masks : nat -> nat -> bool)
    (x : list (list T)) : result (list (list T)) :=
  if Nat.eqb (length (concat x)) 0
  then Raise (RuntimeError
                ("cannot reshape tensor of 0 elements into shape ["
                 ++ str_of_nat (length x)
                 ++ ", 1, -1] because the unspecified dimension size -1 can be any value and is ambiguous"))
  else mapM (fun p => forward_sample net (masks (fst p)) (snd p))
            (combine (seq 0 (length x)) x).

End Net.

Arguments mkConv1d {T} _ _.
Arguments conv_weight {T} _.
Arguments conv_bias {T} _.
Arguments mkLinear {T} _ _.
Arguments lin_weight {T} _.
Arguments lin_bias {T} _.
Arguments mkEncoder {T} _ _ _ _ _.
Arguments conv1 {T} _.
Arguments conv2 {T} _.
Arguments fc1 {T} _.
Arguments fc2 {T} _.
Arguments training {T} _.
Arguments has_shape2 {T} _ _ _.
Arguments has_shape3 {T} _ _ _ _.
Arguments constructed {T} _ _ _.
Arguments dot {T} _ _ _.
Arguments relu {T} _ _.
Arguments conv_channel {T} _ _ _ _ _.
Arguments conv1d {T} _ _ _.
Arguments pool_windows {T} _ _.
Arguments maxpool1d {T} _ _.
Arguments cnn {T} _ _ _.
Arguments linear {T} _ _ _.
Arguments dropout {T} _ _ _ _.
Arguments softmax_layer {T} _ _.
Arguments fcn {T} _ _ _ _.
Arguments forward_sample {T} _ _ _ _.
Arguments forward {T} _ _ _ _.

End PSEncoder.

(** ** running.py: [evaluate] and [convert_metrics_per_batch_to_per_sample] *)

(** Lines 167-169: the fields of the summary line; a [None] value is
    skipped. *)
Fixpoint evaluation_summary (items : OrderedDict) (print_str : message)
    : result message :=
  match items with
  | [] => Ok print_str
  | (k, v) :: rest =>
      match v with
      | PyNone => evaluation_summary rest print_str
      | _ =>
          p <- format_8f v ;;
          evaluation_summary rest
            (print_str ++ [Lit (k ++ ": ")%string; p; Lit " | "])
      end
  end.

(** [evaluate(evaluator)], lines 158-173.  [evaluator] is the bound method
    [evaluator.evaluate(epoch_num, keep_all=True)], called here with
    [epoch_num=None]; the wall-clock line is left out. *)
Definition evaluate (evaluator : option Z -> result (OrderedDict * PerBatch))
    : traced (OrderedDict * PerBatch) :=
  '(aggr_metrics, per_batch) <~ lift (evaluator None) ;;
  print_str <~ lift (evaluation_summary aggr_metrics [Lit "Evaluation Summary: "]) ;;
  tell [LogInfo print_str] ;;;
  ret (aggr_metrics, per_batch).

(** What numpy raises besides the exceptions above. *)
Inductive np_exn : Type :=
| PyExn (e : exn)
| ValueError (msg : string).

(** [np.sum] of the rows of a slice, column by column, as a
    left-to-right sum from 0 in binary64; an empty slice sums to 0.  The
    rounding of the array's own dtype is not modelled: the properties
    below are about which elements go into which sum. *)
Definition np_sum (column : list float) : float :=
  fold_left PrimFloat.add column 0%float.

(** [a[i:j]] for [0 <= i]: never raises, cut at the end of [a]. *)
Definition slice {A : Type} (a : list A) (i j : nat) : list A :=
  firstn (j - i) (skipn i a).

(** [np.sum(batch_target_masks, axis=(1, 2))] for one sample: its number
    of active positions. *)
Definition count_active (mask : list (list bool)) : nat :=
  length (filter (fun active => active) (concat mask)).

(** Lines 148-153.  [columns] are the arrays of [metrics[b]]: column [m]
    of [batch_metrics = np.stack(metrics[b], axis=1)]. *)
Fixpoint per_sample_sums (columns : list (list float)) (ind : nat)
    (num_active_per_sample : list nat) : list (list float) :=
  match num_active_per_sample with
  | [] => []
  | num_active :: rest =>
      let new_ind := ind + num_active in
      map (fun column => np_sum (slice column ind new_ind)) columns
        :: per_sample_sums columns new_ind rest
  end.

(** Lines 146-154 for one batch.  [np.stack] wants at least one array and
    arrays of one shape. *)
Definition convert_batch (batch_metrics : list (list float))
    (batch_target_masks : list (list (list bool)))
    : np_exn + list (list float) :=
  let num_active_per_sample := map count_active batch_target_masks in
  match batch_metrics with
  | [] => inl (ValueError "need at least one array to stack")
  | first :: others =>
      if forallb (fun a => Nat.eqb (length a) (length first)) others
      then inr (per_sample_sums batch_metrics 0 num_active_per_sample)
      else inl (ValueError "all input arrays must have the same shape")
  end.

(** The loop of line 145, from batch index [b] on. *)
Fixpoint convert_from (b : nat) (metrics : list (list (list float)))
    (target_masks : list (list (list (list bool))))
    : np_exn + list (list (list float)) :=
  match target_masks with
  | [] => inr []
  | batch_target_masks :: rest =>
      match nth_error metrics b with
      | None => inl (PyExn IndexError)
      | Some batch_metrics =>
          match convert_batch batch_metrics batch_target_masks with
          | inl e => inl e
          | inr metrics_per_sample =>
              match convert_from (S b) metrics rest with
              | inl e => inl e
              | inr metrics_array => inr (metrics_per_sample :: metrics_array)
              end
          end
      end
  end.

(** [convert_metrics_per_batch_to_per_sample(metrics, target_masks)] *)
Definition convert_metrics_per_batch_to_per_sample
    (metrics : list (list (list float)))
    (target_masks : list (list (list (list bool))))
    : np_exn + list (list (list float)) :=
  convert_from 0 metrics target_masks.

(** * Vocabulary of the properties *)

(** ** Epoch loss *)

Definition batch_total (b : Batch) : float := torch_sum (loss b).
Definition batch_count (b : Batch) : nat := length (loss b).
Definition batch_mean (b : Batch) : float :=
  tensor_div (batch_total b) (batch_count b).

(** Sum of the batches' total losses over the sum of their counts. *)
Definition count_weighted_mean (batches : list Batch) : float :=
  PrimFloat.div (py_sum (map batch_total batches))
                (float_of_nat (list_sum (map batch_count batches))).

(** The arithmetic mean of the batches' mean losses. *)
Definition mean_of_batch_means (batches : list Batch) : float :=
  PrimFloat.div (py_sum (map batch_mean batches))
                (float_of_nat (length batches)).

Definition unequal_counts (batches : list Batch) : Prop :=
  exists b1 b2, In b1 batches /\ In b2 batches /\ batch_count b1 <> batch_count b2.

(** ** Validation and checkpoints *)

(** The files a trace writes, in order. *)
Definition files_written (t : list event) : list string :=
  flat_map (fun ev => match ev with
                      | SaveModel path _ _ => [path]
                      | SaveNpz path _ => [path]
                      | _ => []
                      end) t.

(** Improvement of the key metric: strictly smaller for [loss], strictly
    larger for every other key. *)
Definition strictly_better (key : string) (v best : pyval) : Prop :=
  (key = "loss" /\ py_lt v best = Ok true) \/
  (key <> "loss" /\ py_gt v best = Ok true).

Definition task_not_implemented (task : string) : exn :=
  NotImplementedError ("Task '" ++ task ++ "' not implemented")%string.

(** ** Learning-rate schedule *)

(** The schedule's variables once [n] epochs are done, for milestones
    [10, 20], factors [0.5, 0.1] and a starting rate of 1. *)
Definition schedule_after (n : nat) (groups : list ParamGroup)
    : float * nat * list ParamGroup :=
  if Nat.ltb n 10 then (1%float, 0, groups)
  else if Nat.ltb n 20 then (0.5%float, 1, set_lr 0.5 groups)
  else (0.05%float, 1, set_lr 0.05 groups).

Definition schedule_of (st : LoopState) : float * nat * list ParamGroup :=
  (lr st, lr_step st, param_groups st).

(** ** Open-set recognition *)

(** The feature rows [make_weibull_from_trainsets] keeps for class [c]
    (lines 566-596): the rows of the samples whose target is [c] and is
    the position of the largest entry of the whole feature row. *)
Definition kept_features_of (T : Type) (S : Scalar T)
    (dataloader : list (list (Sample T))) (c : nat) : result (list (list T)) :=
  per_batch <- mapM (SupervisedRunner.correct_rows T S) dataloader ;;
  tagged <- SupervisedRunner.cat_batches per_batch ;;
  Ok (SupervisedRunner.rows_of T c tagged).

(** The spec's words (sections 3 and 4.4), not the code: a sample is
    correctly classified when the class the classifier predicts for it,
    the position of its largest class score, equals its label.  The
    sample's feature row, tagged with the predicted class and the label. *)
Definition correctly_classified_row (T : Type) (S : Scalar T) (B : nat)
    (s : Sample T) : result (nat * Z * list T) :=
  feature <- SupervisedRunner.activation_feature T S B s ;;
  predicted_class <- SupervisedRunner.argmax T S (logits s) ;;
  Ok (predicted_class, target s, feature).

Definition correctly_classified_rows (T : Type) (S : Scalar T)
    (batch : list (Sample T)) : result (list (nat * list T)) :=
  rows <- mapM (correctly_classified_row T S (length batch)) batch ;;
  Ok (map (fun r => (fst (fst r), snd r))
          (filter (SupervisedRunner.is_correct T) rows)).

(** The spec's words: the activation features of the correctly
    classified training samples of class [c]. *)
Definition correctly_classified_features (T : Type) (S : Scalar T)
    (dataloader : list (list (Sample T))) (c : nat) : result (list (list T)) :=
  per_batch <- mapM (correctly_classified_rows T S) dataloader ;;
  tagged <- SupervisedRunner.cat_batches per_batch ;;
  Ok (SupervisedRunner.rows_of T c tagged).

(** The feature pass selects as the classifier classifies: on every
    sample the largest entry of the whole feature row sits where the
    largest class score does. *)
Definition selection_agrees (T : Type) (S : Scalar T)
    (dataloader : list (list (Sample T))) : Prop :=
  forall batch s feature,
    In batch dataloader -> In s batch ->
    SupervisedRunner.activation_feature T S (length batch) s = Ok feature ->
    SupervisedRunner.argmax T S feature = SupervisedRunner.argmax T S (logits s).

(** The class the classifier predicts: the largest of the class scores,
    as [train_epoch] and [evaluate] take it (lines 449 and 532). *)
Definition classifier_prediction (s : Sample float) : result nat :=
  SupervisedRunner.argmax float float_scalar (logits s).

(** A probability vector of [n] entries. *)
Definition distribution (n : nat) (p : list R) : Prop :=
  length p = n /\ real_sum p = 1%R /\ Forall (fun x => (0 <= x)%R) p.

(** ** The encoder's rows *)

(** [p] and [q] rank their entries alike. *)
Definition same_order (p q : list R) : Prop :=
  forall i j, i < length p -> j < length p ->
    (nth i p 0 <= nth j p 0 <-> nth i q 0 <= nth j q 0)%R.

(** Between 1/(1+(K-1)e) and e/(e+K-1): as far as the softmax of [K]
    numbers between 0 and 1 can get from 1/K. *)
Definition squeezed (K : nat) (q : R) : Prop :=
  (1 / (1 + (INR K - 1) * exp 1) <= q <= exp 1 / (exp 1 + (INR K - 1)))%R.

(** Neither an infinity nor NaN. *)
Definition finite32 (x : binary32) : bool :=
  match x with
  | S754_zero _ | S754_finite _ _ _ => true
  | _ => false
  end.

(** [0 <= x] and [sum(row) == 1] on binary32. *)
Definition nonneg32 (x : binary32) : bool := SFleb zero32 x.

Definition sums_to_one32 (row : list binary32) : bool :=
  SFeqb (fold_left (SFadd 24 128) row zero32) one32.

(** * Example inputs *)

(** Two batches with three and one active elements: the count-weighted
    mean is 7/4, the mean of the batch means is 5/2. *)
Definition two_unequal_batches : list Batch :=
  [mkBatch [1; 1; 1]%float [10; 11; 12]%Z; mkBatch [4]%float [13]%Z].

Definition no_class_metrics : MetricsDict :=
  mkMetricsDict (PyFloat 1) (PyFloat 1) (PyFloat 1) (PyFloat 1) [] [] [].

(** A batch of two active elements and a batch whose masks leave none. *)
Definition batches_with_degenerate : list Batch :=
  [mkBatch [1; 3]%float [10; 11]%Z; mkBatch [] [12]%Z].

Definition one_batch : list Batch := [mkBatch [1; 3]%float [10; 11]%Z].

Definition example_config : Config :=
  mkConfig "classification" "loss" "out/checkpoints" "out/predictions"
           1%float [10; 20]%Z [0.5; 0.1]%float 30%Z false false.

Definition transduction_config : Config :=
  mkConfig "transduction" "loss" "out/checkpoints" "out/predictions"
           1%float [10; 20]%Z [0.5; 0.1]%float 30%Z false false.

Definition two_groups : list ParamGroup :=
  [mkParamGroup 1 0; mkParamGroup 1 0]%float.

(** Two training samples of a two-class problem with one latent layer of
    two channels.  The classifier takes the first for class 1 although it
    is labelled 0, and gets the second right. *)
Definition misclassified_sample : Sample float :=
  mkSample [0.25; 0.75]%float [[[0.5; 0.5]; [0.25; 0.25]]]%float 0%Z.

Definition well_classified_sample : Sample float :=
  mkSample [0.25; 0.75]%float [[[0.125; 0.125]; [0.25; 0.25]]]%float 1%Z.

Definition small_trainset : list (list (Sample float)) :=
  [[misclassified_sample; well_classified_sample]].

(** A sample of class 0 the classifier gets right, with a pooled latent
    activation larger than both class scores. *)
Definition strong_latent_sample : Sample float :=
  mkSample [0.75; 0.25]%float [[[2; 2]; [1; 1]]]%float 0%Z.

(** Stand-ins for the tunables of the tail fitting. *)
Definition abs_difference (a b : float) : float :=
  PrimFloat.abs (PrimFloat.sub a b).

Definition unit_weibull (tail : list float) : openmax.WeibullParams float :=
  openmax.mkWeibullParams 1%float 1%float 0%float.

Definition example_activations : list (list R) :=
  [[1; 2; 3]%R; [0; 0; 5]%R].

Definition filled_conv {T : Type} (w b : T) (out_channels in_channels : nat)
    : PSEncoder.Conv1d T :=
  PSEncoder.mkConv1d (repeat (repeat (repeat w 3) in_channels) out_channels)
                     (repeat b out_channels).

Definition filled_linear {T : Type} (w b : T) (out_features in_features : nat)
    : PSEncoder.Linear T :=
  PSEncoder.mkLinear (repeat (repeat w in_features) out_features)
                     (repeat b out_features).

Definition zero_conv (out_channels in_channels : nat) : PSEncoder.Conv1d R :=
  filled_conv 0%R 0%R out_channels in_channels.

Definition zero_linear (out_features in_features : nat) : PSEncoder.Linear R :=
  filled_linear 0%R 0%R out_features in_features.

(** An encoder as [PatternSeriesEncoder(4, 2)] shapes it, in training
    mode, all parameters zero. *)
Definition zero_encoder : PSEncoder.PatternSeriesEncoder R :=
  PSEncoder.mkEncoder (zero_conv 64 1) (zero_conv 128 64)
                      (zero_linear 256 128) (zero_linear 2 256) true.

Definition huge_row : list binary32 := [huge32; huge32; huge32; huge32].

(** An encoder as [PatternSeriesEncoder(4, 2)] shapes it, in evaluation
    mode: the weights of the first convolution are 1, every other
    parameter is 0. *)
Definition summing_encoder32 : PSEncoder.PatternSeriesEncoder binary32 :=
  PSEncoder.mkEncoder (filled_conv one32 zero32 64 1)
                      (filled_conv zero32 zero32 128 64)
                      (filled_linear zero32 zero32 256 128)
                      (filled_linear zero32 zero32 2 256) false.

(** ** Vocabulary of the further properties *)

(** The fields [evaluate] and [validate] print for a list of metrics. *)
Definition summary_fields (items : OrderedDict) : message :=
  flat_map (fun kv => [Lit (fst kv ++ ": ")%string; F8 (snd kv); Lit " | "]) items.

Definition is_None (v : pyval) : bool :=
  match v with
  | PyNone => true
  | _ => false
  end.

(** The slices of one column that the samples of a batch get, in order. *)
Fixpoint sample_slices (column : list float) (ind : nat)
    (num_active_per_sample : list nat) : list (list float) :=
  match num_active_per_sample with
  | [] => []
  | num_active :: rest =>
      slice column ind (ind + num_active)
        :: sample_slices column (ind + num_active) rest
  end.

(** One batch with two metrics over three active elements, and the masks
    of its two samples (two and one active positions). *)
Definition two_metric_batches : list (list (list float)) :=
  [[[1; 2; 3]; [10; 20; 30]]]%float.

Definition two_sample_masks : list (list (list (list bool))) :=
  [[[[true; false]; [true; false]]; [[false; true]; [false; false]]]].

(** The column names of a metrics dictionary, in order. *)
Definition keys (d : OrderedDict) : list string := map fst d.

(** Assignments [d[k] = v], one after the other. *)
Definition set_all (d : OrderedDict) (items : list (string * pyval)) : OrderedDict :=
  fold_left (fun d kv => dict_set d (fst kv) (snd kv)) items d.

(** The keys [m + '-cls-' + str(i + 1)] for [i] from [start] on. *)
Definition per_class_keys (m : string) (start n : nat) : list string :=
  map (fun i => (m ++ "-cls-" ++ str_of_nat (i + 1))%string) (seq start n).

(** The names the supervised runner gives the analyzer's metrics. *)
Definition classification_keys (md : MetricsDict) : list string :=
  ["accuracy"; "precision"; "recall"; "f1"]
  ++ per_class_keys "precision" 0 (length (precision md))
  ++ per_class_keys "recall" 0 (length (recall md))
  ++ per_class_keys "f1" 0 (length (f1 md)).

Definition classification_items (md : MetricsDict) : list (string * pyval) :=
  [("accuracy", total_accuracy md); ("precision", prec_avg md);
   ("recall", rec_avg md); ("f1", f1_avg md)]
  ++ combine (per_class_keys "precision" 0 (length (precision md))) (precision md)
  ++ combine (per_class_keys "recall" 0 (length (recall md))) (recall md)
  ++ combine (per_class_keys "f1" 0 (length (f1 md))) (f1 md).

(** The analyzer's answer for a problem with two classes. *)
Definition two_class_metrics : MetricsDict :=
  mkMetricsDict (PyFloat 0.75) (PyFloat 0.5) (PyFloat 0.5) (PyFloat 0.5)
                [PyFloat 0.25; PyFloat 0.75] [PyFloat 0.5; PyFloat 0.5]
                [PyFloat 0.125; PyFloat 0.875].

(** The loader yields a batch and every batch has a sample. *)
Definition every_batch_has_samples (batches : list Batch) : bool :=
  (negb (Nat.eqb (length batches) 0)
   && forallb (fun b => negb (Nat.eqb (batch_count b) 0)) batches)%bool.

(** The column under which class [i] (counted from 0) is reported. *)
Definition class_column (m : string) (i : nat) : string :=
  (m ++ "-cls-" ++ str_of_nat (i + 1))%string.

(** sklearn's areas for a two-class model; nothing for any other. *)
Definition auc_of (binary : bool) (areas : pyval * pyval) : option (pyval * pyval) :=
  if binary then Some areas else None.

(** sklearn's AUROC and AUPRC for the example. *)
Definition two_class_areas : pyval * pyval := (PyFloat 0.5, PyFloat 0.625).

(** The metrics a fresh supervised runner returns from [train_epoch] for
    [one_batch] of a two-class model. *)
Definition two_class_row : OrderedDict :=
  [("epoch", PyInt 1); ("loss", PyFloat 2);
   ("accuracy", PyFloat 0.75); ("precision", PyFloat 0.5);
   ("recall", PyFloat 0.5); ("f1", PyFloat 0.5);
   ("precision-cls-1", PyFloat 0.25); ("precision-cls-2", PyFloat 0.75);
   ("recall-cls-1", PyFloat 0.5); ("recall-cls-2", PyFloat 0.5);
   ("f1-cls-1", PyFloat 0.125); ("f1-cls-2", PyFloat 0.875)].

(** The number of milestones up to epoch [n]. *)
Definition passed (n : Z) (milestones : list Z) : nat :=
  length (filter (fun m => (m <=? n)%Z) milestones).

(** The rate after the first [p] factors: [((lr * f0) * f1) ...]. *)
Definition decayed (lr0 : float) (factors : list float) (p : nat) : float :=
  fold_left PrimFloat.mul (firstn p factors) lr0.

(** The schedule's variables once [n] epochs after [start_epoch] are
    done, for milestones in ascending order that all come later than
    [start_epoch]. *)
Definition sorted_schedule_after (config : Config) (start_epoch : Z)
    (lr0 : float) (groups : list ParamGroup) (n : nat)
    : float * nat * list ParamGroup :=
  let p := passed (start_epoch + Z.of_nat n) (cfg_lr_step config) in
  (decayed lr0 (cfg_lr_factor config) p,
   Nat.min p (length (cfg_lr_step config) - 1),
   if Nat.eqb p 0 then groups
   else set_lr (decayed lr0 (cfg_lr_factor config) p) groups).

(** A run resumed after its ten first epochs. *)
Definition resumed_state : LoopState :=
  mkLoopState 1 0 two_groups [] (PyFloat 1e16).

Definition three_step_config : Config :=
  mkConfig "classification" "loss" "out/checkpoints" "out/predictions"
           1%float [2; 3; 5]%Z [0.5; 0.5; 0.25]%float 6%Z false false.

Definition no_milestone_config : Config :=
  mkConfig "classification" "loss" "out/checkpoints" "out/predictions"
           1%float [] [] 6%Z false false.

(** The TensorBoard scalars a trace adds, in order. *)
Definition scalars_written (t : list event) : list (string * pyval * option Z) :=
  flat_map (fun ev => match ev with
                      | AddScalar tag v step => [(tag, v, step)]
                      | _ => []
                      end) t.

(** The scalars of one validation: each metric under [<key>/val]. *)
Definition validation_scalars (aggr_metrics : OrderedDict) (epoch : option Z)
    : list (string * pyval * option Z) :=
  map (fun kv => ((fst kv ++ "/val")%string, snd kv, epoch)) aggr_metrics.

(** A configuration whose key metric the unsupervised runner does not report. *)
Definition accuracy_config : Config :=
  mkConfig "classification" "accuracy" "out/checkpoints" "out/predictions"
           1%float [10; 20]%Z [0.5; 0.1]%float 30%Z false false.

Definition loss_only_metrics : OrderedDict :=
  [("epoch", PyInt 0); ("loss", PyFloat 2)].

Definition nan_loss_metrics : OrderedDict :=
  [("epoch", PyInt 3); ("loss", PyFloat PrimFloat.nan)].

(** The value [main] starts [best_value] from. *)
Definition initial_best (config : Config) : pyval :=
  if in_NEG_METRICS (cfg_key_metric config)
  then PyFloat 1e16 else PyFloat (-1e16).

(** A loader whose last batch holds a single sample. *)
Definition trainset_with_single : list (list (Sample float)) :=
  [[misclassified_sample; well_classified_sample]; [strong_latent_sample]].

Definition real_sample : Sample R :=
  mkSample [1; 2]%R [] 1%Z.

(** ** Metrics that are numbers *)

(** No value of the dictionary is [None]. *)
Definition numbers (d : OrderedDict) : Prop :=
  Forall (fun kv => snd kv <> PyNone) d.

(** The metrics before the first [None]. *)
Fixpoint before_None (items : OrderedDict) : OrderedDict :=
  match items with
  | [] => []
  | kv :: rest => if is_None (snd kv) then [] else kv :: before_None rest
  end.

(** The analyzer's report holds numbers only. *)
Definition analyzer_numbers (md : MetricsDict) : Prop :=
  total_accuracy md <> PyNone /\ prec_avg md <> PyNone /\
  rec_avg md <> PyNone /\ f1_avg md <> PyNone /\
  Forall (fun v => v <> PyNone) (precision md) /\
  Forall (fun v => v <> PyNone) (recall md) /\
  Forall (fun v => v <> PyNone) (f1 md).

Definition auc_numbers (auc : option (pyval * pyval)) : Prop :=
  match auc with
  | Some (auroc, auprc) => auroc <> PyNone /\ auprc <> PyNone
  | None => True
  end.

(** Metrics whose second value is [None]. *)
Definition metrics_with_None : OrderedDict :=
  [("epoch", PyInt 1); ("loss", PyNone); ("accuracy", PyFloat 0.5)].

(** * Properties *)

(** ** Dictionaries *)

Lemma dict_get_set_same (d : OrderedDict) (k : string) (v : pyval) :
  dict_get (dict_set d k v) k = Some v.
Proof.
  induction d as [|[k' v'] d IH]; simpl.
  - now rewrite String.eqb_refl.
  - destruct (String.eqb k' k) eqn:E; simpl.
    + now rewrite String.eqb_refl.
    + now rewrite E.
Qed.

Lemma dict_get_set_other (d : OrderedDict) (k k' : string) (v : pyval) :
  String.eqb k' k = false ->
  dict_get (dict_set d k' v) k = dict_get d k.
Proof.
  intros Hk. induction d as [|[k0 v0] d IH]; simpl.
  - now rewrite Hk.
  - destruct (String.eqb k0 k') eqn:E; simpl.
    + apply String.eqb_eq in E. subst k0. now rewrite Hk.
    + now rewrite IH.
Qed.

Lemma set_per_class_keeps (m key : string) (mval : list pyval) :
  (forall suffix, String.eqb (m ++ suffix)%string key = false) ->
  forall d i, dict_get (set_per_class d m i mval) key = dict_get d key.
Proof.
  intros Hm. induction mval as [|v rest IH]; intros d i; simpl.
  - reflexivity.
  - rewrite IH. apply dict_get_set_other. apply Hm.
Qed.

Lemma classification_metrics_keep_loss (d : OrderedDict) (md : MetricsDict) :
  dict_get (set_classification_metrics d md) "loss" = dict_get d "loss".
Proof.
  unfold set_classification_metrics.
  rewrite !set_per_class_keeps by (intros suffix; reflexivity).
  now rewrite !dict_get_set_other by reflexivity.
Qed.

(** ** The epoch loss *)

Lemma train_loop_accumulates (batches : list Batch) (acc : Accum) :
  fold_left train_step batches acc =
  mkAccum (fold_left PrimFloat.add (map batch_total batches) (epoch_loss acc))
          (total_count acc + list_sum (map batch_count batches))
          (batch_means acc ++ map batch_mean batches).
Proof.
  revert acc. induction batches as [|b rest IH]; intros acc; simpl.
  - destruct acc; simpl. now rewrite Nat.add_0_r, app_nil_r.
  - rewrite IH. unfold train_step, batch_total, batch_count; simpl.
    f_equal.
    + lia.
    + now rewrite <- app_assoc.
Qed.

Lemma eval_loop_accumulates (batches : list Batch) (acc : Accum) :
  Forall (fun b => batch_count b <> 0) batches ->
  eval_loop acc batches =
  Ok (mkAccum (fold_left PrimFloat.add (map batch_total batches) (epoch_loss acc))
              (total_count acc + list_sum (map batch_count batches))
              (batch_means acc ++ map batch_mean batches)).
Proof.
  intros H. revert acc. induction H as [|b rest Hb _ IH]; intros acc; simpl.
  - destruct acc; simpl. now rewrite Nat.add_0_r, app_nil_r.
  - unfold eval_step, py_truediv. unfold batch_count in Hb.
    destruct (length (loss b)) eqn:E; [congruence|]. simpl.
    rewrite IH. simpl. f_equal. f_equal.
    + unfold batch_count. lia.
    + rewrite <- app_assoc. simpl. unfold batch_mean, tensor_div, batch_total, batch_count.
      now rewrite E.
Qed.

Lemma eval_loop_degenerate (batches : list Batch) (acc : Accum) :
  Exists (fun b => batch_count b = 0) batches ->
  eval_loop acc batches = Raise ZeroDivisionError.
Proof.
  intros H. revert acc. induction H as [b rest Hb | b rest _ IH]; intros acc; simpl.
  - unfold eval_step, py_truediv. unfold batch_count in Hb. now rewrite Hb.
  - unfold eval_step, py_truediv.
    destruct (length (loss b)); simpl; [reflexivity | apply IH].
Qed.

Lemma count_le_total (b : Batch) (batches : list Batch) :
  In b batches -> batch_count b <= list_sum (map batch_count batches).
Proof.
  induction batches as [|b' rest IH]; simpl; intros H.
  - contradiction.
  - destruct H as [-> | H]; [lia | specialize (IH H); lia].
Qed.

Lemma unequal_counts_positive (batches : list Batch) :
  unequal_counts batches -> 0 < list_sum (map batch_count batches).
Proof.
  intros (b1 & b2 & H1 & H2 & Hne).
  apply count_le_total in H1. apply count_le_total in H2. lia.
Qed.

Lemma train_epoch_loss (batches : list Batch) :
  0 < list_sum (map batch_count batches) ->
  py_truediv (epoch_loss (fold_left train_step batches accum0))
             (total_count (fold_left train_step batches accum0))
  = Ok (count_weighted_mean batches).
Proof.
  intros Hpos. rewrite train_loop_accumulates. simpl.
  unfold py_truediv, count_weighted_mean, py_sum.
  destruct (list_sum (map batch_count batches)); [lia | reflexivity].
Qed.

Lemma unsupervised_train_epoch_ok (epoch_metrics : OrderedDict)
    (epoch_num : option Z) (batches : list Batch) :
  0 < list_sum (map batch_count batches) ->
  exists m,
    UnsupervisedRunner.train_epoch epoch_metrics epoch_num batches = Ok m /\
    dict_get m "loss" = Some (PyFloat (count_weighted_mean batches)).
Proof.
  intros Hpos. unfold UnsupervisedRunner.train_epoch.
  rewrite (train_epoch_loss batches Hpos). simpl.
  eexists. split; [reflexivity | apply dict_get_set_same].
Qed.

Lemma supervised_train_epoch_ok (epoch_metrics : OrderedDict)
    (epoch_num : option Z) (batches : list Batch) (metrics_dict : MetricsDict) :
  0 < list_sum (map batch_count batches) ->
  exists m pb,
    SupervisedRunner.train_epoch epoch_metrics epoch_num batches metrics_dict
      = Ok (m, pb) /\
    dict_get m "loss" = Some (PyFloat (count_weighted_mean batches)).
Proof.
  intros Hpos. unfold SupervisedRunner.train_epoch.
  rewrite (train_epoch_loss batches Hpos). simpl.
  do 2 eexists. split; [reflexivity |].
  rewrite classification_metrics_keep_loss. apply dict_get_set_same.
Qed.

(** C1.  For an epoch whose batches have unequal counts, both runners'
    [train_epoch] return, and the [loss] they record is the sum of the
    batches' total losses divided by the sum of the batches' counts;
    wherever that differs from the mean of the per-batch means, the
    recorded loss is not the latter. *)
Theorem train_epoch_loss_is_count_weighted (epoch_metrics : OrderedDict)
    (epoch_num : option Z) (batches : list Batch) (metrics_dict : MetricsDict)
    (Hcounts : unequal_counts batches) :
  (exists m,
     UnsupervisedRunner.train_epoch epoch_metrics epoch_num batches = Ok m /\
     dict_get m "loss" = Some (PyFloat (count_weighted_mean batches)) /\
     (count_weighted_mean batches <> mean_of_batch_means batches ->
      dict_get m "loss" <> Some (PyFloat (mean_of_batch_means batches)))) /\
  (exists m pb,
     SupervisedRunner.train_epoch epoch_metrics epoch_num batches metrics_dict
       = Ok (m, pb) /\
     dict_get m "loss" = Some (PyFloat (count_weighted_mean batches)) /\
     (count_weighted_mean batches <> mean_of_batch_means batches ->
      dict_get m "loss" <> Some (PyFloat (mean_of_batch_means batches)))).
Proof.
  pose proof (unequal_counts_positive batches Hcounts) as Hpos.
  split.
  - destruct (unsupervised_train_epoch_ok epoch_metrics epoch_num batches Hpos)
      as (m & Hm & Hloss).
    exists m. repeat split; trivial.
    intros Hne Heq. rewrite Hloss in Heq. congruence.
  - destruct (supervised_train_epoch_ok epoch_metrics epoch_num batches
                metrics_dict Hpos) as (m & pb & Hm & Hloss).
    exists m, pb. repeat split; trivial.
    intros Hne Heq. rewrite Hloss in Heq. congruence.
Qed.

Lemma two_unequal_batches_means :
  count_weighted_mean two_unequal_batches = 1.75%float /\
  mean_of_batch_means two_unequal_batches = 2.5%float /\
  PrimFloat.eqb (count_weighted_mean two_unequal_batches)
                (mean_of_batch_means two_unequal_batches) = false.
Proof. repeat split; reflexivity. Qed.

Lemma train_epoch_loss_is_count_weighted_witness :
  unequal_counts two_unequal_batches /\
  ((exists m,
      UnsupervisedRunner.train_epoch [] (Some 1%Z) two_unequal_batches = Ok m /\
      dict_get m "loss" = Some (PyFloat (count_weighted_mean two_unequal_batches)) /\
      (count_weighted_mean two_unequal_batches
         <> mean_of_batch_means two_unequal_batches ->
       dict_get m "loss"
         <> Some (PyFloat (mean_of_batch_means two_unequal_batches)))) /\
   (exists m pb,
      SupervisedRunner.train_epoch [] (Some 1%Z) two_unequal_batches
        no_class_metrics = Ok (m, pb) /\
      dict_get m "loss" = Some (PyFloat (count_weighted_mean two_unequal_batches)) /\
      (count_weighted_mean two_unequal_batches
         <> mean_of_batch_means two_unequal_batches ->
       dict_get m "loss"
         <> Some (PyFloat (mean_of_batch_means two_unequal_batches))))).
Proof.
  assert (H : unequal_counts two_unequal_batches).
  { exists (mkBatch [1; 1; 1]%float [10; 11; 12]%Z), (mkBatch [4]%float [13]%Z).
    simpl. repeat split; [now left | right; now left | discriminate]. }
  split; [exact H |].
  exact (train_epoch_loss_is_count_weighted [] (Some 1%Z) two_unequal_batches
           no_class_metrics H).
Defined.

(** Without a degenerate batch the evaluation returns the same
    count-weighted mean. *)
Lemma evaluate_without_degenerate_batch (epoch_metrics : OrderedDict)
    (epoch_num : option Z) (batches : list Batch) :
  batches <> [] ->
  Forall (fun b => batch_count b <> 0) batches ->
  exists m,
    UnsupervisedRunner.evaluate epoch_metrics epoch_num batches
      = Ok (m, UnsupervisedRunner.collect batches) /\
    dict_get m "loss" = Some (PyFloat (count_weighted_mean batches)).
Proof.
  intros Hne Hall. unfold UnsupervisedRunner.evaluate.
  rewrite (eval_loop_accumulates batches accum0 Hall). cbn [bind].
  cbn [epoch_loss total_count accum0 Nat.add].
  assert (Hpos : 0 < list_sum (map batch_count batches)).
  { destruct batches as [|b rest]; [congruence |].
    inversion Hall as [|? ? Hb _]; subst. simpl. lia. }
  unfold py_truediv.
  destruct (list_sum (map batch_count batches)) eqn:E; [lia |].
  cbn [bind]. eexists. split; [reflexivity |].
  rewrite dict_get_set_same. unfold count_weighted_mean, py_sum.
  now rewrite E.
Qed.

(** ** Degenerate batches *)

Lemma degenerate_batch_mean (b : Batch) :
  batch_count b = 0 -> batch_mean b = PrimFloat.nan.
Proof.
  unfold batch_mean, batch_total, batch_count. destruct (loss b); simpl.
  - reflexivity.
  - discriminate.
Qed.

(** C7, as the code has it.  A batch without active elements is neither
    guarded against nor left out: [UnsupervisedRunner.evaluate] raises
    [ZeroDivisionError]; [UnsupervisedRunner.train_epoch] takes NaN as that
    batch's mean loss, keeps the batch in the epoch sums, and raises
    [ZeroDivisionError] at the epoch mean exactly when no batch of the
    epoch has an active element. *)
Theorem degenerate_batch_is_unguarded (epoch_metrics : OrderedDict)
    (epoch_num : option Z) (batches : list Batch)
    (Hdeg : Exists (fun b => batch_count b = 0) batches) :
  UnsupervisedRunner.evaluate epoch_metrics epoch_num batches
    = Raise ZeroDivisionError /\
  batch_means (fold_left train_step batches accum0) = map batch_mean batches /\
  Exists (fun mean_loss => mean_loss = PrimFloat.nan) (map batch_mean batches) /\
  (list_sum (map batch_count batches) = 0 ->
   UnsupervisedRunner.train_epoch epoch_metrics epoch_num batches
     = Raise ZeroDivisionError) /\
  (0 < list_sum (map batch_count batches) ->
   exists m,
     UnsupervisedRunner.train_epoch epoch_metrics epoch_num batches = Ok m /\
     dict_get m "loss" = Some (PyFloat (count_weighted_mean batches))).
Proof.
  repeat split.
  - unfold UnsupervisedRunner.evaluate.
    now rewrite (eval_loop_degenerate batches accum0 Hdeg).
  - now rewrite train_loop_accumulates.
  - apply Exists_exists in Hdeg. destruct Hdeg as (b & Hin & Hb).
    apply Exists_exists. exists (batch_mean b). split.
    + now apply in_map.
    + now apply degenerate_batch_mean.
  - intros Hzero. unfold UnsupervisedRunner.train_epoch.
    rewrite train_loop_accumulates. simpl. now rewrite Hzero.
  - apply unsupervised_train_epoch_ok.
Qed.

Lemma degenerate_batch_is_unguarded_witness :
  Exists (fun b => batch_count b = 0) batches_with_degenerate /\
  UnsupervisedRunner.evaluate [] (Some 1%Z) batches_with_degenerate
    = Raise ZeroDivisionError.
Proof.
  assert (H : Exists (fun b => batch_count b = 0) batches_with_degenerate).
  { apply Exists_cons_tl, Exists_cons_hd. reflexivity. }
  split; [exact H |].
  exact (proj1 (degenerate_batch_is_unguarded [] (Some 1%Z)
                  batches_with_degenerate H)).
Defined.

(** C7 as claimed fails: with the degenerate batch left out the epoch has
    loss (1+3)/2 = 2, but the evaluation raises, and the training pass
    hands NaN to the optimizer as the batch's mean loss. *)
Lemma degenerate_batch_not_excluded :
  UnsupervisedRunner.evaluate [] (Some 1%Z) [mkBatch [1; 3]%float [10; 11]%Z]
    = Ok ([("epoch", PyInt 1); ("loss", PyFloat 2)],
          mkPerBatch [[[1; 3]%float]] [[10; 11]%Z]) /\
  UnsupervisedRunner.evaluate [] (Some 1%Z) batches_with_degenerate
    = Raise ZeroDivisionError /\
  batch_means (fold_left train_step batches_with_degenerate accum0)
    = [2%float; PrimFloat.nan] /\
  UnsupervisedRunner.train_epoch [] (Some 1%Z) [mkBatch [] [12]%Z]
    = Raise ZeroDivisionError.
Proof. repeat split; reflexivity. Qed.

(** ** Best-checkpoint selection *)

Lemma SFcompare_Eq_sym (a b : spec_float) :
  SFcompare a b = Some Eq -> SFcompare b a = Some Eq.
Proof.
  destruct a as [s1| s1 | | s1 m1 e1], b as [s2 | s2 | | s2 m2 e2]; simpl;
    intros H; try discriminate H; try reflexivity;
    try (destruct s1; discriminate H); try (destruct s2; discriminate H).
  - destruct s1, s2; try discriminate H; reflexivity.
  - destruct s1, s2; try discriminate H;
      destruct (Z.compare e1 e2) eqn:Ee; try discriminate H;
      apply Z.compare_eq in Ee; subst e2; rewrite Z.compare_refl;
      injection H as H.
    + destruct (PosDef.Pos.compare_cont Eq m1 m2) eqn:Em; try discriminate H.
      apply Pos.compare_eq in Em. subst m2.
      change (PosDef.Pos.compare_cont Eq m1 m1) with (Pos.compare m1 m1).
      now rewrite Pos.compare_refl.
    + apply Pos.compare_eq in H. subst m2.
      change (PosDef.Pos.compare_cont Eq m1 m1) with (Pos.compare m1 m1).
      now rewrite Pos.compare_refl.
Qed.

Lemma float_eqb_not_ltb (x y : float) :
  PrimFloat.eqb x y = true ->
  PrimFloat.ltb x y = false /\ PrimFloat.ltb y x = false.
Proof.
  rewrite FloatAxioms.eqb_spec, !FloatAxioms.ltb_spec. unfold SFeqb, SFltb.
  destruct (SFcompare (Prim2SF x) (Prim2SF y)) as [[]|] eqn:E; try discriminate.
  intros _. now rewrite (SFcompare_Eq_sym _ _ E).
Qed.

Lemma py_eq_not_better (v best : pyval) :
  py_eq v best = true -> py_lt v best <> Ok true /\ py_gt v best <> Ok true.
Proof.
  unfold py_lt, py_gt.
  destruct v as [| x | x], best as [| y | y]; simpl; intros H;
    try discriminate H; try (split; discriminate).
  - apply Z.eqb_eq in H. subst y. rewrite Z.ltb_irrefl. split; discriminate.
  - apply float_eqb_not_ltb in H. destruct H as [H1 H2]. rewrite H1, H2.
    split; discriminate.
  - apply float_eqb_not_ltb in H. destruct H as [H1 H2]. rewrite H1, H2.
    split; discriminate.
  - apply float_eqb_not_ltb in H. destruct H as [H1 H2]. rewrite H1, H2.
    split; discriminate.
Qed.

Lemma files_written_app (t1 t2 : list event) :
  files_written (t1 ++ t2) = files_written t1 ++ files_written t2.
Proof. apply flat_map_app. Qed.

Lemma summary_loop_ok (items : OrderedDict) (epoch : option Z) :
  Forall (fun kv => snd kv <> PyNone) items ->
  forall print_str, exists t msg,
    summary_loop items epoch print_str = (t, Ok msg) /\ files_written t = [].
Proof.
  induction 1 as [|[k v] rest Hv _ IH]; intros print_str; simpl.
  - now exists [], print_str.
  - simpl in Hv. unfold tbind, tell, lift.
    destruct v as [| z | f]; [congruence | |]; simpl;
      match goal with |- context [summary_loop rest epoch ?p] =>
        destruct (IH p) as (t & msg & -> & Ht) end;
      do 2 eexists; (split; [reflexivity | simpl; now rewrite Ht]).
Qed.

Lemma in_NEG_METRICS_loss (m : string) :
  in_NEG_METRICS m = true <-> m = "loss".
Proof.
  unfold in_NEG_METRICS, NEG_METRICS. simpl. rewrite orb_false_r.
  apply String.eqb_eq.
Qed.

Lemma dict_get_In (d : OrderedDict) (k : string) (v : pyval) :
  dict_get d k = Some v -> exists k', In (k', v) d.
Proof.
  induction d as [|[k0 v0] d IH]; simpl; [discriminate |].
  destruct (String.eqb k0 k).
  - intros [= ->]. exists k0. now left.
  - intros H. destruct (IH H) as [k' Hk']. exists k'. now right.
Qed.

Lemma py_lt_numbers (a b : pyval) :
  a <> PyNone -> b <> PyNone -> exists c, py_lt a b = Ok c.
Proof.
  unfold py_lt.
  destruct a, b; simpl; intros Ha Hb; try congruence; eexists; reflexivity.
Qed.

Lemma py_gt_numbers (a b : pyval) :
  a <> PyNone -> b <> PyNone -> exists c, py_gt a b = Ok c.
Proof.
  unfold py_gt.
  destruct a, b; simpl; intros Ha Hb; try congruence; eexists; reflexivity.
Qed.

(** C2.  When the evaluation returns metrics that are all numbers and
    contain the key metric, [validate] returns; the best checkpoint and
    the prediction dump are written, [best_metrics] replaced and
    [best_value] updated exactly when the key metric's value is strictly
    smaller than [best_value] for the key [loss] (the one member of
    [NEG_METRICS]) and strictly larger for any other key; otherwise
    nothing is written and both are returned unchanged; a value equal to
    [best_value] is never an improvement. *)
Theorem validate_best_selection
    (val_evaluator : option Z -> result (OrderedDict * PerBatch))
    (config : Config) (best_metrics : OrderedDict) (best_value : pyval)
    (epoch : option Z) (aggr_metrics : OrderedDict) (per_batch : PerBatch)
    (v : pyval)
    (Heval : val_evaluator epoch = Ok (aggr_metrics, per_batch))
    (Hvalues : Forall (fun kv => snd kv <> PyNone) aggr_metrics)
    (Hkey : dict_get aggr_metrics (cfg_key_metric config) = Some v)
    (Hbest : best_value <> PyNone) :
  exists trace best_metrics' best_value',
    validate val_evaluator config best_metrics best_value epoch
      = (trace, Ok (aggr_metrics, best_metrics', best_value', per_batch)) /\
    (strictly_better (cfg_key_metric config) v best_value ->
       files_written trace
         = [path_join (cfg_save_dir config) "model_best.pth";
            path_join (cfg_pred_dir config) "best_predictions"] /\
       best_metrics' = aggr_metrics /\ best_value' = v) /\
    (~ strictly_better (cfg_key_metric config) v best_value ->
       files_written trace = [] /\
       best_metrics' = best_metrics /\ best_value' = best_value) /\
    (py_eq v best_value = true ->
       ~ strictly_better (cfg_key_metric config) v best_value).
Proof.
  assert (Hv : v <> PyNone).
  { destruct (dict_get_In _ _ _ Hkey) as [k' Hin].
    rewrite Forall_forall in Hvalues. exact (Hvalues _ Hin). }
  unfold validate. rewrite Heval.
  destruct (summary_loop_ok aggr_metrics epoch Hvalues
              [Lit "Epoch "; Str (py_epoch epoch); Lit " Validation Summary: "])
    as (t & msg & Hloop & Ht).
  cbn [tbind tell lift ret fst snd app]. rewrite Hloop.
  cbn [tbind tell lift ret fst snd app].
  unfold getitem. rewrite Hkey. cbn [bind].
  pose proof (in_NEG_METRICS_loss (cfg_key_metric config)) as Hneg.
  pose proof (py_eq_not_better v best_value) as Heq.
  unfold strictly_better.
  destruct (in_NEG_METRICS (cfg_key_metric config)) eqn:Eneg.
  - assert (Hk : cfg_key_metric config = "loss") by now apply Hneg.
    destruct (py_lt_numbers v best_value Hv Hbest) as [c Hc]. rewrite Hc.
    destruct c; cbn [tbind ret fst snd app]; do 3 eexists;
      (split; [reflexivity |]);
      cbn [files_written flat_map app]; fold (files_written t);
      rewrite ?files_written_app, Ht; cbn [files_written flat_map app].
    + split; [| split].
      * intros _. repeat split; reflexivity.
      * intros Hnot. exfalso. apply Hnot. now left.
      * intros Hpy [[_ H] | [H _]]; [| congruence].
        destruct (Heq Hpy) as [H1 _]. congruence.
    + split; [| split].
      * intros [[_ H] | [H _]]; congruence.
      * intros _. repeat split; reflexivity.
      * intros _ [[_ H] | [H _]]; congruence.
  - assert (Hk : cfg_key_metric config <> "loss").
    { intros H. apply Hneg in H. congruence. }
    destruct (py_gt_numbers v best_value Hv Hbest) as [c Hc]. rewrite Hc.
    destruct c; cbn [tbind ret fst snd app]; do 3 eexists;
      (split; [reflexivity |]);
      cbn [files_written flat_map app]; fold (files_written t);
      rewrite ?files_written_app, Ht; cbn [files_written flat_map app].
    + split; [| split].
      * intros _. repeat split; reflexivity.
      * intros Hnot. exfalso. apply Hnot. now right.
      * intros Hpy [[H _] | [_ H]]; [congruence |].
        destruct (Heq Hpy) as [_ H2]. congruence.
    + split; [| split].
      * intros [[H _] | [_ H]]; congruence.
      * intros _. repeat split; reflexivity.
      * intros _ [[H _] | [_ H]]; congruence.
Qed.

Lemma summary_loop_None (items : OrderedDict) (epoch : option Z) :
  Exists (fun kv => snd kv = PyNone) items ->
  forall print_str, exists msg,
    summary_loop items epoch print_str
    = (map (fun kv => AddScalar (fst kv ++ "/val")%string (snd kv) epoch)
           (before_None items),
       Raise (NotImplementedError msg)).
Proof.
  induction items as [|[k v] rest IH]; intros Hex print_str.
  - inversion Hex.
  - cbn [summary_loop before_None fst snd].
    destruct v as [| z | f]; cbn [is_None map add_scalar].
    + eexists. reflexivity.
    + inversion Hex as [? ? Hv | ? ? Hrest]; subst; [discriminate Hv |].
      cbn [tbind tell lift format_8f fst snd app].
      match goal with |- context [summary_loop rest epoch ?p] =>
        destruct (IH Hrest p) as (msg & ->) end.
      eexists. reflexivity.
    + inversion Hex as [? ? Hv | ? ? Hrest]; subst; [discriminate Hv |].
      cbn [tbind tell lift format_8f fst snd app].
      match goal with |- context [summary_loop rest epoch ?p] =>
        destruct (IH Hrest p) as (msg & ->) end.
      eexists. reflexivity.
Qed.

(** Whenever a metric of the evaluation is [None], [validate] raises at
    the TensorBoard write of the first such metric: the scalars of the
    metrics before it are all it has done. *)
Lemma validate_raises_on_any_None
    (val_evaluator : option Z -> result (OrderedDict * PerBatch))
    (config : Config) (best_metrics : OrderedDict) (best_value : pyval)
    (epoch : option Z) (aggr_metrics : OrderedDict) (per_batch : PerBatch) :
  val_evaluator epoch = Ok (aggr_metrics, per_batch) ->
  Exists (fun kv => snd kv = PyNone) aggr_metrics ->
  exists msg,
    validate val_evaluator config best_metrics best_value epoch
    = (LogInfo [Lit "Evaluating on validation set ..."]
         :: map (fun kv => AddScalar (fst kv ++ "/val")%string (snd kv) epoch)
                (before_None aggr_metrics),
       Raise (NotImplementedError msg)).
Proof.
  intros Heval Hnone. unfold validate. rewrite Heval.
  destruct (summary_loop_None aggr_metrics epoch Hnone
              [Lit "Epoch "; Str (py_epoch epoch); Lit " Validation Summary: "])
    as (msg & Hloop).
  cbn [tbind tell lift ret fst snd app]. rewrite Hloop.
  cbn [tbind tell lift ret fst snd app].
  exists msg. reflexivity.
Qed.

(** ** The runners' metrics are numbers when the pass has an epoch number *)

Lemma numbers_dict_set (d : OrderedDict) (k : string) (v : pyval) :
  numbers d -> v <> PyNone -> numbers (dict_set d k v).
Proof.
  unfold numbers. intros Hd Hv. induction Hd as [|[k0 v0] d Hk0 Hd IH]; simpl.
  - now repeat constructor.
  - destruct (String.eqb k0 k); constructor; assumption.
Qed.

Lemma numbers_set_per_class (m : string) (mval : list pyval) :
  Forall (fun v => v <> PyNone) mval ->
  forall d i, numbers d -> numbers (set_per_class d m i mval).
Proof.
  induction 1 as [|v rest Hv _ IH]; intros d i Hd; simpl; [exact Hd |].
  apply IH. now apply numbers_dict_set.
Qed.

Lemma numbers_classification (d : OrderedDict) (md : MetricsDict) :
  numbers d -> analyzer_numbers md ->
  numbers (set_classification_metrics d md).
Proof.
  intros Hd (Ha & Hp & Hr & Hf & Hpc & Hrc & Hfc).
  unfold set_classification_metrics.
  repeat (first [apply numbers_set_per_class | apply numbers_dict_set]);
    assumption.
Qed.

Lemma classification_metrics_keep_epoch (d : OrderedDict) (md : MetricsDict) :
  dict_get (set_classification_metrics d md) "epoch" = dict_get d "epoch".
Proof.
  unfold set_classification_metrics.
  rewrite !set_per_class_keeps by (intros suffix; reflexivity).
  now rewrite !dict_get_set_other by reflexivity.
Qed.

(** C8, as the code has it.  [validate] does not tolerate a [None]
    among the metrics: it raises [NotImplementedError] at the TensorBoard
    write of the first such metric, and the scalars of the metrics before
    it are all it has done by then: no summary line is logged, no file
    written and no comparison made.  No validation pass of [main] meets
    one: [main] validates with an integer epoch, and for a pass with an
    epoch number every value of a runner's metrics is a number (the
    analyzer's report being numbers).  It is a pass without an epoch
    number, as the one-off [evaluate] runs it, that has [None] under
    [epoch]. *)
Theorem validate_does_not_tolerate_None :
  (forall (val_evaluator : option Z -> result (OrderedDict * PerBatch))
          (config : Config) (best_metrics : OrderedDict) (best_value : pyval)
          (epoch : option Z) (aggr_metrics : OrderedDict) (per_batch : PerBatch),
     val_evaluator epoch = Ok (aggr_metrics, per_batch) ->
     Exists (fun kv => snd kv = PyNone) aggr_metrics ->
     exists msg,
       validate val_evaluator config best_metrics best_value epoch
       = (LogInfo [Lit "Evaluating on validation set ..."]
            :: map (fun kv => AddScalar (fst kv ++ "/val")%string (snd kv) epoch)
                   (before_None aggr_metrics),
          Raise (NotImplementedError msg))) /\
  (forall (epoch_metrics : OrderedDict) (epoch : Z) (batches : list Batch)
          (metrics_dict : MetricsDict) (auc : option (pyval * pyval))
          (m : OrderedDict) (per_batch : PerBatch),
     numbers epoch_metrics -> analyzer_numbers metrics_dict -> auc_numbers auc ->
     SupervisedRunner.evaluate epoch_metrics (Some epoch) batches metrics_dict auc
       = Ok (m, per_batch) ->
     numbers m) /\
  (forall (epoch_metrics : OrderedDict) (epoch : Z) (batches : list Batch)
          (m : OrderedDict) (per_batch : PerBatch),
     numbers epoch_metrics ->
     UnsupervisedRunner.evaluate epoch_metrics (Some epoch) batches
       = Ok (m, per_batch) ->
     numbers m) /\
  (forall (epoch_metrics : OrderedDict) (batches : list Batch)
          (metrics_dict : MetricsDict) (auc : option (pyval * pyval))
          (m : OrderedDict) (per_batch : PerBatch),
     SupervisedRunner.evaluate epoch_metrics None batches metrics_dict auc
       = Ok (m, per_batch) ->
     dict_get m "epoch" = Some PyNone) /\
  (forall (epoch_metrics : OrderedDict) (batches : list Batch)
          (m : OrderedDict) (per_batch : PerBatch),
     UnsupervisedRunner.evaluate epoch_metrics None batches = Ok (m, per_batch) ->
     dict_get m "epoch" = Some PyNone).
Proof.
  split; [| split; [| split; [| split]]].
  - intros ve config bm bv epoch aggr pb Heval Hnone.
    exact (validate_raises_on_any_None ve config bm bv epoch aggr pb Heval Hnone).
  - intros em e batches md auc m pb Hem Hmd Hauc Hret.
    unfold SupervisedRunner.evaluate in Hret.
    destruct (eval_loop accum0 batches) as [acc | ex]; [| discriminate Hret].
    cbn [bind] in Hret.
    destruct (py_truediv (epoch_loss acc) (total_count acc)) as [l | ex];
      [| discriminate Hret].
    cbn [bind] in Hret. injection Hret as <- _.
    assert (Hbase : numbers (set_classification_metrics
                               (dict_set (dict_set em "epoch" (py_epoch (Some e)))
                                         "loss" (PyFloat l)) md)).
    { apply numbers_classification; [| exact Hmd].
      repeat apply numbers_dict_set; try assumption; discriminate. }
    destruct auc as [[auroc auprc] |]; [| exact Hbase].
    destruct Hauc as [Ha Hp]. now repeat apply numbers_dict_set.
  - intros em e batches m pb Hem Hret.
    unfold UnsupervisedRunner.evaluate in Hret.
    destruct (eval_loop accum0 batches) as [acc | ex]; [| discriminate Hret].
    cbn [bind] in Hret.
    destruct (py_truediv (epoch_loss acc) (total_count acc)) as [l | ex];
      [| discriminate Hret].
    cbn [bind] in Hret. injection Hret as <- _.
    repeat apply numbers_dict_set; try assumption; discriminate.
  - intros em batches md auc m pb Hret.
    unfold SupervisedRunner.evaluate in Hret.
    destruct (eval_loop accum0 batches) as [acc | ex]; [| discriminate Hret].
    cbn [bind] in Hret.
    destruct (py_truediv (epoch_loss acc) (total_count acc)) as [l | ex];
      [| discriminate Hret].
    cbn [bind] in Hret. injection Hret as <- _.
    assert (Hbase : dict_get (set_classification_metrics
                                (dict_set (dict_set em "epoch" (py_epoch None))
                                          "loss" (PyFloat l)) md) "epoch"
                    = Some PyNone).
    { rewrite classification_metrics_keep_epoch.
      rewrite dict_get_set_other by reflexivity. apply dict_get_set_same. }
    destruct auc as [[auroc auprc] |]; [| exact Hbase].
    now rewrite !dict_get_set_other by reflexivity.
  - intros em batches m pb Hret.
    unfold UnsupervisedRunner.evaluate in Hret.
    destruct (eval_loop accum0 batches) as [acc | ex]; [| discriminate Hret].
    cbn [bind] in Hret.
    destruct (py_truediv (epoch_loss acc) (total_count acc)) as [l | ex];
      [| discriminate Hret].
    cbn [bind] in Hret. injection Hret as <- _.
    rewrite dict_get_set_other by reflexivity. apply dict_get_set_same.
Qed.

(** ** The learning-rate schedule *)

Lemma tbind_assoc {A B C : Type} (m : traced A) (f : A -> traced B)
    (g : B -> traced C) :
  tbind (tbind m f) g = tbind m (fun a => tbind (f a) g).
Proof.
  destruct m as [t [a | e]]; simpl; [| reflexivity].
  destruct (f a) as [t' [b | e]]; simpl; [| reflexivity].
  destruct (g b) as [t'' r]. now rewrite app_assoc.
Qed.

Lemma main_loop_app (config : Config) (train_part : Z -> traced unit)
    (val_part : Z -> OrderedDict -> pyval -> traced (OrderedDict * pyval))
    (l1 l2 : list Z) (st : LoopState) :
  main_loop config train_part val_part (l1 ++ l2) st =
  tbind (main_loop config train_part val_part l1 st)
        (main_loop config train_part val_part l2).
Proof.
  revert st. induction l1 as [|e l1 IH]; intros st; simpl.
  - destruct (main_loop config train_part val_part l2 st). reflexivity.
  - destruct (epoch_body config train_part val_part e st) as [t [st' | ex]];
      simpl; [| reflexivity].
    rewrite IH.
    destruct (main_loop config train_part val_part l1 st') as [t1 [st1 | ex]];
      simpl; [| reflexivity].
    destruct (main_loop config train_part val_part l2 st1) as [t2 r2].
    now rewrite app_assoc.
Qed.

Lemma py_range_succ (n : nat) :
  py_range 1 (Z.of_nat (S n) + 1) = py_range 1 (Z.of_nat n + 1) ++ [Z.of_nat (S n)].
Proof.
  unfold py_range. rewrite !Z.add_simpl_r, !Nat2Z.id.
  rewrite seq_S, map_app. cbn [map Nat.add]. do 2 f_equal. lia.
Qed.

Lemma set_lr_set_lr (a b : float) (groups : list ParamGroup) :
  set_lr a (set_lr b groups) = set_lr a groups.
Proof. unfold set_lr. rewrite map_map. reflexivity. Qed.

Lemma set_lr_all (a : float) (groups : list ParamGroup) :
  Forall (fun g => pg_lr g = a) (set_lr a groups).
Proof. unfold set_lr. apply Forall_map. now apply Forall_forall. Qed.

Lemma set_lr_rates (a : float) (groups : list ParamGroup) :
  map pg_lr (set_lr a groups) = map (fun _ => a) groups.
Proof. unfold set_lr. now rewrite map_map. Qed.

Section Schedule.

Variable config : Config.
Variable train_part : Z -> traced unit.
Variable val_part : Z -> OrderedDict -> pyval -> traced (OrderedDict * pyval).
Variable groups : list ParamGroup.
Hypothesis Hsteps : cfg_lr_step config = [10; 20]%Z.
Hypothesis Hfactors : cfg_lr_factor config = [0.5; 0.1]%float.
Hypothesis Htrain : forall e, exists t, train_part e = (t, Ok tt).
Hypothesis Hval : forall e bm bv, exists t r, val_part e bm bv = (t, Ok r).

Lemma epoch_body_schedule (n : nat) (st : LoopState) :
  schedule_of st = schedule_after n groups ->
  exists t st',
    epoch_body config train_part val_part (Z.of_nat (S n)) st = (t, Ok st') /\
    schedule_of st' = schedule_after (S n) groups /\
    (S n = 10 ->
     In (SaveModel (checkpoint_path config "10") (Some 10%Z)
                   (Some (map pg_lr groups))) t) /\
    (S n = 20 ->
     In (SaveModel (checkpoint_path config "20") (Some 20%Z)
                   (Some (map (fun _ => 0.5%float) groups))) t).
Proof.
  intros Hst. unfold epoch_body.
  destruct (Htrain (Z.of_nat (S n))) as [t1 ->].
  destruct (Hval (Z.of_nat (S n)) (best_metrics st) (best_value st))
    as (t2 & [bm' bv'] & ->).
  unfold schedule_of in Hst. destruct st as [lr0 step0 groups0 bm0 bv0].
  simpl in Hst. unfold schedule_after in Hst.
  unfold lr_scheduling, save_model. simpl lr_step. simpl param_groups. simpl lr.
  rewrite Hsteps, Hfactors.
  assert (Hcase : S n < 10 \/ S n = 10 \/ 10 < S n < 20 \/ S n = 20 \/ 20 < S n)
    by lia.
  unfold schedule_of, schedule_after.
  destruct Hcase as [H | [H | [H | [H | H]]]].
  - replace (Nat.ltb n 10) with true in Hst by (symmetry; apply Nat.ltb_lt; lia).
    replace (Nat.ltb (S n) 10) with true by (symmetry; apply Nat.ltb_lt; lia).
    injection Hst as -> -> ->.
    cbn [index nth_error lift tbind tell ret fst snd app].
    replace (Z.of_nat (S n) =? 10)%Z with false by (symmetry; apply Z.eqb_neq; lia).
    destruct (cfg_harden config && check_progress (Z.of_nat (S n)))%bool;
      cbn [tbind tell ret fst snd app lr lr_step param_groups];
      do 2 eexists; (split; [reflexivity |]);
      (split; [reflexivity | split; intros; lia]).
  - assert (n = 9) by lia. subst n. cbn [Nat.ltb Nat.leb] in Hst |- *.
    injection Hst as -> -> ->.
    destruct (cfg_harden config); cbn; do 2 eexists; (split; [reflexivity |]);
      (split; [reflexivity |]);
      (split; [intros _; rewrite !in_app_iff; simpl; auto | discriminate]).
  - replace (Nat.ltb n 10) with false in Hst by (symmetry; apply Nat.ltb_ge; lia).
    replace (Nat.ltb n 20) with true in Hst by (symmetry; apply Nat.ltb_lt; lia).
    replace (Nat.ltb (S n) 10) with false by (symmetry; apply Nat.ltb_ge; lia).
    replace (Nat.ltb (S n) 20) with true by (symmetry; apply Nat.ltb_lt; lia).
    injection Hst as -> -> ->.
    cbn [index nth_error lift tbind tell ret fst snd app].
    replace (Z.of_nat (S n) =? 20)%Z with false by (symmetry; apply Z.eqb_neq; lia).
    destruct (cfg_harden config && check_progress (Z.of_nat (S n)))%bool;
      cbn [tbind tell ret fst snd app lr lr_step param_groups];
      do 2 eexists; (split; [reflexivity |]);
      (split; [reflexivity | split; intros; lia]).
  - assert (n = 19) by lia. subst n. cbn [Nat.ltb Nat.leb] in Hst |- *.
    injection Hst as -> -> ->.
    destruct (cfg_harden config); cbn; do 2 eexists; (split; [reflexivity |]);
      (split; [now rewrite set_lr_set_lr |]);
      (split; [discriminate |]);
      intros _; rewrite !in_app_iff; simpl; rewrite set_lr_rates; auto.
  - replace (Nat.ltb n 10) with false in Hst by (symmetry; apply Nat.ltb_ge; lia).
    replace (Nat.ltb n 20) with false in Hst by (symmetry; apply Nat.ltb_ge; lia).
    replace (Nat.ltb (S n) 10) with false by (symmetry; apply Nat.ltb_ge; lia).
    replace (Nat.ltb (S n) 20) with false by (symmetry; apply Nat.ltb_ge; lia).
    injection Hst as -> -> ->.
    cbn [index nth_error lift tbind tell ret fst snd app].
    replace (Z.of_nat (S n) =? 20)%Z with false by (symmetry; apply Z.eqb_neq; lia).
    destruct (cfg_harden config && check_progress (Z.of_nat (S n)))%bool;
      cbn [tbind tell ret fst snd app lr lr_step param_groups];
      do 2 eexists; (split; [reflexivity |]);
      (split; [reflexivity | split; intros; lia]).
Qed.

Lemma main_loop_schedule (n : nat) (bm bv : _) :
  exists trace st,
    main_loop config train_part val_part (py_range 1 (Z.of_nat n + 1))
              (mkLoopState 1 0 groups bm bv) = (trace, Ok st) /\
    schedule_of st = schedule_after n groups /\
    (10 <= n ->
     In (SaveModel (checkpoint_path config "10") (Some 10%Z)
                   (Some (map pg_lr groups))) trace) /\
    (20 <= n ->
     In (SaveModel (checkpoint_path config "20") (Some 20%Z)
                   (Some (map (fun _ => 0.5%float) groups))) trace).
Proof.
  induction n as [|n IH].
  - exists [], (mkLoopState 1 0 groups bm bv). repeat split; intros; lia.
  - destruct IH as (trace & st & Hloop & Hsched & H10 & H20).
    destruct (epoch_body_schedule n st Hsched)
      as (t & st' & Hbody & Hsched' & Ht10 & Ht20).
    rewrite py_range_succ, main_loop_app, Hloop.
    cbn [tbind main_loop]. rewrite Hbody. cbn [tbind ret].
    exists (trace ++ t ++ []), st'. split; [reflexivity |].
    split; [exact Hsched' |].
    split; intros Hn; rewrite !in_app_iff.
    + destruct (Nat.eq_dec (S n) 10) as [E | E]; [right; left; auto |].
      left. apply H10. lia.
    + destruct (Nat.eq_dec (S n) 20) as [E | E]; [right; left; auto |].
      left. apply H20. lia.
Qed.

End Schedule.

(** C3.  With milestones [10, 20], factors [0.5, 0.1] and a starting
    rate of 1.0, for training and validation parts that return: the epoch
    loop returns after any number [n] of epochs and the milestone index
    stays inside the milestone list; after epochs 10..19 the rate is 0.5
    in every parameter group and from epoch 20 on it is 0.05; the
    checkpoint tagged 10 holds the rates the optimizer had before the
    first change and the checkpoint tagged 20 holds 0.5 everywhere. *)
Theorem lr_schedule_milestones (config : Config) (train_part : Z -> traced unit)
    (val_part : Z -> OrderedDict -> pyval -> traced (OrderedDict * pyval))
    (groups : list ParamGroup) (bm : OrderedDict) (bv : pyval) (n : nat)
    (Hsteps : cfg_lr_step config = [10; 20]%Z)
    (Hfactors : cfg_lr_factor config = [0.5; 0.1]%float)
    (Htrain : forall e, exists t, train_part e = (t, Ok tt))
    (Hval : forall e bm bv, exists t r, val_part e bm bv = (t, Ok r)) :
  exists trace st,
    main_loop config train_part val_part (py_range 1 (Z.of_nat n + 1))
              (mkLoopState 1 0 groups bm bv) = (trace, Ok st) /\
    lr_step st < length (cfg_lr_step config) /\
    (n < 10 -> lr st = 1%float /\ param_groups st = groups) /\
    (10 <= n < 20 ->
     lr st = 0.5%float /\
     Forall (fun g => pg_lr g = 0.5%float) (param_groups st)) /\
    (20 <= n ->
     lr st = 0.05%float /\
     Forall (fun g => pg_lr g = 0.05%float) (param_groups st)) /\
    (10 <= n ->
     In (SaveModel (checkpoint_path config "10") (Some 10%Z)
                   (Some (map pg_lr groups))) trace) /\
    (20 <= n ->
     In (SaveModel (checkpoint_path config "20") (Some 20%Z)
                   (Some (map (fun _ => 0.5%float) groups))) trace).
Proof.
  destruct (main_loop_schedule config train_part val_part groups
              Hsteps Hfactors Htrain Hval n bm bv)
    as (trace & st & Hloop & Hsched & H10 & H20).
  exists trace, st. split; [exact Hloop |].
  unfold schedule_of, schedule_after in Hsched. rewrite Hsteps.
  destruct (Nat.ltb_spec n 10) as [Ha | Ha];
    [| destruct (Nat.ltb_spec n 20) as [Hb | Hb]];
    injection Hsched as Hlr Hstep Hgroups; rewrite Hlr, Hstep, Hgroups; simpl;
    repeat split; try lia; try (intros; lia); auto using set_lr_all.
Qed.

Lemma lr_schedule_milestones_witness :
  exists trace st,
    main_loop example_config (fun _ => ret tt) (fun _ bm bv => ret (bm, bv))
              (py_range 1 21) (mkLoopState 1 0 two_groups [] (PyFloat 1e16))
      = (trace, Ok st) /\
    lr_step st < 2 /\
    Forall (fun g => pg_lr g = 0.05%float) (param_groups st) /\
    In (SaveModel "out/checkpoints/model_10.pth" (Some 10%Z)
                  (Some [1; 1]%float)) trace /\
    In (SaveModel "out/checkpoints/model_20.pth" (Some 20%Z)
                  (Some [0.5; 0.5]%float)) trace.
Proof.
  destruct (lr_schedule_milestones example_config (fun _ => ret tt)
              (fun _ bm bv => ret (bm, bv)) two_groups [] (PyFloat 1e16) 20
              eq_refl eq_refl
              (fun _ => ex_intro _ [] eq_refl)
              (fun _ bm bv => ex_intro _ [] (ex_intro _ (bm, bv) eq_refl)))
    as (trace & st & Hloop & Hstep & _ & _ & H20 & Hc10 & Hc20).
  exists trace, st. split; [exact Hloop |]. split; [exact Hstep |].
  split; [apply H20; lia |]. split; [apply Hc10; lia | apply Hc20; lia].
Defined.

(** After ten epochs of the same run every group has rate 0.5, and the
    run wrote the rolling checkpoint ten times and the tagged one once. *)
Lemma ten_epochs_of_example :
  outcome (main_loop example_config (fun _ => ret tt) (fun _ bm bv => ret (bm, bv))
             (py_range 1 11) (mkLoopState 1 0 two_groups [] (PyFloat 1e16)))
    = Ok (mkLoopState 0.5 1 [mkParamGroup 0.5 0; mkParamGroup 0.5 0]%float
                      [] (PyFloat 1e16)) /\
  length (trace_of (main_loop example_config (fun _ => ret tt)
                      (fun _ bm bv => ret (bm, bv))
                      (py_range 1 11)
                      (mkLoopState 1 0 two_groups [] (PyFloat 1e16)))) = 11.
Proof. split; reflexivity. Qed.

(** ** The pipeline factory *)

(** C9.  A task other than "classification" and "regression" makes
    [pipeline_factory] raise [NotImplementedError], and [main] raises it
    with an empty trace whatever the evaluator and the training part are:
    nothing that handles a batch has run.  For the two known tasks the
    factory returns the supervised dataset, collate function and runner. *)
Theorem unknown_task_is_fatal_at_setup (config : Config) :
  (cfg_task config <> "classification" /\ cfg_task config <> "regression" ->
   pipeline_factory config = Raise (task_not_implemented (cfg_task config)) /\
   forall start_epoch optimizer val_evaluator train_part,
     main config start_epoch optimizer val_evaluator train_part
       = ([], Raise (task_not_implemented (cfg_task config)))) /\
  (cfg_task config = "classification" \/ cfg_task config = "regression" ->
   pipeline_factory config
     = Ok (ClassiregressionDataset, collate_superv, SupervisedRunner_cls)).
Proof.
  split.
  - intros [Hc Hr].
    assert (Hf : pipeline_factory config
                 = Raise (task_not_implemented (cfg_task config))).
    { unfold pipeline_factory.
      apply String.eqb_neq in Hc. apply String.eqb_neq in Hr.
      now rewrite Hc, Hr. }
    split; [exact Hf |]. intros. unfold main. now rewrite Hf.
  - intros [H | H]; unfold pipeline_factory; rewrite H; reflexivity.
Qed.

Lemma unknown_task_is_fatal_at_setup_witness :
  (pipeline_factory transduction_config
     = Raise (NotImplementedError "Task 'transduction' not implemented") /\
   forall start_epoch optimizer val_evaluator train_part,
     main transduction_config start_epoch optimizer val_evaluator train_part
       = ([], Raise (NotImplementedError "Task 'transduction' not implemented")))
  /\
  pipeline_factory example_config
    = Ok (ClassiregressionDataset, collate_superv, SupervisedRunner_cls).
Proof.
  split.
  - apply (proj1 (unknown_task_is_fatal_at_setup transduction_config)).
    split; discriminate.
  - apply (proj2 (unknown_task_is_fatal_at_setup example_config)).
    left. reflexivity.
Defined.

(** ** [validate] on concrete evaluations *)

Lemma validate_best_selection_witness :
  exists trace,
    validate (fun e => UnsupervisedRunner.evaluate [] e one_batch)
             example_config [] (PyFloat 1e16) (Some 3%Z)
      = (trace, Ok ([("epoch", PyInt 3); ("loss", PyFloat 2)],
                    [("epoch", PyInt 3); ("loss", PyFloat 2)],
                    PyFloat 2, UnsupervisedRunner.collect one_batch)) /\
    files_written trace
      = ["out/checkpoints/model_best.pth"; "out/predictions/best_predictions"].
Proof.
  destruct (validate_best_selection
              (fun e => UnsupervisedRunner.evaluate [] e one_batch)
              example_config [] (PyFloat 1e16) (Some 3%Z)
              [("epoch", PyInt 3); ("loss", PyFloat 2)] (UnsupervisedRunner.collect one_batch)
              (PyFloat 2) eq_refl)
    as (trace & bm' & bv' & Hval & Himproved & _).
  - repeat constructor; discriminate.
  - reflexivity.
  - discriminate.
  - destruct Himproved as (Hfiles & -> & ->).
    + left. split; reflexivity.
    + exists trace. split; [exact Hval | exact Hfiles].
Defined.

(** An equal value and a larger value of [loss] leave the best state
    alone and write nothing. *)
Lemma validate_keeps_best_on_equal_or_worse :
  validate (fun e => UnsupervisedRunner.evaluate [] e one_batch)
           example_config [("loss", PyFloat 2)] (PyFloat 2) (Some 4%Z)
    = ([LogInfo [Lit "Evaluating on validation set ..."];
        AddScalar "epoch/val" (PyInt 4) (Some 4%Z);
        AddScalar "loss/val" (PyFloat 2) (Some 4%Z);
        LogInfo [Lit "Epoch "; Str (PyInt 4); Lit " Validation Summary: ";
                 Lit "epoch: "; F8 (PyInt 4); Lit " | ";
                 Lit "loss: "; F8 (PyFloat 2); Lit " | "]],
       Ok ([("epoch", PyInt 4); ("loss", PyFloat 2)], [("loss", PyFloat 2)],
           PyFloat 2, UnsupervisedRunner.collect one_batch)) /\
  outcome (validate (fun e => UnsupervisedRunner.evaluate [] e one_batch)
                    example_config [("loss", PyFloat 1)] (PyFloat 1) (Some 4%Z))
    = Ok ([("epoch", PyInt 4); ("loss", PyFloat 2)], [("loss", PyFloat 1)],
          PyFloat 1, UnsupervisedRunner.collect one_batch).
Proof. split; reflexivity. Qed.

(** C8 as claimed fails: the metrics of a pass without an epoch number
    hold [None] under [epoch]; [validate] on them does not complete: it
    raises at the first TensorBoard write, with nothing logged but its
    opening line, and never reaches the summary or the comparison. *)
Lemma validate_raises_on_None_metric :
  UnsupervisedRunner.evaluate [] None one_batch
    = Ok ([("epoch", PyNone); ("loss", PyFloat 2)], UnsupervisedRunner.collect one_batch) /\
  exists msg,
    validate (fun e => UnsupervisedRunner.evaluate [] e one_batch)
             example_config [] (PyFloat 1e16) None
    = ([LogInfo [Lit "Evaluating on validation set ..."]],
       Raise (NotImplementedError msg)).
Proof. split; [reflexivity | eexists; reflexivity]. Qed.

(** A [None] after the first metric: the scalars before it are written,
    and the metrics of a pass with an epoch number are numbers. *)
Lemma validate_does_not_tolerate_None_witness :
  (exists msg,
     validate (fun _ => Ok (metrics_with_None, mkPerBatch [] [])) example_config
              [] (PyFloat 1e16) (Some 1%Z)
     = ([LogInfo [Lit "Evaluating on validation set ..."];
         AddScalar "epoch/val" (PyInt 1) (Some 1%Z)],
        Raise (NotImplementedError msg))) /\
  numbers (two_class_row ++ [("AUROC", PyFloat 0.5); ("AUPRC", PyFloat 0.625)]).
Proof.
  destruct validate_does_not_tolerate_None as (Hraise & Hsup & _).
  split.
  - apply (Hraise (fun _ => Ok (metrics_with_None, mkPerBatch [] [])) example_config
             [] (PyFloat 1e16) (Some 1%Z) metrics_with_None (mkPerBatch [] [])).
    + reflexivity.
    + right. left. reflexivity.
  - apply (Hsup [] 1%Z one_batch two_class_metrics (Some two_class_areas)
             _ (SupervisedRunner.collect one_batch)).
    + constructor.
    + unfold analyzer_numbers. simpl.
      repeat split; repeat constructor; discriminate.
    + split; discriminate.
    + reflexivity.
Defined.

(** ** Mean activation vectors and the Weibull model *)

Module OpenSetFacts.

Import SupervisedRunner.

Lemma insert_unique_In (x y : nat) (l : list nat) :
  In x (insert_unique y l) <-> x = y \/ In x l.
Proof.
  induction l as [|h rest IH]; simpl.
  - intuition.
  - destruct (Nat.ltb_spec y h) as [Hlt | Hge]; simpl; [intuition |].
    destruct (Nat.eqb_spec y h) as [-> | Hne]; simpl; [intuition |].
    rewrite IH. intuition.
Qed.

Lemma insert_unique_sorted (y : nat) (l : list nat) :
  StronglySorted lt l -> StronglySorted lt (insert_unique y l).
Proof.
  induction 1 as [|h rest Hs IH Hall]; simpl.
  - repeat constructor.
  - destruct (Nat.ltb_spec y h) as [Hlt | Hge].
    + constructor; [now constructor |].
      constructor; [exact Hlt |].
      eapply Forall_impl; [| exact Hall]. intros z Hz. simpl in Hz. lia.
    + destruct (Nat.eqb_spec y h) as [-> | Hne]; [now constructor |].
      constructor; [exact IH |].
      apply Forall_forall. intros z Hz. apply (proj1 (insert_unique_In _ _ _)) in Hz.
      destruct Hz as [-> | Hz]; [lia |].
      rewrite Forall_forall in Hall. now apply Hall.
Qed.

Lemma torch_unique_sorted (l : list nat) : StronglySorted lt (torch_unique l).
Proof.
  induction l as [|x l IH]; simpl; [constructor |].
  now apply insert_unique_sorted.
Qed.

Lemma sorted_NoDup (l : list nat) : StronglySorted lt l -> NoDup l.
Proof.
  induction 1 as [|h rest Hs IH Hall]; constructor; [| exact IH].
  intros Hin. rewrite Forall_forall in Hall. specialize (Hall h Hin). lia.
Qed.

Lemma torch_unique_In (x : nat) (l : list nat) :
  In x (torch_unique l) <-> In x l.
Proof.
  induction l as [|y l IH]; simpl; [reflexivity |].
  rewrite insert_unique_In, IH. intuition.
Qed.

Section Classes.

Variable T : Type.
Variable S : Scalar T.
Variable channel_distance : T -> T -> T.
Variable leb : T -> T -> bool.
Variable mle_fit : list T -> openmax.WeibullParams T.
Variable tail_size : nat.

Lemma group_keys_NoDup (tagged : list (nat * list T)) :
  NoDup (map fst (group_by_category T tagged)).
Proof.
  unfold group_by_category. rewrite map_map. simpl. rewrite map_id.
  apply sorted_NoDup, torch_unique_sorted.
Qed.

Lemma group_rows (tagged : list (nat * list T)) (c : nat) (rows : list (list T)) :
  In (c, rows) (group_by_category T tagged) ->
  rows = rows_of T c tagged /\ rows <> [].
Proof.
  unfold group_by_category. intros H. apply in_map_iff in H.
  destruct H as (g & Heq & Hg). injection Heq as -> <-.
  split; [reflexivity |].
  apply (proj1 (torch_unique_In _ _)) in Hg. apply in_map_iff in Hg.
  destruct Hg as ([c' row] & Hc & Hin). simpl in Hc. subst c'.
  unfold rows_of. intros Hnil. apply map_eq_nil in Hnil.
  assert (Hf : In (c, row) (filter (fun p => Nat.eqb (fst p) c) tagged)).
  { apply filter_In. split; [exact Hin | simpl; apply Nat.eqb_refl]. }
  rewrite Hnil in Hf. contradiction.
Qed.

Lemma tailfitting_of_groups (grouped : list (nat * list (list T))) :
  openmax.weibull_tailfitting T leb mle_fit tail_size
    (map (fun kv => torch_mean0 T S (snd kv)) grouped)
    (map (fun kv => openmax.compute_channel_distances T channel_distance
                      (torch_mean0 T S (snd kv)) (snd kv)) grouped)
    (map fst grouped)
  = map (fun kv =>
           (fst kv,
            openmax.fit_class T leb mle_fit tail_size
              (torch_mean0 T S (snd kv))
              (openmax.compute_channel_distances T channel_distance
                 (torch_mean0 T S (snd kv)) (snd kv))
              (fst kv))) grouped.
Proof.
  unfold openmax.weibull_tailfitting.
  induction grouped as [|kv rest IH]; simpl; [reflexivity |].
  now rewrite IH.
Qed.

Lemma lookup_of_groups (F : nat * list (list T) -> openmax.ClassEntry T)
    (grouped : list (nat * list (list T))) (c : nat) (rows : list (list T)) :
  NoDup (map fst grouped) -> In (c, rows) grouped ->
  openmax.lookup (map (fun kv => (fst kv, F kv)) grouped) c = Some (F (c, rows)).
Proof.
  induction grouped as [|[k r] rest IH]; simpl; intros Hnd Hin; [contradiction |].
  inversion Hnd as [|? ? Hk Hrest]; subst.
  destruct Hin as [Heq | Hin].
  - injection Heq as -> ->. now rewrite Nat.eqb_refl.
  - destruct (Nat.eqb_spec k c) as [-> | Hne].
    + exfalso. apply Hk. apply in_map_iff. now exists (c, rows).
    + now apply IH.
Qed.

Lemma lookup_absent (F : nat * list (list T) -> openmax.ClassEntry T)
    (grouped : list (nat * list (list T))) (c : nat) :
  ~ In c (map fst grouped) ->
  openmax.lookup (map (fun kv => (fst kv, F kv)) grouped) c = None.
Proof.
  induction grouped as [|[k r] rest IH]; simpl; intros Hnot; [reflexivity |].
  destruct (Nat.eqb_spec k c) as [-> | Hne]; [exfalso; auto |].
  apply IH. auto.
Qed.

Lemma distances_length (mav : list T) (rows : list (list T)) :
  length (openmax.compute_channel_distances T channel_distance mav rows)
  = length rows.
Proof. unfold openmax.compute_channel_distances. apply length_map. Qed.

End Classes.

Lemma mapM_ext_in {A B : Type} (f g : A -> result B) (l : list A) :
  (forall a, In a l -> f a = g a) -> mapM f l = mapM g l.
Proof.
  induction l as [|a l IH]; intros H; simpl; [reflexivity |].
  rewrite (H a) by now left. rewrite IH; [reflexivity |].
  intros a' Ha'. apply H. now right.
Qed.

(** Where the selections agree, the rows the feature pass keeps are the
    features of the correctly classified samples. *)
Lemma kept_are_correctly_classified (T : Type) (S : Scalar T)
    (dataloader : list (list (Sample T))) (c : nat) :
  selection_agrees T S dataloader ->
  kept_features_of T S dataloader c
  = correctly_classified_features T S dataloader c.
Proof.
  intros Hsel. unfold kept_features_of, correctly_classified_features.
  rewrite (mapM_ext_in (correct_rows T S) (correctly_classified_rows T S));
    [reflexivity |].
  intros batch Hbatch. unfold correct_rows, correctly_classified_rows.
  rewrite (mapM_ext_in (tagged_row T S (length batch))
             (correctly_classified_row T S (length batch))); [reflexivity |].
  intros s Hs. unfold tagged_row, correctly_classified_row.
  destruct (activation_feature T S (length batch) s) as [feature | e] eqn:Ef;
    [| reflexivity].
  cbn [bind]. now rewrite (Hsel batch s feature Hbatch Hs Ef).
Qed.

(** What the fitting makes of the rows it is handed: a class with at
    least one and fewer than [tail_size] kept rows is flagged invalid, a
    class without a kept row has no entry. *)
Lemma kept_class_is_flagged (T : Type) (S : Scalar T)
    (channel_distance : T -> T -> T) (leb : T -> T -> bool)
    (mle_fit : list T -> openmax.WeibullParams T) (tail_size : nat)
    (dataloader : list (list (Sample T))) (c : nat) (rows : list (list T)) :
  kept_features_of T S dataloader c = Ok rows ->
  length rows < tail_size ->
  exists model,
    make_weibull_from_trainsets T S channel_distance leb mle_fit tail_size
                                dataloader = Ok model /\
    (rows <> [] ->
     openmax.lookup model c
       = Some (openmax.Invalid (torch_mean0 T S rows)
                 (openmax.TailTooShort c (length rows) tail_size))) /\
    (rows = [] -> openmax.lookup model c = None).
Proof.
  intros Hrows Hfew.
  unfold kept_features_of in Hrows.
  unfold make_weibull_from_trainsets, grouped_features.
  destruct (mapM (correct_rows T S) dataloader) as [per_batch | e];
    [| discriminate].
  cbn [bind] in Hrows |- *.
  destruct (cat_batches per_batch) as [tagged | e]; [| discriminate].
  cbn [bind] in Hrows |- *. injection Hrows as <-.
  eexists. split; [reflexivity |].
  rewrite (tailfitting_of_groups T S channel_distance leb mle_fit tail_size).
  split.
  - intros Hne.
    assert (Hin : In (c, rows_of T c tagged) (group_by_category T tagged)).
    { unfold group_by_category. apply in_map_iff. exists c.
      split; [reflexivity |]. apply torch_unique_In.
      unfold rows_of in Hne.
      destruct (filter (fun p => Nat.eqb (fst p) c) tagged) as [|p rest] eqn:Ef;
        [now elim Hne |].
      assert (Hp : In p (filter (fun p => Nat.eqb (fst p) c) tagged))
        by (rewrite Ef; now left).
      apply filter_In in Hp. destruct Hp as [Hp Hc].
      apply Nat.eqb_eq in Hc. apply in_map_iff. now exists p. }
    rewrite (lookup_of_groups T _ _ c (rows_of T c tagged)
               (group_keys_NoDup T tagged) Hin).
    cbn [fst snd]. unfold openmax.fit_class.
    rewrite distances_length.
    now replace (Nat.ltb (length (rows_of T c tagged)) tail_size) with true
      by (symmetry; apply Nat.ltb_lt; exact Hfew).
  - intros Hnil. apply lookup_absent.
    unfold group_by_category. rewrite map_map. simpl. rewrite map_id.
    intros Hin. apply (proj1 (torch_unique_In _ _)) in Hin.
    apply in_map_iff in Hin. destruct Hin as ([c' row] & Hc & Hin).
    simpl in Hc. subst c'.
    assert (Hf : In (c, row) (filter (fun p => Nat.eqb (fst p) c) tagged)).
    { apply filter_In. split; [exact Hin | simpl; apply Nat.eqb_refl]. }
    unfold rows_of in Hnil. apply map_eq_nil in Hnil. rewrite Hnil in Hf.
    contradiction.
Qed.

(** C6, amended.  On a training set for which the feature pass selects
    the correctly classified samples (the samples whose predicted class,
    the position of the largest class score, equals their label) and
    goes through, [make_weibull_from_trainsets] returns a model; a class
    with at least one and fewer than [tail_size] correctly classified
    samples has an entry flagged invalid that carries the fitting error
    and the class's mean activation vector, and no fitted distribution; a
    class without a correctly classified sample has no entry. *)
Theorem underpopulated_class_is_flagged (T : Type) (S : Scalar T)
    (channel_distance : T -> T -> T) (leb : T -> T -> bool)
    (mle_fit : list T -> openmax.WeibullParams T) (tail_size : nat)
    (dataloader : list (list (Sample T))) (c : nat) (rows : list (list T))
    (Hselection : selection_agrees T S dataloader)
    (Hrows : correctly_classified_features T S dataloader c = Ok rows)
    (Hfew : length rows < tail_size) :
  exists model,
    make_weibull_from_trainsets T S channel_distance leb mle_fit tail_size
                                dataloader = Ok model /\
    (rows <> [] ->
     openmax.lookup model c
       = Some (openmax.Invalid (torch_mean0 T S rows)
                 (openmax.TailTooShort c (length rows) tail_size))) /\
    (rows = [] -> openmax.lookup model c = None).
Proof.
  rewrite <- (kept_are_correctly_classified T S dataloader c Hselection) in Hrows.
  exact (kept_class_is_flagged T S channel_distance leb mle_fit tail_size
           dataloader c rows Hrows Hfew).
Qed.

Lemma small_trainset_selection_agrees :
  selection_agrees float float_scalar small_trainset.
Proof.
  intros batch s feature Hbatch Hs Hfeature.
  destruct Hbatch as [<- | []].
  destruct Hs as [<- | [<- | []]]; vm_compute in Hfeature;
    injection Hfeature as <-; reflexivity.
Qed.

Lemma underpopulated_class_is_flagged_witness :
  exists model,
    make_weibull_from_trainsets float float_scalar abs_difference PrimFloat.leb
                                unit_weibull 20 small_trainset = Ok model /\
    openmax.lookup model 1
      = Some (openmax.Invalid [0.25; 0.75; 0.125; 0.25]%float
                (openmax.TailTooShort 1 1 20)).
Proof.
  destruct (underpopulated_class_is_flagged float float_scalar abs_difference
              PrimFloat.leb unit_weibull 20 small_trainset 1
              [[0.25; 0.75; 0.125; 0.25]%float]
              small_trainset_selection_agrees eq_refl)
    as (model & Hmodel & Hflag & _).
  - simpl. lia.
  - exists model. split; [exact Hmodel |]. apply Hflag. discriminate.
Defined.

(** C6 as claimed fails: the one sample labelled 0 is taken for class 1
    by the classifier, so class 0 has no correctly classified sample,
    fewer than the tail size of 20, and the model has no entry for it,
    flagged or not. *)
Lemma class_without_correct_samples_has_no_entry :
  classifier_prediction misclassified_sample = Ok 1 /\
  target misclassified_sample = 0%Z /\
  target well_classified_sample = 1%Z /\
  correctly_classified_features float float_scalar small_trainset 0 = Ok [] /\
  make_weibull_from_trainsets float float_scalar abs_difference PrimFloat.leb
                              unit_weibull 20 small_trainset
    = Ok [(1, openmax.Invalid [0.25; 0.75; 0.125; 0.25]%float
                (openmax.TailTooShort 1 1 20))] /\
  openmax.lookup [(1, openmax.Invalid [0.25; 0.75; 0.125; 0.25]%float
                       (openmax.TailTooShort 1 1 20))] 0 = None.
Proof. repeat split; reflexivity. Qed.

(** Where the selections differ the fitting is not handed the correctly
    classified samples: class 0 below has one, and the feature pass
    keeps none for it (the slip of C4), so the model has no entry. *)
Lemma dropped_sample_leaves_class_without_entry :
  correctly_classified_features float float_scalar
    [[strong_latent_sample; well_classified_sample]] 0
    = Ok [[0.75; 0.25; 2; 1]%float] /\
  kept_features_of float float_scalar
    [[strong_latent_sample; well_classified_sample]] 0 = Ok [] /\
  (model <- make_weibull_from_trainsets float float_scalar abs_difference
              PrimFloat.leb unit_weibull 20
              [[strong_latent_sample; well_classified_sample]] ;;
   Ok (openmax.lookup model 0)) = Ok None.
Proof. repeat split; reflexivity. Qed.

(** C4 fails on the code: the sample is classified correctly, but the
    argmax of its whole feature row is the latent channel 2, so its row is
    dropped and class 0 gets no mean activation vector; by the claim the
    vector of class 0 is the sample's feature row. *)
Lemma mav_drops_correctly_classified_sample :
  classifier_prediction strong_latent_sample = Ok 0 /\
  target strong_latent_sample = 0%Z /\
  activation_feature float float_scalar 2 strong_latent_sample
    = Ok [0.75; 0.25; 2; 1]%float /\
  argmax float float_scalar [0.75; 0.25; 2; 1]%float = Ok 2 /\
  (grouped_dict <- grouped_features float float_scalar
                     [[strong_latent_sample; well_classified_sample]] ;;
   Ok (mean_activation_vectors float float_scalar grouped_dict))
    = Ok [(1, [0.25; 0.75; 0.125; 0.25]%float)].
Proof. repeat split; reflexivity. Qed.

End OpenSetFacts.

(** ** Softmax *)

Section Softmax.

Local Open Scope R_scope.

Lemma fold_Rplus_acc (l : list R) (a : R) :
  fold_left Rplus l a = a + fold_left Rplus l 0.
Proof.
  revert a. induction l as [|x l IH]; intros a; simpl.
  - lra.
  - rewrite (IH (a + x)), (IH (0 + x)). lra.
Qed.

Lemma real_sum_cons (x : R) (l : list R) : real_sum (x :: l) = x + real_sum l.
Proof. unfold real_sum. simpl. rewrite fold_Rplus_acc. lra. Qed.

Lemma real_sum_scaled (f : R -> R) (c : R) (l : list R) :
  real_sum (map (fun x => f x / c) l) = real_sum (map f l) / c.
Proof.
  induction l as [|x l IH]; simpl.
  - unfold real_sum. simpl. lra.
  - rewrite !real_sum_cons, IH. lra.
Qed.

Lemma exp_sum_pos (v : list R) : v <> [] -> 0 < real_sum (map exp v).
Proof.
  induction v as [|x v IH]; intros Hne; [congruence |].
  simpl. rewrite real_sum_cons. pose proof (exp_pos x) as Hx.
  destruct v as [|y v].
  - unfold real_sum. simpl. lra.
  - assert (0 < real_sum (map exp (y :: v))) by (apply IH; discriminate). lra.
Qed.

Lemma softmax_length (v : list R) : length (softmax v) = length v.
Proof. unfold softmax. apply length_map. Qed.

Lemma softmax_sum (v : list R) : v <> [] -> real_sum (softmax v) = 1.
Proof.
  intros Hne. unfold softmax. rewrite real_sum_scaled.
  pose proof (exp_sum_pos v Hne). field. lra.
Qed.

Lemma softmax_nonneg (v : list R) : Forall (fun p => 0 <= p) (softmax v).
Proof.
  unfold softmax. apply Forall_map, Forall_forall. intros x Hx.
  assert (Hne : v <> []) by (intros ->; contradiction).
  pose proof (exp_sum_pos v Hne). pose proof (exp_pos x).
  apply Rlt_le, Rdiv_lt_0_compat; assumption.
Qed.

Lemma softmax_distribution (v : list R) :
  v <> [] -> distribution (length v) (softmax v).
Proof.
  intros Hne. repeat split.
  - apply softmax_length.
  - now apply softmax_sum.
  - apply softmax_nonneg.
Qed.

End Softmax.

(** For one or more known classes and activation vectors that hold
    at least the class logits, [get_scores] returns, per activation
    vector, an OpenMax vector of [numClasses + 1] entries and a softmax
    vector of [numClasses] entries; each sums to 1 and has no negative
    entry. *)
Lemma get_scores_distributions (alpha : nat)
    (channel_distance : R -> R -> R) (weibullModel : openmax.WeibullModel R)
    (activationVectors : list (list R)) (numClasses : nat)
    (Hclasses : 0 < numClasses)
    (Hwidth : Forall (fun av => numClasses <= length av) activationVectors) :
  let scores := openmax.get_scores alpha channel_distance weibullModel
                  activationVectors numClasses in
  length (fst scores) = length activationVectors /\
  length (snd scores) = length activationVectors /\
  Forall (distribution (numClasses + 1)) (fst scores) /\
  Forall (distribution numClasses) (snd scores).
Proof.
  unfold openmax.get_scores. cbn [fst snd]. rewrite !length_map.
  repeat split.
  - rewrite map_map. apply Forall_map. eapply Forall_impl; [| exact Hwidth].
    intros av Hav. cbv beta in Hav. unfold openmax.score_one. cbn [fst].
    match goal with |- distribution _ (softmax ?v) =>
      replace (numClasses + 1) with (length v);
      [apply softmax_distribution; now destruct (map fst _) |] end.
    rewrite length_app, !length_map, length_seq, length_firstn. simpl. lia.
  - rewrite map_map. apply Forall_map. eapply Forall_impl; [| exact Hwidth].
    intros av Hav. cbv beta in Hav. unfold openmax.score_one. cbn [snd].
    replace numClasses with (length (firstn numClasses av)) at 1
      by (rewrite length_firstn; lia).
    apply softmax_distribution. intros Hnil.
    apply (f_equal (@length R)) in Hnil. rewrite length_firstn in Hnil.
    simpl in Hnil. lia.
Qed.

(** C5.  For one or more known classes and activation vectors that hold
    at least the class logits, both vectors [get_scores] returns per
    sample, the OpenMax vector of [numClasses + 1] entries and the softmax
    vector of [numClasses] entries, sum to 1 and have no negative entry. *)
Theorem openmax_scores_are_distributions (alpha : nat)
    (channel_distance : R -> R -> R) (weibullModel : openmax.WeibullModel R)
    (activationVectors : list (list R)) (numClasses : nat)
    (Hclasses : 0 < numClasses)
    (Hwidth : Forall (fun av => numClasses <= length av) activationVectors) :
  let scores := openmax.get_scores alpha channel_distance weibullModel
                  activationVectors numClasses in
  length (fst scores) = length activationVectors /\
  length (snd scores) = length activationVectors /\
  Forall (distribution (numClasses + 1)) (fst scores) /\
  Forall (distribution numClasses) (snd scores).
Proof.
  exact (get_scores_distributions alpha channel_distance weibullModel
           activationVectors numClasses Hclasses Hwidth).
Qed.

Lemma openmax_scores_are_distributions_witness :
  let scores := openmax.get_scores 1 (fun a b => Rabs (a - b)) []
                  example_activations 2 in
  length (fst scores) = 2 /\
  length (snd scores) = 2 /\
  Forall (distribution (2 + 1)) (fst scores) /\
  Forall (distribution 2) (snd scores).
Proof.
  apply (openmax_scores_are_distributions 1 (fun a b => Rabs (a - b)) []
           example_activations 2).
  - lia.
  - repeat constructor.
Defined.

(** ** The runner's OpenMax pass *)

Lemma mapM_Forall2 {A B : Type} (f : A -> result B) (l : list A) (bs : list B) :
  mapM f l = Ok bs -> Forall2 (fun a b => f a = Ok b) l bs.
Proof.
  revert bs. induction l as [|a l IH]; simpl; intros bs H.
  - injection H as <-. constructor.
  - destruct (f a) as [b | e] eqn:Ha; [| discriminate]. cbn [bind] in H.
    destruct (mapM f l) as [bs' | e]; [| discriminate]. cbn [bind] in H.
    injection H as <-. constructor; [exact Ha | now apply IH].
Qed.

Lemma activation_feature_width (B : nat) (s : Sample R) (feature : list R) :
  SupervisedRunner.activation_feature R real_scalar B s = Ok feature ->
  length (logits s) <= length feature.
Proof.
  unfold SupervisedRunner.activation_feature.
  destruct (mapM _ (latent s)) as [pooled | e]; [| discriminate].
  cbn [bind]. intros [= <-]. rewrite length_app. lia.
Qed.

Lemma features_width (n : nat) (dataloader : list (list (Sample R)))
    (per_batch : list (list (list R))) :
  mapM (fun batch =>
          mapM (SupervisedRunner.activation_feature R real_scalar (length batch))
               batch) dataloader = Ok per_batch ->
  Forall (Forall (fun s => n <= length (logits s))) dataloader ->
  Forall (fun av => n <= length av) (concat per_batch).
Proof.
  intros Hfeat Hwide. apply mapM_Forall2 in Hfeat.
  induction Hfeat as [|batch feats dl pb Hb _ IH]; [constructor |].
  simpl. apply Forall_app. inversion Hwide as [|? ? Hbatch Hrest]; subst.
  split; [| now apply IH].
  clear Hwide IH Hrest. apply mapM_Forall2 in Hb. revert Hb Hbatch.
  generalize (length batch). intros B Hb Hbatch.
  induction Hb as [|s f ss fs Hs _ IHb]; [constructor |].
  inversion Hbatch as [|? ? Hs' Hrest']; subst.
  constructor; [| now apply IHb].
  apply activation_feature_width in Hs. lia.
Qed.

(** The runner's [openmax] (lines 613-651) hands [get_scores] the number
    of distinct labels minus one as [num_classes]; with two or more
    distinct labels and logits rows at least that wide, what it returns
    are probability vectors. *)
Lemma runner_openmax_returns_distributions (alpha : nat)
    (channel_distance : R -> R -> R) (weibull_model : openmax.WeibullModel R)
    (dataloader : list (list (Sample R)))
    (openmax_probs softmax_probs : list (list R)) (labels : list Z) :
  SupervisedRunner.openmax alpha channel_distance weibull_model dataloader
    = Ok (openmax_probs, softmax_probs, labels) ->
  1 < length (nodup Z.eq_dec labels) ->
  Forall (Forall (fun s => length (nodup Z.eq_dec labels) - 1
                           <= length (logits s))) dataloader ->
  labels = concat (map (map target) dataloader) /\
  Forall (distribution (length (nodup Z.eq_dec labels) - 1 + 1)) openmax_probs /\
  Forall (distribution (length (nodup Z.eq_dec labels) - 1)) softmax_probs.
Proof.
  unfold SupervisedRunner.openmax. intros H Hlabels Hwide.
  destruct (mapM _ dataloader) as [per_batch | e] eqn:Hfeat; [| discriminate].
  cbn [bind] in H.
  destruct (SupervisedRunner.cat_batches per_batch) as [input_scores | e]
    eqn:Hcat; [| discriminate].
  cbn [bind] in H.
  destruct (existsb _ dataloader); [discriminate |]. cbn [bind] in H.
  injection H as <- <- <-. split; [reflexivity |].
  assert (Hin : input_scores = concat per_batch).
  { destruct per_batch; [discriminate | now injection Hcat as <-]. }
  set (n := length (nodup Z.eq_dec (concat (map (map target) dataloader))) - 1)
    in *.
  assert (Hn : 0 < n) by (unfold n; lia).
  pose proof (features_width n dataloader per_batch Hfeat Hwide) as Hwidth.
  rewrite <- Hin in Hwidth.
  pose proof (get_scores_distributions alpha channel_distance weibull_model
                input_scores n Hn Hwidth) as Hd.
  cbv zeta in Hd. destruct Hd as (_ & _ & Ho & Hs).
  split; assumption.
Qed.

(** ** The encoder's output *)

Lemma mapM_Forall {A B : Type} (f : A -> result B) (P : B -> Prop) (l : list A) :
  Forall (fun a => exists b, f a = Ok b /\ P b) l ->
  exists bs, mapM f l = Ok bs /\ length bs = length l /\ Forall P bs.
Proof.
  induction 1 as [|a l (b & Hb & HP) _ (bs & Hbs & Hlen & HPs)]; simpl.
  - exists []. repeat split. constructor.
  - exists (b :: bs). rewrite Hb, Hbs. simpl. repeat split.
    + now rewrite Hlen.
    + now constructor.
Qed.

Lemma mapM_total {X Y : Type} (f : X -> result Y) (g : X -> Y) (l : list X) :
  (forall a, In a l -> f a = Ok (g a)) -> mapM f l = Ok (map g l).
Proof.
  induction l as [|a l IH]; intros H; simpl; [reflexivity |].
  rewrite (H a) by now left. cbn [bind].
  rewrite IH; [reflexivity |]. intros a' Ha'. apply H. now right.
Qed.

Module PSEncoderFacts.

Import PSEncoder.

Section Shapes.

Variable T : Type.
Variable A : Arithmetic T.

Lemma pool_windows_length (x : list T) :
  length (pool_windows A x) = length x / 2.
Proof.
  assert (H : forall n (x : list T), length x <= n ->
                length (pool_windows A x) = length x / 2).
  { induction n as [|n IH]; intros [|a [|b rest]] Hlen;
      cbn [pool_windows length] in *; try reflexivity; try lia.
    rewrite IH by lia.
    replace (S (S (length rest))) with (length rest + 1 * 2) by lia.
    rewrite Nat.div_add by lia. lia. }
  now apply (H (length x)).
Qed.

Lemma conv1d_channels (c : Conv1d T) (x : list (list T)) :
  length (conv1d A c x) = Nat.min (length (conv_weight c)) (length (conv_bias c)).
Proof. unfold conv1d. now rewrite length_map, length_combine. Qed.

Lemma conv1d_lengths (c : Conv1d T) (x0 : list T) (x : list (list T)) :
  Forall (fun ch => length ch = length x0) (conv1d A c (x0 :: x)).
Proof.
  unfold conv1d. apply Forall_map, Forall_forall. intros p _.
  unfold conv_channel. now rewrite length_map, length_seq.
Qed.

Lemma pooled_lengths (n : nat) (x : list (list T)) :
  Forall (fun ch => length ch = n) x ->
  Forall (fun ch => length ch = n / 2)
         (map (pool_windows A) (map (map (relu A)) x)).
Proof.
  intros H. rewrite map_map. apply Forall_map.
  eapply Forall_impl; [| exact H]. intros ch Hch. cbv beta in Hch |- *.
  now rewrite pool_windows_length, length_map, Hch.
Qed.

(** Channels of two entries or more are pooled. *)
Lemma maxpool_channels (n : nat) (x : list (list T)) :
  Forall (fun ch => length ch = n) x -> 2 <= n ->
  mapM (maxpool1d A) (map (map (relu A)) x)
  = Ok (map (pool_windows A) (map (map (relu A)) x)).
Proof.
  intros Hx Hn. apply mapM_total. intros ch Hin.
  apply in_map_iff in Hin. destruct Hin as (ch0 & <- & Hin0).
  rewrite Forall_forall in Hx. specialize (Hx ch0 Hin0).
  unfold maxpool1d. rewrite length_map, Hx.
  now replace (Nat.ltb n 2) with false by (symmetry; apply Nat.ltb_ge; lia).
Qed.

Lemma concat_length (n : nat) (x : list (list T)) :
  Forall (fun ch => length ch = n) x -> length (concat x) = length x * n.
Proof.
  induction 1 as [|ch x Hch _ IH]; simpl; [reflexivity |].
  rewrite length_app, IH, Hch. lia.
Qed.

Lemma linear_ok (l : Linear T) (x : list T) (rows cols : nat) :
  has_shape2 rows cols (lin_weight l) = true ->
  length (lin_bias l) = rows -> length x = cols ->
  exists y, linear A l x = Ok y /\ length y = rows.
Proof.
  unfold has_shape2, linear. intros Hw Hb Hx.
  apply andb_prop in Hw. destruct Hw as [Hrows Hcols].
  apply Nat.eqb_eq in Hrows. rewrite Hx, Hcols.
  eexists. split; [reflexivity |].
  rewrite length_map, length_combine, Hrows, Hb. lia.
Qed.

Lemma linear_mismatch (l : Linear T) (x : list T) (rows cols : nat) :
  has_shape2 rows cols (lin_weight l) = true ->
  0 < rows -> length x <> cols ->
  linear A l x
  = Raise (RuntimeError "mat1 and mat2 shapes cannot be multiplied").
Proof.
  unfold has_shape2, linear. intros Hw Hrows Hx.
  apply andb_prop in Hw. destruct Hw as [Hlen Hcols].
  apply Nat.eqb_eq in Hlen.
  destruct (lin_weight l) as [|row w]; [simpl in Hlen; lia |].
  cbn [forallb] in Hcols |- *. apply andb_prop in Hcols.
  destruct Hcols as [Hrow _]. apply Nat.eqb_eq in Hrow. rewrite Hrow.
  replace (Nat.eqb cols (length x)) with false
    by (symmetry; apply Nat.eqb_neq; congruence).
  reflexivity.
Qed.

Lemma dropout_length (training : bool) (mask : nat -> bool) (x : list T) :
  length (dropout A training mask x) = length x.
Proof.
  unfold dropout. destruct training; [| reflexivity].
  rewrite length_map, length_combine, length_seq. lia.
Qed.

Lemma softmax_layer_length (v : list T) :
  length (softmax_layer A v) = length v.
Proof. unfold softmax_layer. apply length_map. Qed.

Lemma has_shape3_length (a b c : nat) (w : list (list (list T))) :
  has_shape3 a b c w = true -> length w = a.
Proof.
  unfold has_shape3. intros H. apply andb_prop in H. destruct H as [H _].
  now apply Nat.eqb_eq.
Qed.

Lemma constructed_shapes (net : PatternSeriesEncoder T)
    (input_size num_classes : nat) :
  constructed net input_size num_classes = true ->
  length (conv_weight (conv1 net)) = 64 /\
  length (conv_bias (conv1 net)) = 64 /\
  length (conv_weight (conv2 net)) = 128 /\
  length (conv_bias (conv2 net)) = 128 /\
  has_shape2 256 (128 * (input_size / 4)) (lin_weight (fc1 net)) = true /\
  length (lin_bias (fc1 net)) = 256 /\
  has_shape2 num_classes 256 (lin_weight (fc2 net)) = true /\
  length (lin_bias (fc2 net)) = num_classes.
Proof.
  unfold constructed. intros H.
  apply andb_prop in H. destruct H as [H Hb4]. apply Nat.eqb_eq in Hb4.
  apply andb_prop in H. destruct H as [H Hw4].
  apply andb_prop in H. destruct H as [H Hb3]. apply Nat.eqb_eq in Hb3.
  apply andb_prop in H. destruct H as [H Hw3].
  apply andb_prop in H. destruct H as [H Hb2]. apply Nat.eqb_eq in Hb2.
  apply andb_prop in H. destruct H as [H Hw2].
  apply andb_prop in H. destruct H as [Hw1 Hb1]. apply Nat.eqb_eq in Hb1.
  apply has_shape3_length in Hw1. apply has_shape3_length in Hw2.
  repeat split; assumption.
Qed.

(** Rows of four entries or more get through both poolings. *)
Lemma cnn_output (net : PatternSeriesEncoder T) (input_size num_classes : nat)
    (x : list T) :
  constructed net input_size num_classes = true ->
  4 <= length x ->
  exists features,
    cnn A net [x] = Ok features /\
    length (concat features) = 128 * (length x / 2 / 2).
Proof.
  intros Hnet Hlong.
  destruct (constructed_shapes net input_size num_classes Hnet)
    as (Hw1 & Hb1 & Hw2 & Hb2 & _).
  unfold cnn.
  rewrite (maxpool_channels (length x) _ (conv1d_lengths (conv1 net) x []))
    by lia.
  cbn [bind].
  pose proof (pooled_lengths _ _ (conv1d_lengths (conv1 net) x [])) as Hp1.
  assert (Hc1 : length (map (pool_windows A)
                          (map (map (relu A)) (conv1d A (conv1 net) [x])))
                = 64).
  { rewrite !length_map, conv1d_channels. lia. }
  destruct (map (pool_windows A) (map (map (relu A)) (conv1d A (conv1 net) [x])))
    as [|ch rest] eqn:E1; [discriminate |].
  inversion Hp1 as [|? ? Hch _]; subst.
  assert (Hhalf : 2 <= length x / 2).
  { apply Nat.div_le_lower_bound; lia. }
  rewrite (maxpool_channels (length ch) _ (conv1d_lengths (conv2 net) ch rest))
    by lia.
  eexists. split; [reflexivity |].
  pose proof (pooled_lengths _ _ (conv1d_lengths (conv2 net) ch rest)) as Hp2.
  rewrite (concat_length _ _ Hp2), !length_map, conv1d_channels, Hch. lia.
Qed.

(** A row the first linear layer takes ends in the softmax of
    [num_classes] scores. *)
Lemma forward_sample_shape (net : PatternSeriesEncoder T)
    (input_size num_classes : nat) (mask : nat -> bool) (x : list T) :
  constructed net input_size num_classes = true ->
  4 <= length x ->
  length x / 4 = input_size / 4 ->
  exists o,
    forward_sample A net mask x = Ok (softmax_layer A o) /\
    length o = num_classes.
Proof.
  intros Hnet Hlong Hx. unfold forward_sample.
  destruct (cnn_output net input_size num_classes x Hnet Hlong)
    as (features & -> & Hflat).
  cbn [bind]. unfold fcn.
  rewrite Nat.Div0.div_div in Hflat. change (2 * 2) with 4 in Hflat.
  rewrite Hx in Hflat.
  destruct (constructed_shapes net input_size num_classes Hnet)
    as (_ & _ & _ & _ & Hfw1 & Hfb1 & Hfw2 & Hfb2).
  destruct (linear_ok (fc1 net) (concat features) 256
              (128 * (input_size / 4)) Hfw1 Hfb1 Hflat) as (h & -> & Hh).
  cbn [bind].
  destruct (linear_ok (fc2 net)
              (dropout A (training net) mask (map (relu A) h)) num_classes 256
              Hfw2 Hfb2)
    as (o & -> & Ho).
  { now rewrite dropout_length, length_map. }
  cbn [bind]. now exists o.
Qed.

(** Any other row is refused by the first linear layer. *)
Lemma forward_sample_mismatch (net : PatternSeriesEncoder T)
    (input_size num_classes : nat) (mask : nat -> bool) (x : list T) :
  constructed net input_size num_classes = true ->
  4 <= length x ->
  length x / 4 <> input_size / 4 ->
  forward_sample A net mask x
  = Raise (RuntimeError "mat1 and mat2 shapes cannot be multiplied").
Proof.
  intros Hnet Hlong Hx. unfold forward_sample.
  destruct (cnn_output net input_size num_classes x Hnet Hlong)
    as (features & -> & Hflat).
  cbn [bind]. unfold fcn.
  rewrite Nat.Div0.div_div in Hflat. change (2 * 2) with 4 in Hflat.
  destruct (constructed_shapes net input_size num_classes Hnet)
    as (_ & _ & _ & _ & Hfw1 & _).
  rewrite (linear_mismatch (fc1 net) _ 256 (128 * (input_size / 4)) Hfw1);
    [reflexivity | lia | lia].
Qed.

(** A batch with an entry gets past [view]. *)
Lemma forward_rows (net : PatternSeriesEncoder T) (masks : nat -> nat -> bool)
    (x : list (list T)) (n : nat) :
  x <> [] -> Forall (fun row => length row = n) x -> 0 < n ->
  forward A net masks x
  = mapM (fun p => forward_sample A net (masks (fst p)) (snd p))
         (combine (seq 0 (length x)) x).
Proof.
  intros Hbatch Hrows Hn. unfold forward.
  destruct x as [|row rest]; [congruence |].
  inversion Hrows as [|? ? Hrow _]; subst.
  cbn [concat]. rewrite length_app.
  now replace (Nat.eqb (length row + length (concat rest)) 0) with false
    by (symmetry; apply Nat.eqb_neq; lia).
Qed.

End Shapes.

Lemma softmax_layer_real (v : list R) :
  softmax_layer real_arithmetic v = softmax v.
Proof. reflexivity. Qed.

End PSEncoderFacts.

(** ** The softmax the runner applies to the model's output *)

Section Downstream.

Local Open Scope R_scope.

Lemma exp_between (x : R) : 0 <= x <= 1 -> 1 <= exp x <= exp 1.
Proof.
  intros [H0 H1]. split.
  - rewrite <- exp_0. destruct H0 as [H0 | <-]; [| lra].
    left. now apply exp_increasing.
  - destruct H1 as [H1 | ->]; [| lra]. left. now apply exp_increasing.
Qed.

Lemma entry_le_sum (x : R) (l : list R) :
  Forall (fun y => 0 <= y) l -> In x l -> x <= real_sum l /\ 0 <= real_sum l.
Proof.
  induction 1 as [|y l Hy Hl IH]; intros Hin; [contradiction |].
  rewrite real_sum_cons. destruct Hin as [-> | Hin].
  - assert (0 <= real_sum l).
    { clear IH. induction Hl as [|z l Hz _ IHl];
        [unfold real_sum; simpl; lra | rewrite real_sum_cons; lra]. }
    lra.
  - destruct (IH Hin). lra.
Qed.

(** The sum around one of its terms, for terms between 1 and e. *)
Lemma sum_around (y : R) (l : list R) :
  In y l -> Forall (fun z => 1 <= z <= exp 1) l ->
  exists rest,
    real_sum l = y + rest /\
    INR (length l) - 1 <= rest <= (INR (length l) - 1) * exp 1.
Proof.
  assert (Hall : forall l, Forall (fun z => 1 <= z <= exp 1) l ->
                   INR (length l) <= real_sum l <= INR (length l) * exp 1).
  { induction 1 as [|z l0 Hz _ IH0].
    - unfold real_sum. simpl. lra.
    - rewrite real_sum_cons. cbn [length]. rewrite S_INR. lra. }
  intros Hin Hl. induction Hl as [|z l Hz Hl IH]; [contradiction |].
  rewrite real_sum_cons. cbn [length]. rewrite S_INR.
  destruct Hin as [-> | Hin].
  - exists (real_sum l). split; [reflexivity |]. specialize (Hall l Hl). lra.
  - destruct (IH Hin) as (rest & Hsum & Hrest).
    exists (z + rest). split; [lra |].
    pose proof (exp_pos 1). nra.
Qed.

Lemma Rdiv_le_cross (a b c d : R) :
  0 < b -> 0 < d -> a * d <= c * b -> a / b <= c / d.
Proof.
  intros Hb Hd H. unfold Rdiv.
  apply (Rmult_le_reg_r (b * d)); [nra |].
  replace (a * / b * (b * d)) with (a * d) by (field; lra).
  replace (c * / d * (b * d)) with (c * b) by (field; lra).
  exact H.
Qed.

(** Softmax of a probability vector: a probability vector again, in the
    same order, with every entry between 1/(1+(K-1)e) and e/(e+K-1). *)
Lemma softmax_of_distribution (K : nat) (p : list R) :
  distribution K p -> (0 < K)%nat ->
  distribution K (softmax p) /\
  same_order p (softmax p) /\
  Forall (squeezed K) (softmax p).
Proof.
  intros (Hlen & Hsum & Hpos) HK.
  assert (Hne : p <> []) by (intros ->; simpl in Hlen; lia).
  split; [rewrite <- Hlen; now apply softmax_distribution |].
  pose proof (exp_sum_pos p Hne) as Hs.
  split.
  - assert (Hnth : forall k, (k < length p)%nat ->
                     nth k (softmax p) 0
                     = exp (nth k p 0) / real_sum (map exp p)).
    { intros k Hk. unfold softmax.
      rewrite (nth_indep (map _ p) 0
                 ((fun x => exp x / real_sum (map exp p)) 0))
        by (rewrite length_map; exact Hk).
      now rewrite (map_nth (fun x => exp x / real_sum (map exp p))). }
    intros i j Hi Hj. rewrite (Hnth i Hi), (Hnth j Hj).
    split; intros H.
    + apply Rdiv_le_cross; try assumption.
      apply Rmult_le_compat_r; [lra |].
      destruct H as [H | ->]; [left; now apply exp_increasing | lra].
    + destruct (Rle_or_lt (nth i p 0) (nth j p 0)) as [Hle | Hlt]; [exact Hle |].
      apply exp_increasing in Hlt.
      assert (exp (nth j p 0) / real_sum (map exp p)
              < exp (nth i p 0) / real_sum (map exp p)).
      { unfold Rdiv. apply Rmult_lt_compat_r; [now apply Rinv_0_lt_compat |].
        exact Hlt. }
      lra.
  - unfold softmax. apply Forall_map, Forall_forall. intros x Hx.
    assert (Hx01 : 0 <= x <= 1).
    { rewrite Forall_forall in Hpos. split; [now apply Hpos |].
      destruct (entry_le_sum x p) as [Hle _];
        [now apply Forall_forall | exact Hx | lra]. }
    assert (Hexps : Forall (fun z => 1 <= z <= exp 1) (map exp p)).
    { apply Forall_map, Forall_forall. intros z Hz. apply exp_between.
      rewrite Forall_forall in Hpos. split; [now apply Hpos |].
      destruct (entry_le_sum z p) as [Hle _];
        [now apply Forall_forall | exact Hz | lra]. }
    destruct (sum_around (exp x) (map exp p)) as (rest & Hsplit & Hrest);
      [now apply in_map | exact Hexps |].
    rewrite length_map, Hlen in Hrest. rewrite Hsplit.
    pose proof (exp_between x Hx01) as Hex. pose proof (exp_pos 1) as He.
    assert (HK1 : 0 <= INR K - 1).
    { apply le_INR in HK. simpl in HK. lra. }
    unfold squeezed. split.
    + apply Rdiv_le_cross; nra.
    + apply Rdiv_le_cross; nra.
Qed.

End Downstream.

(** C10, amended.  For an encoder with the shapes its constructor
    allocates, at least one class, and a non-empty batch of rows of one
    length [n >= 4] with [n // 4 = input_size // 4], [forward] returns
    one row per input row, in training mode (whatever the dropout draws)
    and in evaluation mode alike.  In exact arithmetic every returned
    row has [num_classes] entries, none negative, and sums to 1: the
    last layer is a softmax.  The softmax the runner applies downstream
    is therefore applied to rows that are normalized already: it returns
    probability vectors again, in the same order, with every entry
    squeezed between 1/(1+(K-1)e) and e/(e+K-1), [K] the number of
    classes. *)
Theorem forward_rows_are_distributions
    (net : PSEncoder.PatternSeriesEncoder R) (masks : nat -> nat -> bool)
    (x : list (list R)) (n input_size num_classes : nat)
    (Hnet : PSEncoder.constructed net input_size num_classes = true)
    (Hclasses : 0 < num_classes)
    (Hbatch : x <> [])
    (Hrows : Forall (fun row => length row = n) x)
    (Hn : 4 <= n)
    (Hlen : n / 4 = input_size / 4) :
  exists y,
    PSEncoder.forward real_arithmetic net masks x = Ok y /\
    length y = length x /\
    Forall (distribution num_classes) y /\
    Forall (distribution num_classes) (downstream_probs y) /\
    Forall2 same_order y (downstream_probs y) /\
    Forall (Forall (squeezed num_classes)) (downstream_probs y).
Proof.
  rewrite (PSEncoderFacts.forward_rows R real_arithmetic net masks x n
             Hbatch Hrows) by lia.
  destruct (mapM_Forall
              (fun p => PSEncoder.forward_sample real_arithmetic net
                          (masks (fst p)) (snd p))
              (distribution num_classes) (combine (seq 0 (length x)) x))
    as (y & Hy & Hly & Hdist).
  - apply Forall_forall. intros [i row] Hin. apply in_combine_r in Hin.
    rewrite Forall_forall in Hrows. cbn [fst snd].
    destruct (PSEncoderFacts.forward_sample_shape R real_arithmetic net
                input_size num_classes (masks i) row Hnet)
      as (o & Ho & Hwidth).
    + rewrite (Hrows row Hin). exact Hn.
    + rewrite (Hrows row Hin). exact Hlen.
    + exists (softmax o). split; [exact Ho |].
      rewrite <- Hwidth. apply softmax_distribution.
      intros ->. simpl in Hwidth. lia.
  - exists y. split; [exact Hy |].
    split; [rewrite Hly, length_combine, length_seq; lia |].
    split; [exact Hdist |].
    unfold downstream_probs.
    assert (Hdown : Forall (fun p => distribution num_classes (softmax p) /\
                                     same_order p (softmax p) /\
                                     Forall (squeezed num_classes) (softmax p)) y).
    { eapply Forall_impl; [| exact Hdist]. intros p Hp.
      now apply softmax_of_distribution. }
    clear Hy Hly Hdist.
    induction Hdown as [|p y (H1 & H2 & H3) _ (IH1 & IH2 & IH3)]; cbn [map].
    + repeat split; constructor.
    + repeat split; constructor; assumption.
Qed.

Lemma forward_rows_are_distributions_witness :
  exists y,
    PSEncoder.forward real_arithmetic zero_encoder (fun _ _ => true)
                      [[0; 0; 0; 0]%R; [1; 2; 3; 4]%R] = Ok y /\
    length y = 2 /\
    Forall (distribution 2) y /\
    Forall (distribution 2) (downstream_probs y) /\
    Forall2 same_order y (downstream_probs y) /\
    Forall (Forall (squeezed 2)) (downstream_probs y).
Proof.
  apply (forward_rows_are_distributions zero_encoder (fun _ _ => true)
           [[0; 0; 0; 0]%R; [1; 2; 3; 4]%R] 4 4 2).
  - vm_compute. reflexivity.
  - lia.
  - discriminate.
  - repeat constructor.
  - lia.
  - reflexivity.
Defined.

(** C10 as claimed fails on the program's numbers.  The input is
    finite, four entries of 2^127, and the first convolution, all its
    weights 1, adds two or three of them: an infinity in binary32.  The
    second convolution, all its weights 0, multiplies it by 0: NaN, which
    every later layer hands on.  The one row [forward] returns holds NaN
    twice, whatever the library's exponential makes of other numbers:
    its entries are not non-negative and do not sum to 1. *)
Lemma forward_overflows_to_nan :
  forallb finite32 huge_row = true /\
  PSEncoder.constructed summing_encoder32 4 2 = true /\
  (forall exp32 : binary32 -> binary32,
     exp32 S754_nan = S754_nan ->
     PSEncoder.forward (binary32_arithmetic exp32) summing_encoder32
                       (fun _ _ => true) [huge_row]
     = Ok [[S754_nan; S754_nan]]) /\
  forallb nonneg32 [S754_nan; S754_nan] = false /\
  sums_to_one32 [S754_nan; S754_nan] = false.
Proof.
  split; [reflexivity |]. split; [vm_compute; reflexivity |].
  split; [| split; reflexivity].
  intros exp32 Hexp.
  unfold PSEncoder.forward, PSEncoder.forward_sample, PSEncoder.fcn,
    PSEncoder.softmax_layer.
  vm_compute. rewrite !Hexp. reflexivity.
Qed.

(** * Further properties of the code *)

(** ** [evaluate]: the one-off evaluation *)

Lemma evaluation_summary_fields (items : OrderedDict) (print_str : message) :
  evaluation_summary items print_str
  = Ok (print_str
          ++ summary_fields (filter (fun kv => negb (is_None (snd kv))) items)).
Proof.
  revert print_str. induction items as [|[k v] rest IH]; intros print_str.
  - simpl. now rewrite app_nil_r.
  - destruct v as [| z | f]; simpl; rewrite IH; try reflexivity;
      now rewrite <- app_assoc.
Qed.

(** X1.  [evaluate] returns what the evaluator returned whenever the
    evaluator returns, whatever the metric values are: a [None] (the
    [epoch] of a pass run without an epoch number is one) is left out of
    the summary line, which lists the other metrics in dictionary order. *)
Theorem evaluate_tolerates_None
    (evaluator : option Z -> result (OrderedDict * PerBatch))
    (aggr_metrics : OrderedDict) (per_batch : PerBatch)
    (Heval : evaluator None = Ok (aggr_metrics, per_batch)) :
  evaluate evaluator
  = ([LogInfo (Lit "Evaluation Summary: "
               :: summary_fields
                    (filter (fun kv => negb (is_None (snd kv))) aggr_metrics))],
     Ok (aggr_metrics, per_batch)).
Proof.
  unfold evaluate. rewrite Heval. cbn [tbind lift fst snd app].
  rewrite evaluation_summary_fields. reflexivity.
Qed.

Lemma evaluate_tolerates_None_witness :
  evaluate (fun e => UnsupervisedRunner.evaluate [] e one_batch)
  = ([LogInfo [Lit "Evaluation Summary: "; Lit "loss: "; F8 (PyFloat 2);
               Lit " | "]],
     Ok ([("epoch", PyNone); ("loss", PyFloat 2)],
         UnsupervisedRunner.collect one_batch)).
Proof.
  exact (evaluate_tolerates_None
           (fun e => UnsupervisedRunner.evaluate [] e one_batch)
           [("epoch", PyNone); ("loss", PyFloat 2)]
           (UnsupervisedRunner.collect one_batch) eq_refl).
Defined.

(** ** [convert_metrics_per_batch_to_per_sample] *)

Lemma per_sample_sums_length (columns : list (list float)) (ind : nat)
    (counts : list nat) :
  length (per_sample_sums columns ind counts) = length counts.
Proof.
  revert ind. induction counts as [|c rest IH]; intros ind; simpl;
    [reflexivity | now rewrite IH].
Qed.

Lemma per_sample_sums_rows (columns : list (list float)) (ind : nat)
    (counts : list nat) (n : nat) :
  nth_error (per_sample_sums columns ind counts) n
  = match nth_error (sample_slices [] ind counts) n with
    | Some _ =>
        Some (map (fun column =>
                     np_sum (nth n (sample_slices column ind counts) []))
                  columns)
    | None => None
    end.
Proof.
  revert ind n. induction counts as [|c rest IH]; intros ind [|n]; simpl;
    try reflexivity.
  apply IH.
Qed.

Lemma sample_slices_length (column : list float) (ind : nat) (counts : list nat) :
  length (sample_slices column ind counts) = length counts.
Proof.
  revert ind. induction counts as [|c rest IH]; intros ind; simpl;
    [reflexivity | now rewrite IH].
Qed.

Lemma firstn_add {A : Type} (a b : nat) (l : list A) :
  firstn (a + b) l = firstn a l ++ firstn b (skipn a l).
Proof.
  revert l. induction a as [|a IH]; intros [|x l]; simpl;
    try reflexivity.
  - now rewrite firstn_nil.
  - now rewrite IH.
Qed.

Lemma sample_slices_concat (column : list float) (ind : nat) (counts : list nat) :
  concat (sample_slices column ind counts)
  = firstn (list_sum counts) (skipn ind column).
Proof.
  revert ind. induction counts as [|c rest IH]; intros ind; simpl.
  - reflexivity.
  - rewrite IH, firstn_add. unfold slice.
    replace (ind + c - ind) with c by lia.
    now rewrite skipn_skipn, (Nat.add_comm c ind).
Qed.

Lemma convert_batch_rows (batch_metrics : list (list float))
    (batch_target_masks : list (list (list bool))) (rows : list (list float)) :
  convert_batch batch_metrics batch_target_masks = inr rows ->
  rows = per_sample_sums batch_metrics 0 (map count_active batch_target_masks).
Proof.
  unfold convert_batch. destruct batch_metrics as [|first others];
    [discriminate |].
  destruct (forallb _ others); [| discriminate]. now intros [= <-].
Qed.

Lemma convert_from_nth (b0 : nat) (metrics : list (list (list float)))
    (target_masks : list (list (list (list bool))))
    (out : list (list (list float))) :
  convert_from b0 metrics target_masks = inr out ->
  length out = length target_masks /\
  forall b masks,
    nth_error target_masks b = Some masks ->
    exists batch_metrics,
      nth_error metrics (b0 + b) = Some batch_metrics /\
      nth_error out b
      = Some (per_sample_sums batch_metrics 0 (map count_active masks)).
Proof.
  revert b0 out. induction target_masks as [|m rest IH]; intros b0 out; simpl.
  - intros [= <-]. split; [reflexivity |]. intros [|b] masks; discriminate.
  - destruct (nth_error metrics b0) as [bm |] eqn:Hbm; [| discriminate].
    destruct (convert_batch bm m) as [e | rows] eqn:Hrows; [discriminate |].
    destruct (convert_from (S b0) metrics rest) as [e | tail] eqn:Htail;
      [discriminate |].
    intros [= <-]. destruct (IH (S b0) tail Htail) as [Hlen Hnth].
    split; [simpl; now rewrite Hlen |].
    intros [|b] masks Hmask; simpl in Hmask.
    + injection Hmask as <-. exists bm. rewrite Nat.add_0_r.
      split; [exact Hbm |]. simpl. f_equal. now apply convert_batch_rows.
    + destruct (Hnth b masks Hmask) as (bm' & Hbm' & Hout).
      exists bm'. split; [| exact Hout].
      now replace (b0 + S b) with (S b0 + b) by lia.
Qed.

(** X2.  When the conversion returns, it returns one array per batch of
    masks, with one row per sample and one column per metric; entry
    (n, m) is the sum of the n-th slice of metric m, the slices follow
    each other in the column from its start, each as long as the sample's
    number of active positions: together they are the first (total
    active) entries of the column, so every element is counted for one
    sample. *)
Theorem convert_counts_each_element_once
    (metrics : list (list (list float)))
    (target_masks : list (list (list (list bool))))
    (out : list (list (list float)))
    (Hout : convert_metrics_per_batch_to_per_sample metrics target_masks
            = inr out) :
  length out = length target_masks /\
  forall b masks,
    nth_error target_masks b = Some masks ->
    exists batch_metrics rows,
      nth_error metrics b = Some batch_metrics /\
      nth_error out b = Some rows /\
      length rows = length masks /\
      (forall n row,
         nth_error rows n = Some row ->
         row = map (fun column =>
                      np_sum (nth n (sample_slices column 0
                                       (map count_active masks)) []))
                   batch_metrics) /\
      (forall column,
         In column batch_metrics ->
         concat (sample_slices column 0 (map count_active masks))
         = firstn (list_sum (map count_active masks)) column).
Proof.
  destruct (convert_from_nth 0 metrics target_masks out Hout) as [Hlen Hnth].
  split; [exact Hlen |]. intros b masks Hmask.
  destruct (Hnth b masks Hmask) as (bm & Hbm & Hrows).
  exists bm, (per_sample_sums bm 0 (map count_active masks)).
  split; [exact Hbm |]. split; [exact Hrows |].
  split; [now rewrite per_sample_sums_length, length_map |].
  split.
  - intros n row Hrow. rewrite per_sample_sums_rows in Hrow.
    destruct (nth_error (sample_slices [] 0 (map count_active masks)) n);
      [now injection Hrow as <- | discriminate].
  - intros column _. now rewrite sample_slices_concat.
Qed.

Lemma convert_counts_each_element_once_witness :
  convert_metrics_per_batch_to_per_sample two_metric_batches two_sample_masks
    = inr [[[3; 30]; [3; 30]]]%float /\
  length [[[3; 30]; [3; 30]]]%float = length two_sample_masks.
Proof.
  split; [reflexivity |].
  exact (proj1 (convert_counts_each_element_once two_metric_batches
                  two_sample_masks [[[3; 30]; [3; 30]]]%float eq_refl)).
Defined.

Lemma convert_from_surplus (b0 : nat) (metrics extra : list (list (list float)))
    (target_masks : list (list (list (list bool)))) :
  b0 + length target_masks <= length metrics ->
  convert_from b0 (metrics ++ extra) target_masks
  = convert_from b0 metrics target_masks.
Proof.
  revert b0. induction target_masks as [|m rest IH]; intros b0 Hlen; simpl.
  - reflexivity.
  - simpl in Hlen. rewrite nth_error_app1 by lia.
    destruct (nth_error metrics b0); [| reflexivity].
    destruct (convert_batch l m); [reflexivity |].
    rewrite IH by lia. reflexivity.
Qed.

(** X3.  The conversion reads [metrics[b]] for every batch [b] of masks:
    with fewer metric batches than mask batches it raises and returns
    nothing, and metric batches beyond the last mask batch are never
    read. *)
Theorem convert_reads_one_metrics_batch_per_mask_batch
    (metrics : list (list (list float)))
    (target_masks : list (list (list (list bool)))) :
  (length metrics < length target_masks ->
   exists e,
     convert_metrics_per_batch_to_per_sample metrics target_masks = inl e) /\
  (length target_masks <= length metrics ->
   forall extra,
     convert_metrics_per_batch_to_per_sample (metrics ++ extra) target_masks
     = convert_metrics_per_batch_to_per_sample metrics target_masks).
Proof.
  split.
  - intros Hshort.
    destruct (convert_metrics_per_batch_to_per_sample metrics target_masks)
      as [e | out] eqn:Hout; [now exists e |].
    destruct (convert_from_nth 0 metrics target_masks out Hout) as [_ Hnth].
    destruct (nth_error target_masks (length metrics)) as [masks |] eqn:Hm.
    + destruct (Hnth _ masks Hm) as (bm & Hbm & _). simpl in Hbm.
      assert (Hnone : nth_error metrics (length metrics) = None)
        by (apply nth_error_None; lia).
      congruence.
    + apply nth_error_None in Hm. lia.
  - intros Hlen extra. apply convert_from_surplus. simpl. exact Hlen.
Qed.

Lemma convert_reads_one_metrics_batch_per_mask_batch_witness :
  (exists e,
     convert_metrics_per_batch_to_per_sample [] two_sample_masks = inl e) /\
  convert_metrics_per_batch_to_per_sample
    (two_metric_batches ++ [[[7]%float]]) two_sample_masks
  = convert_metrics_per_batch_to_per_sample two_metric_batches two_sample_masks.
Proof.
  split.
  - apply (proj1 (convert_reads_one_metrics_batch_per_mask_batch
                    [] two_sample_masks)). simpl. lia.
  - apply (proj2 (convert_reads_one_metrics_batch_per_mask_batch
                    two_metric_batches two_sample_masks)). simpl. lia.
Defined.

(** ** The columns of the supervised runner's metrics *)

Lemma set_per_class_set_all (d : OrderedDict) (m : string) (i : nat)
    (mval : list pyval) :
  set_per_class d m i mval
  = set_all d (combine (per_class_keys m i (length mval)) mval).
Proof.
  revert d i. induction mval as [|v rest IH]; intros d i; simpl.
  - reflexivity.
  - rewrite IH. reflexivity.
Qed.

Lemma set_all_app (d : OrderedDict) (a b : list (string * pyval)) :
  set_all d (a ++ b) = set_all (set_all d a) b.
Proof. unfold set_all. apply fold_left_app. Qed.

Lemma set_classification_metrics_set_all (d : OrderedDict) (md : MetricsDict) :
  set_classification_metrics d md = set_all d (classification_items md).
Proof.
  unfold set_classification_metrics, classification_items.
  rewrite !set_per_class_set_all, !set_all_app. reflexivity.
Qed.

Lemma keys_dict_set_old (d : OrderedDict) (k : string) (v : pyval) :
  In k (keys d) -> keys (dict_set d k v) = keys d.
Proof.
  unfold keys. induction d as [|[k' v'] d IH]; simpl; intros Hin.
  - contradiction.
  - destruct (String.eqb_spec k' k) as [-> | Hne]; simpl; [reflexivity |].
    destruct Hin as [Heq | Hin]; [congruence |]. now rewrite IH.
Qed.

Lemma keys_dict_set_new (d : OrderedDict) (k : string) (v : pyval) :
  ~ In k (keys d) -> keys (dict_set d k v) = keys d ++ [k].
Proof.
  unfold keys. induction d as [|[k' v'] d IH]; simpl; intros Hnot.
  - reflexivity.
  - destruct (String.eqb_spec k' k) as [-> | Hne]; simpl.
    + exfalso. apply Hnot. now left.
    + rewrite IH; [reflexivity |]. intros Hin. apply Hnot. now right.
Qed.

Lemma keys_set_all_new (items : list (string * pyval)) (d : OrderedDict) :
  NoDup (map fst items) ->
  (forall k, In k (map fst items) -> ~ In k (keys d)) ->
  keys (set_all d items) = keys d ++ map fst items.
Proof.
  revert d. induction items as [|[k v] rest IH]; intros d Hnd Hfresh; simpl.
  - now rewrite app_nil_r.
  - inversion Hnd as [|? ? Hk Hrest]; subst.
    unfold set_all in *. simpl. rewrite IH; trivial.
    + rewrite keys_dict_set_new by (apply Hfresh; now left).
      now rewrite <- app_assoc.
    + intros k' Hk'. rewrite keys_dict_set_new by (apply Hfresh; now left).
      rewrite in_app_iff. intros [Hin | [-> | []]].
      * apply (Hfresh k'); [now right | exact Hin].
      * contradiction.
Qed.

Lemma keys_set_all_old (items : list (string * pyval)) (d : OrderedDict) :
  (forall k, In k (map fst items) -> In k (keys d)) ->
  keys (set_all d items) = keys d.
Proof.
  revert d. induction items as [|[k v] rest IH]; intros d Hold; simpl.
  - reflexivity.
  - unfold set_all in *. simpl.
    assert (Hk : keys (dict_set d k v) = keys d)
      by (apply keys_dict_set_old, Hold; now left).
    rewrite IH; [exact Hk |].
    intros k' Hk'. rewrite Hk. apply Hold. now right.
Qed.

Lemma dict_get_set_all_other (items : list (string * pyval)) (d : OrderedDict)
    (k : string) :
  ~ In k (map fst items) -> dict_get (set_all d items) k = dict_get d k.
Proof.
  revert d. induction items as [|[k' v'] rest IH]; intros d Hnot; simpl.
  - reflexivity.
  - unfold set_all in *. simpl. rewrite IH.
    + apply dict_get_set_other. apply String.eqb_neq.
      intros ->. apply Hnot. now left.
    + intros Hin. apply Hnot. now right.
Qed.

Lemma dict_get_set_all (items : list (string * pyval)) (d : OrderedDict)
    (k : string) (v : pyval) :
  NoDup (map fst items) -> In (k, v) items ->
  dict_get (set_all d items) k = Some v.
Proof.
  revert d. induction items as [|[k' v'] rest IH]; intros d Hnd Hin; simpl.
  - contradiction.
  - inversion Hnd as [|? ? Hk Hrest]; subst. unfold set_all in *. simpl.
    destruct Hin as [Heq | Hin].
    + injection Heq as -> ->.
      change (fold_left _ rest ?d') with (set_all d' rest).
      rewrite dict_get_set_all_other by exact Hk. apply dict_get_set_same.
    + now apply IH.
Qed.

Lemma append_inj_l (p s1 s2 : string) :
  (p ++ s1)%string = (p ++ s2)%string -> s1 = s2.
Proof.
  induction p as [|c p IH]; simpl; intros H; [exact H |].
  injection H as H. now apply IH.
Qed.

Lemma str_of_nat_inj (a b : nat) : str_of_nat a = str_of_nat b -> a = b.
Proof.
  unfold str_of_nat. intros H.
  apply (f_equal NilEmpty.uint_of_string) in H. rewrite !NilEmpty.usu in H.
  injection H as H. now apply DecimalNat.Unsigned.to_uint_inj.
Qed.

Lemma per_class_keys_NoDup (m : string) (start n : nat) :
  NoDup (per_class_keys m start n).
Proof.
  unfold per_class_keys. apply NoDup_map_NoDup_ForallPairs; [| apply seq_NoDup].
  intros a b _ _ H. apply append_inj_l, append_inj_l, str_of_nat_inj in H. lia.
Qed.

Lemma per_class_keys_form (m k : string) (start n : nat) :
  In k (per_class_keys m start n) ->
  exists s, k = (m ++ "-cls-" ++ s)%string.
Proof.
  unfold per_class_keys. intros H. apply in_map_iff in H.
  destruct H as (i & <- & _). eexists. reflexivity.
Qed.

Ltac other_key :=
  repeat match goal with
         | H : In _ (per_class_keys _ _ _) |- _ =>
             apply per_class_keys_form in H; destruct H as [? H]
         | H : In _ (_ :: _) |- _ => destruct H as [H | H]
         | H : In _ [] |- _ => destruct H
         | H : In _ (_ ++ _) |- _ => apply in_app_iff in H; destruct H as [H | H]
         end;
  subst; simpl in *; try discriminate; try congruence.

Lemma classification_keys_NoDup (md : MetricsDict) :
  NoDup (classification_keys md).
Proof.
  unfold classification_keys.
  apply NoDup_app.
  - repeat constructor; simpl; intuition discriminate.
  - apply NoDup_app; [apply per_class_keys_NoDup | |].
    + apply NoDup_app; [apply per_class_keys_NoDup .. |].
      intros k Hr Hf. other_key.
    + intros k Hp Hrf. other_key.
  - intros k Hk Hrest. other_key.
Qed.

Lemma per_class_items_keys (m : string) (start : nat) (l : list pyval) :
  map fst (combine (per_class_keys m start (length l)) l)
  = per_class_keys m start (length l).
Proof.
  unfold per_class_keys. revert start.
  induction l as [|v l IH]; intros start; cbn [length seq map combine fst];
    [reflexivity | now rewrite IH].
Qed.

Lemma classification_items_keys (md : MetricsDict) :
  map fst (classification_items md) = classification_keys md.
Proof.
  unfold classification_items, classification_keys.
  rewrite !map_app, !per_class_items_keys. reflexivity.
Qed.

Lemma every_batch_has_samples_true (batches : list Batch) :
  every_batch_has_samples batches = true ->
  batches <> [] /\ Forall (fun b => batch_count b <> 0) batches.
Proof.
  unfold every_batch_has_samples. intros H.
  apply andb_true_iff in H. destruct H as [Hne Hall]. split.
  - intros ->. discriminate Hne.
  - apply Forall_forall. intros b Hb.
    rewrite forallb_forall in Hall. specialize (Hall b Hb).
    apply negb_true_iff, Nat.eqb_neq in Hall. exact Hall.
Qed.

Lemma every_batch_has_samples_false (batches : list Batch) :
  every_batch_has_samples batches = false ->
  batches = [] \/ Exists (fun b => batch_count b = 0) batches.
Proof.
  unfold every_batch_has_samples. intros H.
  destruct batches as [|b rest]; [now left | right].
  cbn [length Nat.eqb negb andb] in H.
  induction (b :: rest) as [|b' l IH]; [discriminate H |].
  cbn [forallb] in H. apply andb_false_iff in H. destruct H as [H | H].
  - left. apply negb_false_iff, Nat.eqb_eq in H. exact H.
  - right. now apply IH.
Qed.

Lemma auc_keeps (d : OrderedDict) (auc : option (pyval * pyval)) (key : string) :
  String.eqb "AUROC" key = false -> String.eqb "AUPRC" key = false ->
  dict_get match auc with
           | Some (auroc, auprc) => dict_set (dict_set d "AUROC" auroc) "AUPRC" auprc
           | None => d
           end key
  = dict_get d key.
Proof.
  intros H1 H2. destruct auc as [[auroc auprc]|]; [| reflexivity].
  now rewrite !dict_get_set_other.
Qed.

(** X4.  [SupervisedRunner.evaluate] returns exactly when the loader
    yields a batch and every batch has a sample: the loss it records is
    then the count-weighted mean and [per_batch] holds the batches' IDs
    and no per-sample metrics.  In every other case (no batch, or some
    batch without a sample) it raises [ZeroDivisionError]. *)
Theorem supervised_evaluate_outcome (epoch_metrics : OrderedDict)
    (epoch_num : option Z) (batches : list Batch) (metrics_dict : MetricsDict)
    (auc : option (pyval * pyval)) :
  match SupervisedRunner.evaluate epoch_metrics epoch_num batches metrics_dict auc with
  | Ok (m, per_batch) =>
      every_batch_has_samples batches = true /\
      dict_get m "loss" = Some (PyFloat (count_weighted_mean batches)) /\
      pb_IDs per_batch = map IDs batches /\ pb_metrics per_batch = []
  | Raise e =>
      every_batch_has_samples batches = false /\ e = ZeroDivisionError
  end.
Proof.
  unfold SupervisedRunner.evaluate.
  destruct (every_batch_has_samples batches) eqn:E.
  - apply every_batch_has_samples_true in E. destruct E as [Hne Hall].
    rewrite (eval_loop_accumulates batches accum0 Hall). cbn [bind].
    cbn [epoch_loss total_count accum0 Nat.add].
    assert (Hpos : 0 < list_sum (map batch_count batches)).
    { destruct batches as [|b rest]; [congruence |].
      inversion Hall as [|? ? Hb _]; subst. simpl. lia. }
    unfold py_truediv.
    destruct (list_sum (map batch_count batches)) eqn:En; [lia |].
    cbn [bind]. repeat split.
    rewrite auc_keeps by reflexivity.
    rewrite classification_metrics_keep_loss, dict_get_set_same.
    unfold count_weighted_mean, py_sum. now rewrite En.
  - apply every_batch_has_samples_false in E. destruct E as [-> | Hdeg].
    + simpl. split; reflexivity.
    + rewrite (eval_loop_degenerate batches accum0 Hdeg). simpl.
      split; reflexivity.
Qed.

(** X5.  [SupervisedRunner.train_epoch] raises [ZeroDivisionError]
    exactly when the batches of the epoch have no sample at all.  A batch
    without a sample among others does not stop it: the loss it records
    is the count-weighted mean over all the batches. *)
Theorem supervised_train_epoch_outcome (epoch_metrics : OrderedDict)
    (epoch_num : option Z) (batches : list Batch) (metrics_dict : MetricsDict) :
  match SupervisedRunner.train_epoch epoch_metrics epoch_num batches metrics_dict with
  | Ok (m, _) =>
      0 < list_sum (map batch_count batches) /\
      dict_get m "loss" = Some (PyFloat (count_weighted_mean batches))
  | Raise e =>
      list_sum (map batch_count batches) = 0 /\ e = ZeroDivisionError
  end.
Proof.
  unfold SupervisedRunner.train_epoch.
  rewrite train_loop_accumulates. cbn [epoch_loss total_count accum0 Nat.add].
  unfold py_truediv, count_weighted_mean, py_sum.
  destruct (list_sum (map batch_count batches)) eqn:En; cbn [bind].
  - split; reflexivity.
  - split; [lia |].
    rewrite classification_metrics_keep_loss. apply dict_get_set_same.
Qed.

Lemma per_class_item (m : string) (l : list pyval) (i : nat) (v : pyval)
    (start : nat) :
  nth_error l i = Some v ->
  In (class_column m (start + i), v)
     (combine (per_class_keys m start (length l)) l).
Proof.
  unfold per_class_keys, class_column. revert i start.
  induction l as [|x l IH]; intros i start H.
  - destruct i; discriminate H.
  - cbn [length seq map combine]. destruct i as [|i]; simpl in H.
    + injection H as ->. left. now rewrite Nat.add_0_r.
    + right. replace (start + S i) with (S start + i) by lia. now apply IH.
Qed.

Lemma classification_metrics_get (d : OrderedDict) (md : MetricsDict)
    (k : string) (v : pyval) :
  In (k, v) (classification_items md) ->
  dict_get (set_classification_metrics d md) k = Some v.
Proof.
  intros Hin. rewrite set_classification_metrics_set_all.
  apply dict_get_set_all; [| exact Hin].
  rewrite classification_items_keys. apply classification_keys_NoDup.
Qed.

Lemma classification_metrics_columns (d : OrderedDict) (md : MetricsDict) :
  let m := set_classification_metrics d md in
  dict_get m "accuracy" = Some (total_accuracy md) /\
  dict_get m "precision" = Some (prec_avg md) /\
  dict_get m "recall" = Some (rec_avg md) /\
  dict_get m "f1" = Some (f1_avg md) /\
  (forall i v, nth_error (precision md) i = Some v ->
               dict_get m (class_column "precision" i) = Some v) /\
  (forall i v, nth_error (recall md) i = Some v ->
               dict_get m (class_column "recall" i) = Some v) /\
  (forall i v, nth_error (f1 md) i = Some v ->
               dict_get m (class_column "f1" i) = Some v).
Proof.
  cbv zeta.
  repeat split; try intros i v H;
    apply classification_metrics_get; unfold classification_items;
    rewrite ?in_app_iff.
  1-4: simpl; tauto.
  - pose proof (per_class_item "precision" _ _ _ 0 H) as Hin. cbn [Nat.add] in Hin. tauto.
  - pose proof (per_class_item "recall" _ _ _ 0 H) as Hin. cbn [Nat.add] in Hin. tauto.
  - pose proof (per_class_item "f1" _ _ _ 0 H) as Hin. cbn [Nat.add] in Hin. tauto.
Qed.

(** X6.  In the metrics a supervised runner returns, class [i] (counted
    from 0) of the analyzer's per-class precision, recall and F1 is found
    under the column [<metric>-cls-<i+1>], and the analyzer's averages
    under [accuracy], [precision], [recall] and [f1]: no column of one
    class or metric overwrites another, whatever the metrics held before. *)
Theorem per_class_columns_count_from_one (epoch_metrics m : OrderedDict)
    (epoch_num : option Z) (batches : list Batch) (metrics_dict : MetricsDict)
    (auc : option (pyval * pyval)) (per_batch : PerBatch)
    (Hret : SupervisedRunner.evaluate epoch_metrics epoch_num batches
              metrics_dict auc = Ok (m, per_batch)) :
  dict_get m "accuracy" = Some (total_accuracy metrics_dict) /\
  dict_get m "precision" = Some (prec_avg metrics_dict) /\
  dict_get m "recall" = Some (rec_avg metrics_dict) /\
  dict_get m "f1" = Some (f1_avg metrics_dict) /\
  (forall i v, nth_error (precision metrics_dict) i = Some v ->
               dict_get m (class_column "precision" i) = Some v) /\
  (forall i v, nth_error (recall metrics_dict) i = Some v ->
               dict_get m (class_column "recall" i) = Some v) /\
  (forall i v, nth_error (f1 metrics_dict) i = Some v ->
               dict_get m (class_column "f1" i) = Some v).
Proof.
  unfold SupervisedRunner.evaluate in Hret.
  destruct (eval_loop accum0 batches) as [acc | e]; [| discriminate Hret].
  cbn [bind] in Hret.
  destruct (py_truediv (epoch_loss acc) (total_count acc)) as [l | e];
    [| discriminate Hret].
  cbn [bind] in Hret. injection Hret as <- _.
  match goal with
  | |- context [set_classification_metrics ?d metrics_dict] =>
      pose proof (classification_metrics_columns d metrics_dict) as H
  end.
  cbv zeta in H.
  destruct H as (Ha & Hp & Hr & Hf & Hpc & Hrc & Hfc).
  repeat split; try intros i v Hi;
    rewrite auc_keeps by reflexivity; auto.
Qed.

Lemma per_class_columns_count_from_one_witness :
  SupervisedRunner.evaluate [] (Some 1%Z) one_batch two_class_metrics
    (Some two_class_areas)
  = Ok (two_class_row ++ [("AUROC", PyFloat 0.5); ("AUPRC", PyFloat 0.625)],
        SupervisedRunner.collect one_batch) /\
  dict_get (two_class_row ++ [("AUROC", PyFloat 0.5); ("AUPRC", PyFloat 0.625)])
           (class_column "precision" 1)
  = Some (PyFloat 0.75).
Proof.
  assert (H : SupervisedRunner.evaluate [] (Some 1%Z) one_batch two_class_metrics
                (Some two_class_areas)
              = Ok (two_class_row
                      ++ [("AUROC", PyFloat 0.5); ("AUPRC", PyFloat 0.625)],
                    SupervisedRunner.collect one_batch)) by reflexivity.
  split; [exact H |].
  pose proof (per_class_columns_count_from_one _ _ _ _ _ _ _ H)
    as (_ & _ & _ & _ & Hp & _ & _).
  apply Hp. reflexivity.
Defined.

(** ** The columns and their order *)

Lemma keys_In_dict_set (d : OrderedDict) (k k' : string) (v : pyval) :
  In k (keys (dict_set d k' v)) <-> In k (keys d) \/ k = k'.
Proof.
  unfold keys. induction d as [|[k0 v0] d IH]; simpl.
  - intuition congruence.
  - destruct (String.eqb_spec k0 k') as [-> | Hne]; simpl.
    + intuition congruence.
    + rewrite IH. tauto.
Qed.

Lemma keys_In_set_all (items : list (string * pyval)) (d : OrderedDict)
    (k : string) :
  In k (keys (set_all d items)) <-> In k (keys d) \/ In k (map fst items).
Proof.
  revert d. induction items as [|[k' v'] rest IH]; intros d; simpl.
  - tauto.
  - unfold set_all in *. simpl. rewrite IH, keys_In_dict_set. intuition congruence.
Qed.

Lemma keys_classification_new (d : OrderedDict) (md : MetricsDict) :
  (forall k, In k (classification_keys md) -> ~ In k (keys d)) ->
  keys (set_classification_metrics d md) = keys d ++ classification_keys md.
Proof.
  intros Hfresh. rewrite set_classification_metrics_set_all.
  rewrite keys_set_all_new; rewrite classification_items_keys;
    [reflexivity | apply classification_keys_NoDup | exact Hfresh].
Qed.

Lemma keys_classification_old (d : OrderedDict) (md : MetricsDict) :
  (forall k, In k (classification_keys md) -> In k (keys d)) ->
  keys (set_classification_metrics d md) = keys d.
Proof.
  intros Hold. rewrite set_classification_metrics_set_all.
  apply keys_set_all_old. now rewrite classification_items_keys.
Qed.

Lemma keys_In_classification (d : OrderedDict) (md : MetricsDict) (k : string) :
  In k (keys (set_classification_metrics d md))
  <-> In k (keys d) \/ In k (classification_keys md).
Proof.
  rewrite set_classification_metrics_set_all, keys_In_set_all.
  now rewrite classification_items_keys.
Qed.

Lemma classification_keys_not (md : MetricsDict) (k : string) :
  In k ["epoch"; "loss"; "AUROC"; "AUPRC"] -> ~ In k (classification_keys md).
Proof.
  unfold classification_keys. intros Hk Hin. other_key.
Qed.

Lemma supervised_evaluate_metrics (epoch_metrics m : OrderedDict)
    (epoch_num : option Z) (batches : list Batch) (metrics_dict : MetricsDict)
    (auc : option (pyval * pyval)) (per_batch : PerBatch) :
  SupervisedRunner.evaluate epoch_metrics epoch_num batches metrics_dict auc
    = Ok (m, per_batch) ->
  exists l,
    m = let d := set_classification_metrics
                   (dict_set (dict_set epoch_metrics "epoch" (py_epoch epoch_num))
                             "loss" (PyFloat l)) metrics_dict in
        match auc with
        | Some (auroc, auprc) => dict_set (dict_set d "AUROC" auroc) "AUPRC" auprc
        | None => d
        end.
Proof.
  unfold SupervisedRunner.evaluate. intros Hret.
  destruct (eval_loop accum0 batches) as [acc | e]; [| discriminate Hret].
  cbn [bind] in Hret.
  destruct (py_truediv (epoch_loss acc) (total_count acc)) as [l | e];
    [| discriminate Hret].
  cbn [bind] in Hret. injection Hret as <- _. now exists l.
Qed.

Lemma supervised_train_epoch_metrics (epoch_metrics m : OrderedDict)
    (epoch_num : option Z) (batches : list Batch) (metrics_dict : MetricsDict)
    (per_batch : PerBatch) :
  SupervisedRunner.train_epoch epoch_metrics epoch_num batches metrics_dict
    = Ok (m, per_batch) ->
  exists l,
    m = set_classification_metrics
          (dict_set (dict_set epoch_metrics "epoch" (py_epoch epoch_num))
                    "loss" (PyFloat l)) metrics_dict.
Proof.
  unfold SupervisedRunner.train_epoch. intros Hret.
  destruct (py_truediv _ _) as [l | e]; [| discriminate Hret].
  cbn [bind] in Hret. injection Hret as <- _. now exists l.
Qed.

Lemma fresh_classification_columns (epoch l : pyval) (md : MetricsDict) :
  keys (set_classification_metrics
          (dict_set (dict_set [] "epoch" epoch) "loss" l) md)
  = "epoch" :: "loss" :: classification_keys md.
Proof.
  rewrite keys_classification_new; [reflexivity |].
  intros k Hk Hin. simpl in Hin.
  apply (classification_keys_not md k); [| exact Hk].
  simpl. tauto.
Qed.

Lemma base_columns_not (md : MetricsDict) (k : string) :
  In k ["AUROC"; "AUPRC"] ->
  ~ In k ("epoch" :: "loss" :: classification_keys md).
Proof.
  intros Hk [H | [H | H]].
  - subst k. simpl in Hk. intuition discriminate.
  - subst k. simpl in Hk. intuition discriminate.
  - revert H. apply classification_keys_not. simpl in *. tauto.
Qed.

Lemma auc_columns_new (d : OrderedDict) (auroc auprc : pyval) :
  (forall k, In k ["AUROC"; "AUPRC"] -> ~ In k (keys d)) ->
  keys (dict_set (dict_set d "AUROC" auroc) "AUPRC" auprc)
  = keys d ++ ["AUROC"; "AUPRC"].
Proof.
  intros Hfresh.
  change (dict_set (dict_set d "AUROC" auroc) "AUPRC" auprc)
    with (set_all d [("AUROC", auroc); ("AUPRC", auprc)]).
  apply keys_set_all_new; [| exact Hfresh].
  repeat constructor; simpl; intuition discriminate.
Qed.

Lemma auc_columns_old (d : OrderedDict) (auroc auprc : pyval) :
  (forall k, In k ["AUROC"; "AUPRC"] -> In k (keys d)) ->
  keys (dict_set (dict_set d "AUROC" auroc) "AUPRC" auprc) = keys d.
Proof.
  intros Hold.
  change (dict_set (dict_set d "AUROC" auroc) "AUPRC" auprc)
    with (set_all d [("AUROC", auroc); ("AUPRC", auprc)]).
  apply keys_set_all_old. exact Hold.
Qed.

(** X7.  The columns of the metrics a fresh supervised runner returns
    from [evaluate]: [epoch], [loss], the four averages, then the
    per-class precision, recall and F1 columns in this order, and, for a
    two-class model only, [AUROC] and [AUPRC] at the end. *)
Theorem supervised_evaluate_columns (m : OrderedDict) (epoch_num : option Z)
    (batches : list Batch) (metrics_dict : MetricsDict) (binary : bool)
    (areas : pyval * pyval) (per_batch : PerBatch)
    (Hret : SupervisedRunner.evaluate [] epoch_num batches metrics_dict
              (auc_of binary areas) = Ok (m, per_batch)) :
  keys m = ["epoch"; "loss"] ++ classification_keys metrics_dict
           ++ (if binary then ["AUROC"; "AUPRC"] else []).
Proof.
  apply supervised_evaluate_metrics in Hret. destruct Hret as [l ->].
  cbv zeta.
  pose proof (fresh_classification_columns (py_epoch epoch_num) (PyFloat l)
                metrics_dict) as Hk.
  destruct binary; cbn [auc_of].
  - destruct areas as [auroc auprc].
    rewrite auc_columns_new; rewrite Hk.
    + reflexivity.
    + apply base_columns_not.
  - rewrite Hk, app_nil_r. reflexivity.
Qed.

Lemma supervised_evaluate_columns_witness :
  SupervisedRunner.evaluate [] (Some 1%Z) one_batch two_class_metrics
    (auc_of true two_class_areas)
  = Ok (two_class_row ++ [("AUROC", PyFloat 0.5); ("AUPRC", PyFloat 0.625)],
        SupervisedRunner.collect one_batch) /\
  keys (two_class_row ++ [("AUROC", PyFloat 0.5); ("AUPRC", PyFloat 0.625)])
  = ["epoch"; "loss"] ++ classification_keys two_class_metrics
    ++ ["AUROC"; "AUPRC"].
Proof.
  assert (H : SupervisedRunner.evaluate [] (Some 1%Z) one_batch two_class_metrics
                (auc_of true two_class_areas)
              = Ok (two_class_row
                      ++ [("AUROC", PyFloat 0.5); ("AUPRC", PyFloat 0.625)],
                    SupervisedRunner.collect one_batch)) by reflexivity.
  split; [exact H |].
  exact (supervised_evaluate_columns _ _ _ _ true _ _ H).
Defined.

(** X8.  For a two-class model the validation metrics have two columns
    more than the training metrics of the same run, [AUROC] and [AUPRC]
    at the end; the other columns agree, in order, when the analyzer
    reports the same number of classes for both. *)
Theorem binary_validation_has_two_more_columns (train_metrics val_metrics : OrderedDict)
    (epoch epoch' : option Z) (train_batches val_batches : list Batch)
    (train_dict val_dict : MetricsDict) (areas : pyval * pyval)
    (train_batch val_batch : PerBatch)
    (Htrain : SupervisedRunner.train_epoch [] epoch train_batches train_dict
                = Ok (train_metrics, train_batch))
    (Hval : SupervisedRunner.evaluate [] epoch' val_batches val_dict
              (auc_of true areas) = Ok (val_metrics, val_batch))
    (Hclasses : length (precision train_dict) = length (precision val_dict) /\
                length (recall train_dict) = length (recall val_dict) /\
                length (f1 train_dict) = length (f1 val_dict)) :
  keys val_metrics = keys train_metrics ++ ["AUROC"; "AUPRC"].
Proof.
  apply supervised_train_epoch_metrics in Htrain. destruct Htrain as [l ->].
  apply supervised_evaluate_metrics in Hval. destruct Hval as [l' ->].
  cbv zeta. cbn [auc_of]. destruct areas as [auroc auprc].
  destruct Hclasses as (Hp & Hr & Hf).
  assert (Hsame : classification_keys train_dict = classification_keys val_dict).
  { unfold classification_keys. now rewrite Hp, Hr, Hf. }
  rewrite auc_columns_new; rewrite !fresh_classification_columns.
  - now rewrite Hsame.
  - apply base_columns_not.
Qed.

Lemma binary_validation_has_two_more_columns_witness :
  (SupervisedRunner.train_epoch [] (Some 1%Z) one_batch two_class_metrics
     = Ok (two_class_row, mkPerBatch [] []) /\
   SupervisedRunner.evaluate [] (Some 1%Z) one_batch two_class_metrics
     (auc_of true two_class_areas)
     = Ok (two_class_row ++ [("AUROC", PyFloat 0.5); ("AUPRC", PyFloat 0.625)],
           SupervisedRunner.collect one_batch)) /\
  keys (two_class_row ++ [("AUROC", PyFloat 0.5); ("AUPRC", PyFloat 0.625)])
  = keys two_class_row ++ ["AUROC"; "AUPRC"].
Proof.
  assert (Ht : SupervisedRunner.train_epoch [] (Some 1%Z) one_batch
                 two_class_metrics = Ok (two_class_row, mkPerBatch [] []))
    by reflexivity.
  assert (Hv : SupervisedRunner.evaluate [] (Some 1%Z) one_batch
                 two_class_metrics (auc_of true two_class_areas)
               = Ok (two_class_row
                       ++ [("AUROC", PyFloat 0.5); ("AUPRC", PyFloat 0.625)],
                     SupervisedRunner.collect one_batch)) by reflexivity.
  split; [split; [exact Ht | exact Hv] |].
  exact (binary_validation_has_two_more_columns _ _ _ _ _ _ _ _ _ _ _ Ht Hv
           (conj eq_refl (conj eq_refl eq_refl))).
Defined.

(** X9.  A runner's metrics keep their columns from one call of
    [evaluate] to the next: the second call on the dictionary the first
    returned changes values only, as long as the analyzer reports as many
    classes as before. *)
Theorem evaluate_keeps_columns (epoch_metrics m m' : OrderedDict)
    (epoch epoch' : option Z) (batches batches' : list Batch)
    (metrics_dict metrics_dict' : MetricsDict) (binary : bool)
    (areas areas' : pyval * pyval) (per_batch per_batch' : PerBatch)
    (Hfirst : SupervisedRunner.evaluate epoch_metrics epoch batches metrics_dict
                (auc_of binary areas) = Ok (m, per_batch))
    (Hsecond : SupervisedRunner.evaluate m epoch' batches' metrics_dict'
                 (auc_of binary areas') = Ok (m', per_batch'))
    (Hclasses : length (precision metrics_dict') = length (precision metrics_dict) /\
                length (recall metrics_dict') = length (recall metrics_dict) /\
                length (f1 metrics_dict') = length (f1 metrics_dict)) :
  keys m' = keys m.
Proof.
  apply supervised_evaluate_metrics in Hsecond. destruct Hsecond as [l' ->].
  apply supervised_evaluate_metrics in Hfirst. destruct Hfirst as [l Hm].
  destruct Hclasses as (Hp & Hr & Hf).
  assert (Hsame : classification_keys metrics_dict' = classification_keys metrics_dict).
  { unfold classification_keys. now rewrite Hp, Hr, Hf. }
  assert (Hin : forall k, In k ("epoch" :: "loss" :: classification_keys metrics_dict)
                          \/ (binary = true /\ In k ["AUROC"; "AUPRC"])
                          -> In k (keys m)).
  { intros k Hk. rewrite Hm. cbv zeta.
    assert (Hbase : In k ("epoch" :: "loss" :: classification_keys metrics_dict) ->
                    In k (keys (set_classification_metrics
                                  (dict_set (dict_set epoch_metrics "epoch"
                                               (py_epoch epoch)) "loss" (PyFloat l))
                                  metrics_dict))).
    { intros H. rewrite keys_In_classification, !keys_In_dict_set.
      destruct H as [<- | [<- | H]]; tauto. }
    destruct binary; cbn [auc_of].
    - destruct areas as [auroc auprc]. rewrite !keys_In_dict_set.
      destruct Hk as [Hk | [_ [<- | [<- | []]]]]; tauto.
    - destruct Hk as [Hk | [Hk _]]; [auto | discriminate Hk]. }
  cbv zeta.
  assert (Hbase : keys (set_classification_metrics
                          (dict_set (dict_set m "epoch" (py_epoch epoch'))
                                    "loss" (PyFloat l')) metrics_dict')
                  = keys m).
  { rewrite keys_classification_old.
    - rewrite !keys_dict_set_old; [reflexivity | |].
      + apply Hin. left. now left.
      + rewrite keys_dict_set_old by (apply Hin; left; now left).
        apply Hin. left. right. now left.
    - intros k Hk. rewrite !keys_In_dict_set. left. left.
      apply Hin. left. right. right. now rewrite <- Hsame. }
  destruct binary; cbn [auc_of]; [| exact Hbase].
  destruct areas' as [auroc auprc].
  rewrite auc_columns_old; [exact Hbase |].
  intros k Hk. rewrite Hbase. apply Hin. right. now split.
Qed.

Lemma evaluate_keeps_columns_witness :
  (SupervisedRunner.evaluate [] (Some 1%Z) one_batch two_class_metrics
     (auc_of true two_class_areas)
     = Ok (two_class_row ++ [("AUROC", PyFloat 0.5); ("AUPRC", PyFloat 0.625)],
           SupervisedRunner.collect one_batch) /\
   SupervisedRunner.evaluate
     (two_class_row ++ [("AUROC", PyFloat 0.5); ("AUPRC", PyFloat 0.625)])
     (Some 2%Z) two_unequal_batches two_class_metrics
     (auc_of true two_class_areas)
     = Ok ([("epoch", PyInt 2); ("loss", PyFloat 1.75)] ++ skipn 2 two_class_row
           ++ [("AUROC", PyFloat 0.5); ("AUPRC", PyFloat 0.625)],
           SupervisedRunner.collect two_unequal_batches)) /\
  keys ([("epoch", PyInt 2); ("loss", PyFloat 1.75)] ++ skipn 2 two_class_row
        ++ [("AUROC", PyFloat 0.5); ("AUPRC", PyFloat 0.625)])
  = keys (two_class_row ++ [("AUROC", PyFloat 0.5); ("AUPRC", PyFloat 0.625)]).
Proof.
  assert (H1 : SupervisedRunner.evaluate [] (Some 1%Z) one_batch two_class_metrics
                 (auc_of true two_class_areas)
               = Ok (two_class_row
                       ++ [("AUROC", PyFloat 0.5); ("AUPRC", PyFloat 0.625)],
                     SupervisedRunner.collect one_batch)) by reflexivity.
  assert (H2 : SupervisedRunner.evaluate
                 (two_class_row ++ [("AUROC", PyFloat 0.5); ("AUPRC", PyFloat 0.625)])
                 (Some 2%Z) two_unequal_batches two_class_metrics
                 (auc_of true two_class_areas)
               = Ok ([("epoch", PyInt 2); ("loss", PyFloat 1.75)]
                       ++ skipn 2 two_class_row
                       ++ [("AUROC", PyFloat 0.5); ("AUPRC", PyFloat 0.625)],
                     SupervisedRunner.collect two_unequal_batches)) by reflexivity.
  split; [split; [exact H1 | exact H2] |].
  exact (evaluate_keeps_columns _ _ _ _ _ _ _ _ _ true _ _ _ _ H1 H2
           (conj eq_refl (conj eq_refl eq_refl))).
Defined.

(** ** The learning-rate schedule of any configuration *)

Lemma In_py_range (a b e : Z) : In e (py_range a b) <-> (a <= e < b)%Z.
Proof.
  unfold py_range. rewrite in_map_iff. split.
  - intros (i & <- & Hi). apply in_seq in Hi. lia.
  - intros H. exists (Z.to_nat (e - a)). split; [lia |]. apply in_seq. lia.
Qed.

Lemma py_range_snoc (a : Z) (n : nat) :
  py_range a (a + Z.of_nat (S n)) = py_range a (a + Z.of_nat n) ++ [(a + Z.of_nat n)%Z].
Proof.
  unfold py_range.
  replace (a + Z.of_nat (S n) - a)%Z with (Z.of_nat (S n)) by lia.
  replace (a + Z.of_nat n - a)%Z with (Z.of_nat n) by lia.
  rewrite !Nat2Z.id, seq_S, map_app. reflexivity.
Qed.

Lemma passed_none (n : Z) (l : list Z) :
  Forall (fun m => (n < m)%Z) l -> passed n l = 0.
Proof.
  unfold passed. induction 1 as [|m l Hm _ IH]; simpl; [reflexivity |].
  replace (m <=? n)%Z with false by (symmetry; apply Z.leb_gt; lia). exact IH.
Qed.

Lemma passed_le_length (n : Z) (l : list Z) : passed n l <= length l.
Proof. unfold passed. apply filter_length_le. Qed.

Lemma sorted_tail_above (a : Z) (l : list Z) (n : Z) :
  StronglySorted Z.lt (a :: l) -> (n <= a)%Z -> Forall (fun m => (n < m)%Z) l.
Proof.
  intros Hs Hn. apply StronglySorted_inv in Hs. destruct Hs as [_ Hall].
  eapply Forall_impl; [| exact Hall]. intros m Hm. cbv beta in Hm. lia.
Qed.

Lemma passed_cons_le (a n : Z) (l : list Z) :
  (a <= n)%Z -> passed n (a :: l) = S (passed n l).
Proof.
  intros H. unfold passed. simpl.
  now replace (a <=? n)%Z with true by (symmetry; apply Z.leb_le; lia).
Qed.

Lemma passed_cons_gt (a n : Z) (l : list Z) :
  StronglySorted Z.lt (a :: l) -> (n < a)%Z -> passed n (a :: l) = 0.
Proof.
  intros Hs H. apply passed_none. constructor; [exact H |].
  apply (sorted_tail_above a); [exact Hs | lia].
Qed.

(** The milestone under the pointer is the first one not yet passed. *)
Lemma sorted_next_milestone (n : Z) (l : list Z) (m : Z) :
  StronglySorted Z.lt l -> nth_error l (passed n l) = Some m -> (n < m)%Z.
Proof.
  induction l as [|a l IH]; intros Hs Hm.
  - discriminate Hm.
  - destruct (Z.leb_spec a n) as [Ha | Ha].
    + rewrite passed_cons_le in Hm by exact Ha. simpl in Hm.
      apply IH; [| exact Hm]. now apply StronglySorted_inv in Hs.
    + rewrite passed_cons_gt in Hm by assumption. simpl in Hm.
      injection Hm as <-. exact Ha.
Qed.

Lemma sorted_last_passed (n : Z) (l : list Z) (m : Z) :
  passed n l = length l -> In m l -> (m <= n)%Z.
Proof.
  unfold passed. induction l as [|a l IH]; simpl; intros Hp Hin; [contradiction |].
  pose proof (filter_length_le (fun m => (m <=? n)%Z) l) as Hle.
  destruct (Z.leb_spec a n) as [Ha | Ha]; simpl in Hp.
  - destruct Hin as [<- | Hin]; [exact Ha |]. apply IH; [lia | exact Hin].
  - lia.
Qed.

Lemma passed_hit (n : Z) (l : list Z) :
  StronglySorted Z.lt l -> nth_error l (passed n l) = Some (n + 1)%Z ->
  passed (n + 1) l = S (passed n l).
Proof.
  induction l as [|a l IH]; intros Hs Hm.
  - discriminate Hm.
  - destruct (Z.leb_spec a n) as [Ha | Ha].
    + rewrite (passed_cons_le a n) in Hm by exact Ha. simpl in Hm.
      rewrite (passed_cons_le a n) by exact Ha.
      rewrite (passed_cons_le a (n + 1)) by lia. f_equal.
      apply IH; [| exact Hm]. now apply StronglySorted_inv in Hs.
    + rewrite (passed_cons_gt a n) in Hm by assumption. simpl in Hm.
      rewrite (passed_cons_gt a n) by assumption.
      injection Hm as ->. rewrite passed_cons_le by lia. f_equal.
      apply passed_none. apply (sorted_tail_above (n + 1)); [exact Hs | lia].
Qed.

Lemma passed_miss (n : Z) (l : list Z) :
  StronglySorted Z.lt l -> nth_error l (passed n l) <> Some (n + 1)%Z ->
  passed (n + 1) l = passed n l.
Proof.
  induction l as [|a l IH]; intros Hs Hm.
  - reflexivity.
  - destruct (Z.leb_spec a n) as [Ha | Ha].
    + rewrite (passed_cons_le a n) in Hm by exact Ha. simpl in Hm.
      rewrite (passed_cons_le a n) by exact Ha.
      rewrite (passed_cons_le a (n + 1)) by lia. f_equal.
      apply IH; [| exact Hm]. now apply StronglySorted_inv in Hs.
    + rewrite (passed_cons_gt a n) in Hm by assumption. simpl in Hm.
      rewrite (passed_cons_gt a n) by assumption.
      assert (a <> n + 1)%Z by congruence.
      apply passed_cons_gt; [exact Hs | lia].
Qed.

Lemma decayed_succ (lr0 : float) (factors : list float) (p : nat) (f : float) :
  nth_error factors p = Some f ->
  decayed lr0 factors (S p) = PrimFloat.mul (decayed lr0 factors p) f.
Proof.
  unfold decayed. revert lr0 p. induction factors as [|x fs IH]; intros lr0 p H.
  - destruct p; discriminate H.
  - destruct p as [|p]; simpl in H.
    + injection H as ->. reflexivity.
    + cbn [firstn fold_left]. now apply IH.
Qed.

Section AnySchedule.

Variable config : Config.
Variable train_part : Z -> traced unit.
Variable val_part : Z -> OrderedDict -> pyval -> traced (OrderedDict * pyval).
Hypothesis Htrain : forall e, exists t, train_part e = (t, Ok tt).
Hypothesis Hval : forall e bm bv, exists t r, val_part e bm bv = (t, Ok r).

(** The epoch is not the milestone under the pointer. *)
Lemma epoch_body_miss (epoch : Z) (st : LoopState) (m : Z) :
  nth_error (cfg_lr_step config) (lr_step st) = Some m -> epoch <> m ->
  exists t st',
    epoch_body config train_part val_part epoch st = (t, Ok st') /\
    schedule_of st' = schedule_of st.
Proof.
  intros Hm Hne. unfold epoch_body.
  destruct (Htrain epoch) as [t1 ->].
  destruct (Hval epoch (best_metrics st) (best_value st)) as (t2 & [bm' bv'] & ->).
  unfold lr_scheduling, save_model, index. cbn [lr_step param_groups lr].
  rewrite Hm. cbn [lift tbind tell ret fst snd app].
  replace (epoch =? m)%Z with false by (symmetry; apply Z.eqb_neq; exact Hne).
  destruct (cfg_harden config && check_progress epoch)%bool;
    cbn [tbind tell ret fst snd app]; do 2 eexists; split; reflexivity.
Qed.

(** The epoch is the milestone under the pointer. *)
Lemma epoch_body_hit (epoch : Z) (st : LoopState) (f : float) :
  nth_error (cfg_lr_step config) (lr_step st) = Some epoch ->
  nth_error (cfg_lr_factor config) (lr_step st) = Some f ->
  exists t st',
    epoch_body config train_part val_part epoch st = (t, Ok st') /\
    schedule_of st'
    = (PrimFloat.mul (lr st) f,
       (if Nat.ltb (lr_step st + 1) (length (cfg_lr_step config))
        then lr_step st + 1 else lr_step st),
       set_lr (PrimFloat.mul (lr st) f) (param_groups st)) /\
    In (SaveModel (checkpoint_path config (str_of_Z epoch)) (Some epoch)
                  (Some (map pg_lr (param_groups st)))) t.
Proof.
  intros Hm Hf. unfold epoch_body.
  destruct (Htrain epoch) as [t1 ->].
  destruct (Hval epoch (best_metrics st) (best_value st)) as (t2 & [bm' bv'] & ->).
  unfold lr_scheduling, save_model, index. cbn [lr_step param_groups lr].
  rewrite Hm, Hf. cbn [lift tbind tell ret fst snd app].
  rewrite Z.eqb_refl. cbn [lift tbind tell ret fst snd app].
  assert (Hstep : (if (Z.of_nat (lr_step st)
                       <? Z.of_nat (length (cfg_lr_step config)) - 1)%Z
                   then lr_step st + 1 else lr_step st)
                  = (if Nat.ltb (lr_step st + 1) (length (cfg_lr_step config))
                     then lr_step st + 1 else lr_step st)).
  { destruct (Z.ltb_spec (Z.of_nat (lr_step st))
                (Z.of_nat (length (cfg_lr_step config)) - 1));
      destruct (Nat.ltb_spec (lr_step st + 1) (length (cfg_lr_step config)));
      try reflexivity; lia. }
  rewrite Hstep.
  destruct (cfg_harden config && check_progress epoch)%bool;
    cbn [tbind tell ret fst snd app]; do 2 eexists;
    (split; [reflexivity |]); (split; [reflexivity |]);
    rewrite !in_app_iff; simpl; auto.
Qed.

(** No milestone under the pointer. *)
Lemma epoch_body_no_milestone (epoch : Z) (st : LoopState) :
  nth_error (cfg_lr_step config) (lr_step st) = None ->
  exists t,
    epoch_body config train_part val_part epoch st = (t, Raise IndexError) /\
    In (SaveModel (checkpoint_path config
                     (if cfg_save_all config then str_of_Z epoch else "last"))
                  (Some epoch) (Some (map pg_lr (param_groups st)))) t.
Proof.
  intros Hm. unfold epoch_body.
  destruct (Htrain epoch) as [t1 ->].
  destruct (Hval epoch (best_metrics st) (best_value st)) as (t2 & [bm' bv'] & ->).
  unfold lr_scheduling, save_model, index. cbn [lr_step param_groups lr].
  rewrite Hm. cbn [lift tbind tell ret fst snd app].
  eexists. split; [reflexivity |]. rewrite !in_app_iff. simpl. auto.
Qed.

Lemma main_loop_missed (epochs : list Z) (st : LoopState) (m : Z) :
  nth_error (cfg_lr_step config) (lr_step st) = Some m -> ~ In m epochs ->
  exists trace st',
    main_loop config train_part val_part epochs st = (trace, Ok st') /\
    schedule_of st' = schedule_of st.
Proof.
  revert st. induction epochs as [|e rest IH]; intros st Hm Hnot.
  - do 2 eexists. split; reflexivity.
  - assert (He : e <> m) by (intros ->; apply Hnot; now left).
    destruct (epoch_body_miss e st m Hm He) as (t & st1 & Hbody & Hsched).
    assert (Hm1 : nth_error (cfg_lr_step config) (lr_step st1) = Some m).
    { unfold schedule_of in Hsched. injection Hsched as _ -> _. exact Hm. }
    destruct (IH st1 Hm1) as (t' & st' & Hloop & Hsched').
    { intros Hin. apply Hnot. now right. }
    cbn [main_loop]. rewrite Hbody. cbn [tbind]. rewrite Hloop.
    do 2 eexists. split; [reflexivity |]. congruence.
Qed.

Variable start_epoch : Z.
Variable groups : list ParamGroup.
Variable lr0 : float.
Hypothesis Hsorted : StronglySorted Z.lt (cfg_lr_step config).
Hypothesis Hlater : Forall (fun m => (start_epoch < m)%Z) (cfg_lr_step config).
Hypothesis Hsome : cfg_lr_step config <> [].
Hypothesis Hfactors : length (cfg_lr_step config) <= length (cfg_lr_factor config).

Lemma epoch_body_sorted (n : nat) (st : LoopState) :
  schedule_of st = sorted_schedule_after config start_epoch lr0 groups n ->
  exists t st',
    epoch_body config train_part val_part (start_epoch + Z.of_nat (S n)) st
      = (t, Ok st') /\
    schedule_of st' = sorted_schedule_after config start_epoch lr0 groups (S n).
Proof.
  intros Hst. unfold schedule_of, sorted_schedule_after in Hst.
  cbv zeta in Hst.
  set (ms := cfg_lr_step config) in *.
  set (now_ := (start_epoch + Z.of_nat n)%Z) in *.
  set (p := passed now_ ms) in *.
  assert (Hnext : (start_epoch + Z.of_nat (S n) = now_ + 1)%Z)
    by (unfold now_; lia).
  assert (Hlen : 0 < length ms).
  { destruct ms; [congruence | simpl; lia]. }
  pose proof (passed_le_length now_ ms) as Hple. fold p in Hple.
  injection Hst as Hlr Hstep Hgroups.
  destruct (nth_error ms (lr_step st)) as [m |] eqn:Em.
  2:{ apply nth_error_None in Em. rewrite Hstep in Em. lia. }
  destruct (Z.eq_dec (start_epoch + Z.of_nat (S n)) m) as [Ehit | Emiss].
  - (* a milestone: it is the one under the pointer, not yet passed *)
    assert (Hp : p < length ms).
    { destruct (Nat.eq_dec p (length ms)) as [Hall | Hnot]; [| lia].
      exfalso. apply nth_error_In in Em.
      pose proof (sorted_last_passed now_ ms m Hall Em). lia. }
    assert (Hptr : lr_step st = p) by (rewrite Hstep; lia).
    rewrite Hptr in Em.
    destruct (nth_error (cfg_lr_factor config) p) as [f |] eqn:Ef.
    2:{ apply nth_error_None in Ef. fold ms in Hfactors. lia. }
    subst m.
    destruct (epoch_body_hit (start_epoch + Z.of_nat (S n)) st f)
      as (t & st' & Hbody & Hsched & _).
    { fold ms. now rewrite Hptr. }
    { now rewrite Hptr. }
    exists t, st'. split; [exact Hbody |].
    rewrite Hsched. unfold sorted_schedule_after. cbv zeta. fold ms.
    rewrite Hnext in Em |- *.
    rewrite (passed_hit now_ ms Hsorted Em). fold p.
    rewrite (decayed_succ lr0 (cfg_lr_factor config) p f Ef).
    rewrite Hlr, Hptr. cbn [Nat.eqb]. f_equal; [f_equal |].
    + destruct (Nat.ltb_spec (p + 1) (length ms)); lia.
    + rewrite Hgroups. destruct (Nat.eqb p 0); [reflexivity |].
      apply set_lr_set_lr.
  - destruct (epoch_body_miss (start_epoch + Z.of_nat (S n)) st m Em Emiss)
      as (t & st' & Hbody & Hsched).
    exists t, st'. split; [exact Hbody |].
    rewrite Hsched. unfold schedule_of, sorted_schedule_after. cbv zeta. fold ms.
    rewrite Hnext.
    assert (Hsame : passed (now_ + 1) ms = p).
    { apply passed_miss; [exact Hsorted |]. fold p. intros Hhit.
      assert (Hp : p < length ms) by (apply nth_error_Some; congruence).
      assert (Hptr : lr_step st = p) by (rewrite Hstep; lia).
      rewrite Hptr in Em. rewrite Em in Hhit. injection Hhit as ->. lia. }
    rewrite Hsame. now rewrite Hlr, Hstep, Hgroups.
Qed.

Lemma main_loop_sorted (n : nat) (bm : OrderedDict) (bv : pyval) :
  exists trace st,
    main_loop config train_part val_part
              (py_range (start_epoch + 1) (start_epoch + 1 + Z.of_nat n))
              (mkLoopState lr0 0 groups bm bv) = (trace, Ok st) /\
    schedule_of st = sorted_schedule_after config start_epoch lr0 groups n.
Proof.
  induction n as [|n IH].
  - exists [], (mkLoopState lr0 0 groups bm bv). split.
    + unfold py_range. now replace (start_epoch + 1 + Z.of_nat 0 - (start_epoch + 1))%Z
        with 0%Z by lia.
    + unfold schedule_of, sorted_schedule_after. cbv zeta. cbn [lr lr_step param_groups].
      rewrite passed_none.
      * reflexivity.
      * eapply Forall_impl; [| exact Hlater]. intros m Hm. cbv beta in Hm. lia.
  - destruct IH as (trace & st & Hloop & Hsched).
    destruct (epoch_body_sorted n st Hsched) as (t & st' & Hbody & Hsched').
    rewrite py_range_snoc, main_loop_app, Hloop.
    cbn [tbind main_loop].
    replace (start_epoch + 1 + Z.of_nat n)%Z with (start_epoch + Z.of_nat (S n))%Z
      by lia.
    rewrite Hbody. cbn [tbind ret].
    do 2 eexists. split; [reflexivity | exact Hsched'].
Qed.

End AnySchedule.

(** X10.  The learning-rate schedule of any configuration whose
    milestones are in ascending order, all later than the epoch the run
    starts from, and have a factor each: the epoch loop returns after any
    number [n] of epochs; the rate is then the starting rate multiplied,
    in order, by the factors of the milestones reached so far; every
    parameter group has that rate once a milestone was reached and is
    untouched before; and the milestone pointer is the number of
    milestones reached, held at the last index. *)
Theorem lr_schedule_of_sorted_milestones (config : Config)
    (train_part : Z -> traced unit)
    (val_part : Z -> OrderedDict -> pyval -> traced (OrderedDict * pyval))
    (start_epoch : Z) (groups : list ParamGroup) (lr0 : float)
    (bm : OrderedDict) (bv : pyval) (n : nat)
    (Htrain : forall e, exists t, train_part e = (t, Ok tt))
    (Hval : forall e bm bv, exists t r, val_part e bm bv = (t, Ok r))
    (Hsorted : StronglySorted Z.lt (cfg_lr_step config))
    (Hlater : Forall (fun m => (start_epoch < m)%Z) (cfg_lr_step config))
    (Hsome : cfg_lr_step config <> [])
    (Hfactors : length (cfg_lr_step config) <= length (cfg_lr_factor config)) :
  exists trace st,
    main_loop config train_part val_part
              (py_range (start_epoch + 1) (start_epoch + 1 + Z.of_nat n))
              (mkLoopState lr0 0 groups bm bv) = (trace, Ok st) /\
    let reached := passed (start_epoch + Z.of_nat n) (cfg_lr_step config) in
    lr st = decayed lr0 (cfg_lr_factor config) reached /\
    lr_step st = Nat.min reached (length (cfg_lr_step config) - 1) /\
    (reached = 0 -> param_groups st = groups) /\
    (0 < reached -> Forall (fun g => pg_lr g = lr st) (param_groups st)).
Proof.
  destruct (main_loop_sorted config train_part val_part Htrain Hval start_epoch
              groups lr0 Hsorted Hlater Hsome Hfactors n bm bv)
    as (trace & st & Hloop & Hsched).
  exists trace, st. split; [exact Hloop |]. cbv zeta.
  unfold schedule_of, sorted_schedule_after in Hsched. cbv zeta in Hsched.
  injection Hsched as Hlr Hstep Hgroups.
  split; [exact Hlr |]. split; [exact Hstep |]. split.
  - intros H0. rewrite H0 in Hgroups. exact Hgroups.
  - intros Hpos. rewrite Hgroups, Hlr.
    destruct (Nat.eqb_spec (passed (start_epoch + Z.of_nat n) (cfg_lr_step config)) 0);
      [lia | apply set_lr_all].
Qed.

Lemma lr_schedule_of_sorted_milestones_witness :
  exists trace st,
    main_loop three_step_config (fun _ => ret tt) (fun _ bm bv => ret (bm, bv))
              (py_range 1 5) (mkLoopState 1 0 two_groups [] (PyFloat 1e16))
      = (trace, Ok st) /\
    lr st = 0.25%float /\ lr_step st = 2 /\
    Forall (fun g => pg_lr g = 0.25%float) (param_groups st).
Proof.
  assert (Hsorted : StronglySorted Z.lt (cfg_lr_step three_step_config))
    by (repeat constructor).
  assert (Hlater : Forall (fun m => (0 < m)%Z) (cfg_lr_step three_step_config))
    by (repeat constructor).
  assert (Hsome : cfg_lr_step three_step_config <> []) by discriminate.
  assert (Hfactors : length (cfg_lr_step three_step_config)
                     <= length (cfg_lr_factor three_step_config))
    by (simpl; lia).
  destruct (lr_schedule_of_sorted_milestones three_step_config (fun _ => ret tt)
              (fun _ bm bv => ret (bm, bv)) 0 two_groups 1 [] (PyFloat 1e16) 4
              (fun _ => ex_intro _ [] eq_refl)
              (fun _ bm bv => ex_intro _ [] (ex_intro _ (bm, bv) eq_refl))
              Hsorted Hlater Hsome Hfactors)
    as (trace & st & Hloop & Hlr & Hstep & _ & Hgroups).
  exists trace, st. split; [exact Hloop |].
  split; [exact Hlr |]. split; [exact Hstep |].
  rewrite Hlr in Hgroups. apply Hgroups. vm_compute. lia.
Defined.

(** X11.  A milestone the epoch loop never visits stops the schedule:
    when the milestone under the pointer is not later than the epoch the
    run starts from, or later than the last epoch, neither the rate, nor
    the pointer, nor any parameter group changes in the whole run, later
    milestones included. *)
Theorem missed_milestone_freezes_schedule (config : Config)
    (train_part : Z -> traced unit)
    (val_part : Z -> OrderedDict -> pyval -> traced (OrderedDict * pyval))
    (start_epoch : Z) (st : LoopState) (m : Z)
    (Htrain : forall e, exists t, train_part e = (t, Ok tt))
    (Hval : forall e bm bv, exists t r, val_part e bm bv = (t, Ok r))
    (Hpointer : nth_error (cfg_lr_step config) (lr_step st) = Some m)
    (Hmissed : (m <= start_epoch \/ cfg_epochs config < m)%Z) :
  exists trace st',
    main_loop config train_part val_part
              (py_range (start_epoch + 1) (cfg_epochs config + 1)) st
      = (trace, Ok st') /\
    lr st' = lr st /\ lr_step st' = lr_step st /\
    param_groups st' = param_groups st.
Proof.
  destruct (main_loop_missed config train_part val_part Htrain Hval
              (py_range (start_epoch + 1) (cfg_epochs config + 1)) st m Hpointer)
    as (trace & st' & Hloop & Hsched).
  { rewrite In_py_range. lia. }
  exists trace, st'. split; [exact Hloop |].
  unfold schedule_of in Hsched. injection Hsched as -> -> ->. auto.
Qed.

Lemma missed_milestone_freezes_schedule_witness :
  exists trace st',
    main_loop example_config (fun _ => ret tt) (fun _ bm bv => ret (bm, bv))
              (py_range 11 31) resumed_state = (trace, Ok st') /\
    lr st' = 1%float /\ lr_step st' = 0 /\ param_groups st' = two_groups.
Proof.
  exact (missed_milestone_freezes_schedule example_config (fun _ => ret tt)
           (fun _ bm bv => ret (bm, bv)) 10 resumed_state 10
           (fun _ => ex_intro _ [] eq_refl)
           (fun _ bm bv => ex_intro _ [] (ex_intro _ (bm, bv) eq_refl))
           eq_refl (or_introl (Z.le_refl 10))).
Defined.

(** X12.  Without a milestone under the pointer (an empty milestone
    list, for a fresh run) the first epoch of the loop is trained,
    validated and saved, and the run then stops with [IndexError]. *)
Theorem no_milestone_stops_first_epoch (config : Config)
    (train_part : Z -> traced unit)
    (val_part : Z -> OrderedDict -> pyval -> traced (OrderedDict * pyval))
    (epoch : Z) (rest : list Z) (st : LoopState)
    (Htrain : forall e, exists t, train_part e = (t, Ok tt))
    (Hval : forall e bm bv, exists t r, val_part e bm bv = (t, Ok r))
    (Hpointer : nth_error (cfg_lr_step config) (lr_step st) = None) :
  exists trace,
    main_loop config train_part val_part (epoch :: rest) st
      = (trace, Raise IndexError) /\
    In (SaveModel (checkpoint_path config
                     (if cfg_save_all config then str_of_Z epoch else "last"))
                  (Some epoch) (Some (map pg_lr (param_groups st)))) trace.
Proof.
  destruct (epoch_body_no_milestone config train_part val_part Htrain Hval
              epoch st Hpointer) as (t & Hbody & Hin).
  cbn [main_loop]. rewrite Hbody. cbn [tbind].
  exists t. split; [reflexivity | exact Hin].
Qed.

Lemma no_milestone_stops_first_epoch_witness :
  exists trace,
    main_loop no_milestone_config (fun _ => ret tt) (fun _ bm bv => ret (bm, bv))
              (py_range 1 7) (mkLoopState 1 0 two_groups [] (PyFloat 1e16))
      = (trace, Raise IndexError) /\
    In (SaveModel "out/checkpoints/model_last.pth" (Some 1%Z)
                  (Some [1; 1]%float)) trace.
Proof.
  exact (no_milestone_stops_first_epoch no_milestone_config (fun _ => ret tt)
           (fun _ bm bv => ret (bm, bv)) 1 (py_range 2 7)
           (mkLoopState 1 0 two_groups [] (PyFloat 1e16))
           (fun _ => ex_intro _ [] eq_refl)
           (fun _ bm bv => ex_intro _ [] (ex_intro _ (bm, bv) eq_refl))
           eq_refl).
Defined.

(** X13.  The milestone pointer does not get out of bounds: from a
    pointer inside a milestone list that has a factor for each milestone,
    the epoch loop returns for any list of epochs, with the pointer
    inside the list still and not moved back. *)
Theorem milestone_pointer_stays_in_bounds (config : Config)
    (train_part : Z -> traced unit)
    (val_part : Z -> OrderedDict -> pyval -> traced (OrderedDict * pyval))
    (epochs : list Z) (st : LoopState)
    (Htrain : forall e, exists t, train_part e = (t, Ok tt))
    (Hval : forall e bm bv, exists t r, val_part e bm bv = (t, Ok r))
    (Hpointer : lr_step st < length (cfg_lr_step config))
    (Hfactors : length (cfg_lr_step config) <= length (cfg_lr_factor config)) :
  exists trace st',
    main_loop config train_part val_part epochs st = (trace, Ok st') /\
    lr_step st <= lr_step st' < length (cfg_lr_step config).
Proof.
  revert st Hpointer. induction epochs as [|e rest IH]; intros st Hpointer.
  - exists [], st. split; [reflexivity | lia].
  - destruct (nth_error (cfg_lr_step config) (lr_step st)) as [m |] eqn:Em.
    2:{ apply nth_error_None in Em. lia. }
    assert (Hstep : exists t st1,
               epoch_body config train_part val_part e st = (t, Ok st1) /\
               lr_step st <= lr_step st1 < length (cfg_lr_step config)).
    { destruct (Z.eq_dec e m) as [-> | Hne].
      - destruct (nth_error (cfg_lr_factor config) (lr_step st)) as [f |] eqn:Ef.
        2:{ apply nth_error_None in Ef. lia. }
        destruct (epoch_body_hit config train_part val_part Htrain Hval
                    m st f Em Ef) as (t & st1 & Hbody & Hsched & _).
        exists t, st1. split; [exact Hbody |].
        unfold schedule_of in Hsched. injection Hsched as _ Hptr _.
        rewrite Hptr.
        destruct (Nat.ltb_spec (lr_step st + 1) (length (cfg_lr_step config))); lia.
      - destruct (epoch_body_miss config train_part val_part Htrain Hval
                    e st m Em Hne) as (t & st1 & Hbody & Hsched).
        exists t, st1. split; [exact Hbody |].
        unfold schedule_of in Hsched. injection Hsched as _ Hptr _. lia. }
    destruct Hstep as (t & st1 & Hbody & Hptr).
    destruct (IH st1) as (t' & st' & Hloop & Hptr'); [lia |].
    cbn [main_loop]. rewrite Hbody. cbn [tbind]. rewrite Hloop.
    do 2 eexists. split; [reflexivity | lia].
Qed.

Lemma milestone_pointer_stays_in_bounds_witness :
  exists trace st',
    main_loop example_config (fun _ => ret tt) (fun _ bm bv => ret (bm, bv))
              (py_range 11 31) resumed_state = (trace, Ok st') /\
    0 <= lr_step st' < 2.
Proof.
  apply (milestone_pointer_stays_in_bounds example_config (fun _ => ret tt)
           (fun _ bm bv => ret (bm, bv)) (py_range 11 31) resumed_state
           (fun _ => ex_intro _ [] eq_refl)
           (fun _ bm bv => ex_intro _ [] (ex_intro _ (bm, bv) eq_refl))).
  - simpl. lia.
  - simpl. lia.
Defined.

(** ** [validate]: scalars, a missing key metric, NaN *)

Lemma scalars_written_app (t1 t2 : list event) :
  scalars_written (t1 ++ t2) = scalars_written t1 ++ scalars_written t2.
Proof. apply flat_map_app. Qed.

Lemma summary_loop_scalars (items : OrderedDict) (epoch : option Z) :
  Forall (fun kv => snd kv <> PyNone) items ->
  forall print_str, exists t msg,
    summary_loop items epoch print_str = (t, Ok msg) /\
    files_written t = [] /\
    scalars_written t = validation_scalars items epoch.
Proof.
  induction 1 as [|[k v] rest Hv _ IH]; intros print_str; simpl.
  - now exists [], print_str.
  - simpl in Hv. unfold tbind, tell, lift.
    destruct v as [| z | f]; [congruence | |]; simpl;
      match goal with |- context [summary_loop rest epoch ?p] =>
        destruct (IH p) as (t & msg & -> & Ht & Hs) end;
      do 2 eexists; (split; [reflexivity |]); simpl; now rewrite Ht, Hs.
Qed.

(** [validate] once the evaluation returned numbers and the comparison
    of the key metric gave [condition]. *)
Lemma validate_runs
    (val_evaluator : option Z -> result (OrderedDict * PerBatch))
    (config : Config) (best_metrics : OrderedDict) (best_value : pyval)
    (epoch : option Z) (aggr_metrics : OrderedDict) (per_batch : PerBatch)
    (v : pyval) (condition : bool) :
  val_evaluator epoch = Ok (aggr_metrics, per_batch) ->
  Forall (fun kv => snd kv <> PyNone) aggr_metrics ->
  dict_get aggr_metrics (cfg_key_metric config) = Some v ->
  (if in_NEG_METRICS (cfg_key_metric config)
   then py_lt v best_value else py_gt v best_value) = Ok condition ->
  exists trace,
    validate val_evaluator config best_metrics best_value epoch
      = (trace, Ok (aggr_metrics,
                    (if condition then aggr_metrics else best_metrics),
                    (if condition then v else best_value), per_batch)) /\
    files_written trace
      = (if condition
         then [path_join (cfg_save_dir config) "model_best.pth";
               path_join (cfg_pred_dir config) "best_predictions"]
         else []) /\
    scalars_written trace = validation_scalars aggr_metrics epoch.
Proof.
  intros Heval Hvalues Hkey Hcond. unfold validate. rewrite Heval.
  destruct (summary_loop_scalars aggr_metrics epoch Hvalues
              [Lit "Epoch "; Str (py_epoch epoch); Lit " Validation Summary: "])
    as (t & msg & Hloop & Ht & Hs).
  cbn [tbind tell lift ret fst snd app]. rewrite Hloop.
  cbn [tbind tell lift ret fst snd app].
  unfold getitem. rewrite Hkey. cbn [bind].
  destruct (in_NEG_METRICS (cfg_key_metric config)); rewrite Hcond;
    destruct condition; cbn [tbind ret fst snd app];
    eexists; (split; [reflexivity |]);
    cbn [files_written scalars_written flat_map app];
    fold (files_written t); fold (scalars_written t);
    rewrite ?files_written_app, ?scalars_written_app, Ht, Hs;
    cbn [files_written scalars_written flat_map app];
    rewrite ?app_nil_r; split; reflexivity.
Qed.

(** X14.  When the evaluation does not report the configured key
    metric, [validate] raises [KeyError] for that key after it has logged
    the summary: every metric went to TensorBoard under [<key>/val], and
    no file was written. *)
Theorem validate_missing_key_metric
    (val_evaluator : option Z -> result (OrderedDict * PerBatch))
    (config : Config) (best_metrics : OrderedDict) (best_value : pyval)
    (epoch : option Z) (aggr_metrics : OrderedDict) (per_batch : PerBatch)
    (Heval : val_evaluator epoch = Ok (aggr_metrics, per_batch))
    (Hvalues : Forall (fun kv => snd kv <> PyNone) aggr_metrics)
    (Hkey : dict_get aggr_metrics (cfg_key_metric config) = None) :
  exists trace,
    validate val_evaluator config best_metrics best_value epoch
      = (trace, Raise (KeyError (cfg_key_metric config))) /\
    files_written trace = [] /\
    scalars_written trace = validation_scalars aggr_metrics epoch.
Proof.
  unfold validate. rewrite Heval.
  destruct (summary_loop_scalars aggr_metrics epoch Hvalues
              [Lit "Epoch "; Str (py_epoch epoch); Lit " Validation Summary: "])
    as (t & msg & Hloop & Ht & Hs).
  cbn [tbind tell lift ret fst snd app]. rewrite Hloop.
  cbn [tbind tell lift ret fst snd app].
  unfold getitem. rewrite Hkey. cbn [bind].
  destruct (in_NEG_METRICS (cfg_key_metric config));
    eexists; (split; [reflexivity |]);
    cbn [files_written scalars_written flat_map app];
    fold (files_written t); fold (scalars_written t);
    rewrite ?files_written_app, ?scalars_written_app, Ht, Hs;
    cbn [files_written scalars_written flat_map app];
    rewrite ?app_nil_r; split; reflexivity.
Qed.

Lemma validate_missing_key_metric_witness :
  exists trace,
    validate (fun _ => Ok (loss_only_metrics, mkPerBatch [] [])) accuracy_config
             [] (PyFloat (-1e16)) (Some 0%Z)
      = (trace, Raise (KeyError "accuracy")) /\
    files_written trace = [] /\
    scalars_written trace
      = [("epoch/val", PyInt 0, Some 0%Z); ("loss/val", PyFloat 2, Some 0%Z)].
Proof.
  apply (validate_missing_key_metric
           (fun _ => Ok (loss_only_metrics, mkPerBatch [] [])) accuracy_config
           [] (PyFloat (-1e16)) (Some 0%Z) loss_only_metrics (mkPerBatch [] [])).
  - reflexivity.
  - repeat constructor; discriminate.
  - reflexivity.
Defined.

Lemma SFcompare_refl (a : spec_float) :
  SFcompare a a = Some Eq \/ a = S754_nan.
Proof.
  destruct a as [s | s | | s m e]; simpl.
  - now left.
  - left. now destruct s.
  - now right.
  - left. rewrite Z.compare_refl.
    change (PosDef.Pos.compare_cont Eq m m) with (Pos.compare m m).
    rewrite Pos.compare_refl. now destruct s.
Qed.

Lemma nan_is_unordered (x y : float) :
  PrimFloat.is_nan x = true ->
  PrimFloat.ltb x y = false /\ PrimFloat.ltb y x = false.
Proof.
  unfold PrimFloat.is_nan. rewrite negb_true_iff, FloatAxioms.eqb_spec, !FloatAxioms.ltb_spec.
  unfold SFeqb, SFltb. intros Hnan.
  destruct (SFcompare_refl (Prim2SF x)) as [Heq | Hx].
  - rewrite Heq in Hnan. discriminate Hnan.
  - rewrite Hx. split; [reflexivity |].
    now destruct (Prim2SF y) as [[] | [] | | [] ? ?].
Qed.

(** X15.  A key metric that is NaN is never taken for an improvement,
    whichever way the key metric is compared: [validate] returns,
    [best_metrics] and [best_value] are as they were and no file is
    written. *)
Theorem nan_metric_is_never_best
    (val_evaluator : option Z -> result (OrderedDict * PerBatch))
    (config : Config) (best_metrics : OrderedDict) (best_value : pyval)
    (epoch : option Z) (aggr_metrics : OrderedDict) (per_batch : PerBatch)
    (v : float)
    (Heval : val_evaluator epoch = Ok (aggr_metrics, per_batch))
    (Hvalues : Forall (fun kv => snd kv <> PyNone) aggr_metrics)
    (Hkey : dict_get aggr_metrics (cfg_key_metric config) = Some (PyFloat v))
    (Hnan : PrimFloat.is_nan v = true)
    (Hbest : best_value <> PyNone) :
  exists trace,
    validate val_evaluator config best_metrics best_value epoch
      = (trace, Ok (aggr_metrics, best_metrics, best_value, per_batch)) /\
    files_written trace = [].
Proof.
  assert (Hcond : (if in_NEG_METRICS (cfg_key_metric config)
                   then py_lt (PyFloat v) best_value
                   else py_gt (PyFloat v) best_value) = Ok false).
  { unfold py_lt, py_gt.
    destruct best_value as [| z | b]; [congruence | |]; simpl;
      match goal with
      | |- context [PrimFloat.ltb v ?y] =>
          destruct (nan_is_unordered v y Hnan) as [H1 H2]
      | |- context [PrimFloat.ltb ?y v] =>
          destruct (nan_is_unordered v y Hnan) as [H1 H2]
      end; rewrite ?H1, ?H2; now destruct (in_NEG_METRICS _). }
  destruct (validate_runs val_evaluator config best_metrics best_value epoch
              aggr_metrics per_batch (PyFloat v) false Heval Hvalues Hkey Hcond)
    as (trace & Hrun & Hfiles & _).
  exists trace. split; [exact Hrun | exact Hfiles].
Qed.

Lemma nan_metric_is_never_best_witness :
  exists trace,
    validate (fun _ => Ok (nan_loss_metrics, mkPerBatch [] [])) example_config
             loss_only_metrics (PyFloat 2) (Some 3%Z)
      = (trace, Ok (nan_loss_metrics, loss_only_metrics, PyFloat 2,
                    mkPerBatch [] [])) /\
    files_written trace = [].
Proof.
  apply (nan_metric_is_never_best
           (fun _ => Ok (nan_loss_metrics, mkPerBatch [] [])) example_config
           loss_only_metrics (PyFloat 2) (Some 3%Z) nan_loss_metrics
           (mkPerBatch [] []) PrimFloat.nan).
  - reflexivity.
  - repeat constructor; discriminate.
  - reflexivity.
  - reflexivity.
  - discriminate.
Defined.

(** ** [main] without an epoch to train *)

Lemma py_range_empty (a b : Z) : (b <= a)%Z -> py_range a b = [].
Proof.
  intros H. unfold py_range.
  now replace (Z.to_nat (b - a)) with 0 by lia.
Qed.

Lemma strictly_better_condition (key : string) (v best : pyval) :
  strictly_better key v best ->
  (if in_NEG_METRICS key then py_lt v best else py_gt v best) = Ok true.
Proof.
  pose proof (in_NEG_METRICS_loss key) as Hneg.
  intros [[Hk H] | [Hk H]]; destruct (in_NEG_METRICS key); try exact H.
  - assert (false = true) by (apply Hneg; exact Hk). discriminate.
  - exfalso. apply Hk. now apply Hneg.
Qed.

(** X16.  When the configured number of epochs is not above the epoch
    the run starts from, [main] trains nothing and saves no epoch
    checkpoint: it validates once, as epoch 0.  When that validation's
    key metric improves on the starting value (1e16 for [loss], -1e16 for
    any other key), the checkpoint and prediction files written are the
    best checkpoint and its predictions, and that key metric is what
    [main] returns. *)
Theorem main_without_epochs_validates_once (config : Config) (start_epoch : Z)
    (optimizer : list ParamGroup)
    (val_evaluator : runner_class -> option Z -> result (OrderedDict * PerBatch))
    (train_part : runner_class -> Z -> traced unit)
    (aggr_metrics : OrderedDict) (per_batch : PerBatch) (v : pyval)
    (Htask : cfg_task config = "classification" \/ cfg_task config = "regression")
    (Hdone : (cfg_epochs config <= start_epoch)%Z)
    (Heval : val_evaluator SupervisedRunner_cls (Some 0%Z)
             = Ok (aggr_metrics, per_batch))
    (Hvalues : Forall (fun kv => snd kv <> PyNone) aggr_metrics)
    (Hkey : dict_get aggr_metrics (cfg_key_metric config) = Some v)
    (Hbetter : strictly_better (cfg_key_metric config) v (initial_best config)) :
  exists trace,
    main config start_epoch optimizer val_evaluator train_part = (trace, Ok v) /\
    files_written trace
      = [path_join (cfg_save_dir config) "model_best.pth";
         path_join (cfg_pred_dir config) "best_predictions"] /\
    scalars_written trace = validation_scalars aggr_metrics (Some 0%Z).
Proof.
  unfold main.
  assert (Hfactory : pipeline_factory config
                     = Ok (ClassiregressionDataset, collate_superv,
                           SupervisedRunner_cls)).
  { unfold pipeline_factory. destruct Htask as [-> | ->]; reflexivity. }
  rewrite Hfactory. cbn [lift tbind app].
  apply strictly_better_condition in Hbetter.
  destruct (validate_runs (val_evaluator SupervisedRunner_cls) config []
              (initial_best config) (Some 0%Z) aggr_metrics per_batch v true
              Heval Hvalues Hkey Hbetter) as (trace & Hrun & Hfiles & Hscalars).
  unfold initial_best in Hrun. rewrite Hrun.
  rewrite py_range_empty by lia.
  cbn [tbind main_loop ret best_value app].
  exists (trace ++ []). rewrite app_nil_r. repeat split; assumption.
Qed.

Lemma main_without_epochs_validates_once_witness :
  exists trace,
    main example_config 30 two_groups
         (fun _ _ => Ok (loss_only_metrics, mkPerBatch [] []))
         (fun _ _ => lift (Raise IndexError))
      = (trace, Ok (PyFloat 2)) /\
    files_written trace
      = ["out/checkpoints/model_best.pth"; "out/predictions/best_predictions"] /\
    scalars_written trace
      = [("epoch/val", PyInt 0, Some 0%Z); ("loss/val", PyFloat 2, Some 0%Z)].
Proof.
  apply (main_without_epochs_validates_once example_config 30 two_groups
           (fun _ _ => Ok (loss_only_metrics, mkPerBatch [] []))
           (fun _ _ => lift (Raise IndexError))
           loss_only_metrics (mkPerBatch [] []) (PyFloat 2)).
  - now left.
  - simpl. lia.
  - reflexivity.
  - repeat constructor; discriminate.
  - reflexivity.
  - left. split; reflexivity.
Defined.

(** ** The row lengths the encoder takes *)

(** X17.  Which batches the encoder takes.  For an encoder as its
    constructor shapes it and a non-empty batch of rows of one length
    [n >= 4]: [forward] returns, one output row per input row, when
    [n // 4] is [input_size // 4], so up to three entries more than a
    multiple of four are let through; for any other length it raises
    [RuntimeError] at the first linear layer.  This is so in any
    arithmetic. *)
Theorem forward_takes_lengths_up_to_rounding (T : Type) (A : Arithmetic T)
    (net : PSEncoder.PatternSeriesEncoder T) (masks : nat -> nat -> bool)
    (x : list (list T)) (n input_size num_classes : nat)
    (Hnet : PSEncoder.constructed net input_size num_classes = true)
    (Hclasses : 0 < num_classes)
    (Hbatch : x <> [])
    (Hrows : Forall (fun row => length row = n) x)
    (Hn : 4 <= n) :
  (n / 4 = input_size / 4 ->
   exists y, PSEncoder.forward A net masks x = Ok y /\ length y = length x) /\
  (n / 4 <> input_size / 4 ->
   PSEncoder.forward A net masks x
   = Raise (RuntimeError "mat1 and mat2 shapes cannot be multiplied")).
Proof.
  rewrite (PSEncoderFacts.forward_rows T A net masks x n Hbatch Hrows) by lia.
  split; intros Hlen.
  - destruct (mapM_Forall
                (fun p => PSEncoder.forward_sample A net (masks (fst p)) (snd p))
                (fun row => length row = num_classes)
                (combine (seq 0 (length x)) x))
      as (y & Hy & Hly & _).
    + apply Forall_forall. intros [i row] Hin. apply in_combine_r in Hin.
      rewrite Forall_forall in Hrows. cbn [fst snd].
      destruct (PSEncoderFacts.forward_sample_shape T A net input_size
                  num_classes (masks i) row Hnet) as (o & Ho & Hwidth).
      * rewrite (Hrows row Hin). exact Hn.
      * rewrite (Hrows row Hin). exact Hlen.
      * eexists. split; [exact Ho |].
        now rewrite PSEncoderFacts.softmax_layer_length.
    + exists y. split; [exact Hy |].
      rewrite Hly, length_combine, length_seq. lia.
  - destruct x as [|row rest]; [congruence |].
    inversion Hrows as [|? ? Hrow _]; subst.
    cbn [length seq combine mapM fst snd].
    rewrite (PSEncoderFacts.forward_sample_mismatch T A net input_size
               num_classes _ row Hnet Hn Hlen).
    reflexivity.
Qed.

Lemma forward_takes_lengths_up_to_rounding_witness :
  (exists y,
     PSEncoder.forward real_arithmetic zero_encoder (fun _ _ => true)
                       [[1; 2; 3; 4; 5; 6; 7]%R] = Ok y /\
     length y = 1) /\
  PSEncoder.forward real_arithmetic zero_encoder (fun _ _ => true)
                    [[1; 2; 3; 4; 5; 6; 7; 8]%R]
  = Raise (RuntimeError "mat1 and mat2 shapes cannot be multiplied").
Proof.
  split.
  - apply (forward_takes_lengths_up_to_rounding R real_arithmetic zero_encoder
             (fun _ _ => true) [[1; 2; 3; 4; 5; 6; 7]%R] 7 4 2).
    + vm_compute. reflexivity.
    + lia.
    + discriminate.
    + repeat constructor.
    + lia.
    + reflexivity.
  - apply (forward_takes_lengths_up_to_rounding R real_arithmetic zero_encoder
             (fun _ _ => true) [[1; 2; 3; 4; 5; 6; 7; 8]%R] 8 4 2).
    + vm_compute. reflexivity.
    + lia.
    + discriminate.
    + repeat constructor.
    + lia.
    + simpl. lia.
Defined.

(** ** What [make_weibull_from_trainsets] groups *)

Lemma mapM_In {A B : Type} (f : A -> result B) (l : list A) (bs : list B) :
  mapM f l = Ok bs ->
  forall b, In b bs <-> exists a, In a l /\ f a = Ok b.
Proof.
  intros H. apply mapM_Forall2 in H.
  induction H as [|a b l bs Hab _ IH]; intros b'; simpl.
  - split; [contradiction | intros (a & [] & _)].
  - rewrite IH. split.
    + intros [<- | (a' & Hin & Ha')]; [exists a; auto | exists a'; auto].
    + intros (a' & [<- | Hin] & Ha'); [left; congruence | right; eauto].
Qed.

Lemma mapM_raises {A B : Type} (f : A -> result B) (l : list A) (a : A) (e : exn) :
  In a l -> f a = Raise e -> exists e', mapM f l = Raise e'.
Proof.
  induction l as [|x l IH]; simpl; intros Hin Ha; [contradiction |].
  destruct (f x) as [b | ex] eqn:Ex; cbn [bind]; [| eauto].
  destruct Hin as [-> | Hin]; [congruence |].
  destruct (IH Hin Ha) as [e' ->]. cbn [bind]. eauto.
Qed.

Section Grouping.

Variable T : Type.
Variable S : Scalar T.

Lemma tagged_row_Ok (B : nat) (s : Sample T) (c : nat) (t : Z) (row : list T) :
  SupervisedRunner.tagged_row T S B s = Ok (c, t, row) <->
  SupervisedRunner.activation_feature T S B s = Ok row /\
  SupervisedRunner.argmax T S row = Ok c /\ t = target s.
Proof.
  unfold SupervisedRunner.tagged_row.
  destruct (SupervisedRunner.activation_feature T S B s) as [feature | e];
    cbn [bind].
  - destruct (SupervisedRunner.argmax T S feature) as [p | e] eqn:Ep; cbn [bind].
    + split.
      * intros [= <- <- <-]. auto.
      * intros ([= <-] & Hc & ->). rewrite Ep in Hc. now injection Hc as <-.
    + split; [discriminate |]. intros ([= <-] & Hc & _). congruence.
  - split; [discriminate | intros [H _]; discriminate H].
Qed.

Lemma correct_rows_In (batch : list (Sample T)) (kept : list (nat * list T))
    (c : nat) (row : list T) :
  SupervisedRunner.correct_rows T S batch = Ok kept ->
  (In (c, row) kept <->
   exists s, In s batch /\
     SupervisedRunner.activation_feature T S (length batch) s = Ok row /\
     SupervisedRunner.argmax T S row = Ok c /\
     target s = Z.of_nat c).
Proof.
  unfold SupervisedRunner.correct_rows.
  destruct (mapM _ batch) as [rows |] eqn:Erows; [| discriminate].
  cbn [bind]. intros [= <-].
  pose proof (mapM_In _ _ _ Erows) as Hin.
  rewrite in_map_iff. split.
  - intros ([[p t] f] & Heq & Hf). simpl in Heq. injection Heq as -> ->.
    apply filter_In in Hf. destruct Hf as [Hr Hc].
    unfold SupervisedRunner.is_correct in Hc. simpl in Hc.
    apply Z.eqb_eq in Hc. apply Hin in Hr. destruct Hr as (s & Hs & Hrow).
    apply tagged_row_Ok in Hrow. destruct Hrow as (Hfeat & Harg & ->).
    exists s. auto.
  - intros (s & Hs & Hfeat & Harg & Ht).
    exists (c, target s, row). split; [reflexivity |].
    apply filter_In. split.
    + apply Hin. exists s. split; [exact Hs |]. now apply tagged_row_Ok.
    + unfold SupervisedRunner.is_correct. simpl. apply Z.eqb_eq. auto.
Qed.

Lemma tagged_In (dataloader : list (list (Sample T)))
    (per_batch : list (list (nat * list T))) (c : nat) (row : list T) :
  mapM (SupervisedRunner.correct_rows T S) dataloader = Ok per_batch ->
  (In (c, row) (concat per_batch) <->
   exists batch s, In batch dataloader /\ In s batch /\
     SupervisedRunner.activation_feature T S (length batch) s = Ok row /\
     SupervisedRunner.argmax T S row = Ok c /\
     target s = Z.of_nat c).
Proof.
  intros Hpb. pose proof (mapM_In _ _ _ Hpb) as Hin.
  rewrite in_concat. split.
  - intros (kept & Hkept & Hrow). apply Hin in Hkept.
    destruct Hkept as (batch & Hbatch & Hcr).
    apply (proj1 (correct_rows_In batch kept c row Hcr)) in Hrow.
    destruct Hrow as (s & Hs & H). exists batch, s. auto.
  - intros (batch & s & Hbatch & Hs & H).
    destruct (SupervisedRunner.correct_rows T S batch) as [kept | e] eqn:Ecr.
    + exists kept. split; [apply Hin; eauto |].
      apply (correct_rows_In batch kept c row Ecr). eauto.
    + destruct (mapM_raises _ _ _ _ Hbatch Ecr) as [e' He']. congruence.
Qed.

Lemma rows_of_In (tagged : list (nat * list T)) (c : nat) (row : list T) :
  In row (SupervisedRunner.rows_of T c tagged) <-> In (c, row) tagged.
Proof.
  unfold SupervisedRunner.rows_of. rewrite in_map_iff. split.
  - intros ([c' r] & Heq & Hf). simpl in Heq. subst r.
    apply filter_In in Hf. destruct Hf as [Hin Hc]. simpl in Hc.
    apply Nat.eqb_eq in Hc. now subst c'.
  - intros Hin. exists (c, row). split; [reflexivity |].
    apply filter_In. split; [exact Hin | simpl; apply Nat.eqb_refl].
Qed.

End Grouping.

(** X18.  What [make_weibull_from_trainsets] groups before it fits
    (lines 562-596).  When the pass goes through, the groups come in
    ascending order of their class, none is empty, and the group of class
    [c] holds exactly the feature rows of the samples whose target is [c]
    and for which [c] is also the position of the largest entry of the
    whole feature row, logits and pooled latent channels together. *)
Theorem grouped_features_characterisation (T : Type) (S : Scalar T)
    (dataloader : list (list (Sample T)))
    (grouped_dict : list (nat * list (list T)))
    (Hpass : SupervisedRunner.grouped_features T S dataloader = Ok grouped_dict) :
  StronglySorted lt (map fst grouped_dict) /\
  (forall c rows, In (c, rows) grouped_dict -> rows <> []) /\
  (forall c row,
     (exists rows, In (c, rows) grouped_dict /\ In row rows) <->
     (exists batch s, In batch dataloader /\ In s batch /\
        SupervisedRunner.activation_feature T S (length batch) s = Ok row /\
        SupervisedRunner.argmax T S row = Ok c /\
        target s = Z.of_nat c)).
Proof.
  unfold SupervisedRunner.grouped_features in Hpass.
  destruct (mapM (SupervisedRunner.correct_rows T S) dataloader)
    as [per_batch | e] eqn:Epb; [| discriminate].
  cbn [bind] in Hpass.
  assert (Hcat : SupervisedRunner.cat_batches per_batch = Ok (concat per_batch)
                 \/ exists e, SupervisedRunner.cat_batches per_batch = Raise e).
  { destruct per_batch; [right; eexists; reflexivity | now left]. }
  destruct Hcat as [Hcat | [e Hcat]]; rewrite Hcat in Hpass;
    [| discriminate Hpass].
  cbn [bind] in Hpass. injection Hpass as <-.
  split; [| split].
  - unfold SupervisedRunner.group_by_category. rewrite map_map. simpl.
    rewrite map_id. apply OpenSetFacts.torch_unique_sorted.
  - intros c rows Hin. now apply (OpenSetFacts.group_rows T) in Hin.
  - intros c row. rewrite <- (tagged_In T S dataloader per_batch c row Epb).
    split.
    + intros (rows & Hin & Hrow).
      apply (OpenSetFacts.group_rows T) in Hin. destruct Hin as [-> _].
      now apply rows_of_In.
    + intros Hin. exists (SupervisedRunner.rows_of T c (concat per_batch)).
      split; [| now apply rows_of_In].
      unfold SupervisedRunner.group_by_category. apply in_map_iff.
      exists c. split; [reflexivity |].
      apply OpenSetFacts.torch_unique_In. apply in_map_iff.
      now exists (c, row).
Qed.

Lemma grouped_features_characterisation_witness :
  SupervisedRunner.grouped_features float float_scalar small_trainset
    = Ok [(1, [[0.25; 0.75; 0.125; 0.25]%float])] /\
  StronglySorted lt [1] /\
  (exists batch s, In batch small_trainset /\ In s batch /\
     SupervisedRunner.activation_feature float float_scalar (length batch) s
       = Ok [0.25; 0.75; 0.125; 0.25]%float /\
     SupervisedRunner.argmax float float_scalar [0.25; 0.75; 0.125; 0.25]%float
       = Ok 1 /\
     target s = 1%Z).
Proof.
  assert (H : SupervisedRunner.grouped_features float float_scalar small_trainset
              = Ok [(1, [[0.25; 0.75; 0.125; 0.25]%float])]) by reflexivity.
  destruct (grouped_features_characterisation float float_scalar small_trainset
              _ H) as (Hsorted & _ & Hrows).
  split; [exact H |]. split; [exact Hsorted |].
  apply (proj1 (Hrows 1 [0.25; 0.75; 0.125; 0.25]%float)).
  eexists. split; [left; reflexivity | left; reflexivity].
Defined.

(** X19.  A batch of a single sample stops both open-set passes.  With
    such a batch in the loader, [make_weibull_from_trainsets] raises as
    soon as the sample has a latent layer to pool, and the runner's
    [openmax] raises in any case: neither returns a model or scores. *)
Theorem single_sample_batch_stops_open_set (T : Type) (S : Scalar T)
    (channel_distance : T -> T -> T) (leb : T -> T -> bool)
    (mle_fit : list T -> openmax.WeibullParams T) (tail_size : nat)
    (dataloader : list (list (Sample T))) (s : Sample T)
    (alpha : nat) (real_distance : R -> R -> R)
    (weibull_model : openmax.WeibullModel R)
    (real_loader : list (list (Sample R))) (r : Sample R)
    (Hbatch : In [s] dataloader /\ In [r] real_loader) :
  (latent s <> [] ->
   exists e,
     SupervisedRunner.make_weibull_from_trainsets T S channel_distance leb
       mle_fit tail_size dataloader = Raise e) /\
  (exists e,
     SupervisedRunner.openmax alpha real_distance weibull_model real_loader
     = Raise e).
Proof.
  destruct Hbatch as [Hs Hr]. split.
  - intros Hlatent.
    assert (Hfeat : exists e, SupervisedRunner.activation_feature T S 1 s = Raise e).
    { unfold SupervisedRunner.activation_feature.
      destruct (latent s) as [|layer rest]; [congruence |].
      cbn [mapM]. unfold SupervisedRunner.squeeze_pool at 1.
      cbn [Nat.eqb orb bind]. eauto. }
    destruct Hfeat as [e He].
    assert (Hrows : exists e', SupervisedRunner.correct_rows T S [s] = Raise e').
    { unfold SupervisedRunner.correct_rows, SupervisedRunner.tagged_row.
      cbn [length mapM]. rewrite He. cbn [bind]. eauto. }
    destruct Hrows as [e' He'].
    destruct (mapM_raises _ _ _ _ Hs He') as [e'' He''].
    unfold SupervisedRunner.make_weibull_from_trainsets,
      SupervisedRunner.grouped_features.
    rewrite He''. cbn [bind]. eauto.
  - unfold SupervisedRunner.openmax.
    destruct (mapM _ real_loader) as [per_batch | e]; cbn [bind]; [| eauto].
    destruct (SupervisedRunner.cat_batches per_batch) as [scores | e];
      cbn [bind]; [| eauto].
    replace (existsb (fun batch => Nat.eqb (length batch) 1) real_loader)
      with true; [cbn [bind]; eauto |].
    symmetry. apply existsb_exists. exists [r]. split; [exact Hr | reflexivity].
Qed.

Lemma single_sample_batch_stops_open_set_witness :
  (exists e,
     SupervisedRunner.make_weibull_from_trainsets float float_scalar
       abs_difference PrimFloat.leb unit_weibull 20 trainset_with_single
     = Raise e) /\
  (exists e,
     SupervisedRunner.openmax 1 (fun a b => Rabs (a - b)) []
       [[real_sample; real_sample]; [real_sample]] = Raise e).
Proof.
  destruct (single_sample_batch_stops_open_set float float_scalar abs_difference
              PrimFloat.leb unit_weibull 20 trainset_with_single
              strong_latent_sample 1 (fun a b => Rabs (a - b)) []
              [[real_sample; real_sample]; [real_sample]] real_sample)
    as [Hfit Hscores].
  - split; [right; left; reflexivity | right; left; reflexivity].
  - split; [apply Hfit; discriminate | exact Hscores].
Defined.
